(** * Recipe matching and generation engine

    A shallow embedding of the recipe assistant: the dietary matcher, the
    ingredient scorer and the ranker of [app.py] and [cli.py], and the two
    recipe generators of [ai_service.py].

    Conventions of the model.
    - A Python [str] is a [string]; [str.lower] maps the ASCII capitals to
      their small letters and leaves every other byte alone.
    - A recipe is the JSON object the corpus file holds.  The model keeps the
      keys the code reads, each of them optional (a key may be missing from
      the dict), at the type a well-typed corpus gives it.
    - The values of the scores are idealised as exact rationals ([Q]) in
      the modules [App] and [Cli]: they are the values of the arithmetic
      expressions of the code, without the rounding of binary64.  The order
      of the ranked list depends on the rounding, so the module [Binary64]
      holds the ranker once more on Python's floats, and what is said of the
      order and of what the routes return is said of that one.
    - A failure is explicit: a function that can raise returns a [result]. *)

From Stdlib Require Import Ascii QArith Lqa PrimFloat SpecFloat FloatOps FloatAxioms.
From Stdlib Require Uint63.
From stdpp Require Import base list strings gmap sorting.

(** ** Strings *)

Module Str.

  (** [c.lower()] on one character. *)
Definition lower_ascii (c : ascii) : ascii :=
    let n := N_of_ascii c in
    if ((65 <=? n) && (n <=? 90))%N then ascii_of_N (n + 32) else c.

  (** [s.lower()]. *)
Fixpoint lower (s : string) : string :=
    match s with
    | EmptyString => EmptyString
    | String c s' => String (lower_ascii c) (lower s')
    end.

  (** [needle in hay] on two strings: substring containment; the empty
      string is contained in every string. *)
Fixpoint contains (needle hay : string) : bool :=
    String.prefix needle hay ||
    match hay with
    | EmptyString => false
    | String _ hay' => contains needle hay'
    end.

  (** [x in xs] on a list of strings. *)
Definition mem (x : string) (xs : list string) : bool :=
    bool_decide (x ∈ xs).

  (** Truth value of a string: the empty string is false. *)
Definition truthy (s : string) : bool := negb (String.eqb s "").

End Str.

(** ** Data model *)

(** The [dietary_info] dict: seven boolean flags, each of which may be
    missing. *)
Module Dietary.
Record t := mk {
    vegetarian : option bool;
    vegan : option bool;
    gluten_free : option bool;
    dairy_free : option bool;
    nut_free : option bool;
    low_carb : option bool;
    keto : option bool
  }.

  (** The empty dict [{}]. *)
Definition empty : t := mk None None None None None None None.

  (** [d.get(key, False)]. *)
Definition get (flag : option bool) : bool := default false flag.
End Dietary.

(** A recipe dict. *)
Module Recipe.
Record t := mk {
    id : option Z;
    name : option string;
    cuisine : option string;
    meal_type : option string;
    difficulty : option string;
    prep_time : option Z;
    cook_time : option Z;
    servings : option Z;
    ingredients : option (list string);
    steps : option (list string);
    dietary_info : option Dietary.t;
    tags : option (list string);
    ai_generated : option bool
  }.

  (** The empty dict [{}]. *)
Definition empty : t :=
    mk None None None None None None None None None None None None None.
End Recipe.

(** The [preferences] dict. *)
Module Preferences.
Record t := mk {
    cuisine : option string;
    meal_type : option string;
    difficulty : option string
  }.

  (** [preferences.get(key)] used as a condition: true when the key is
      present with a non-empty string. *)
Definition requested (field : option string) : bool :=
    match field with
    | Some s => Str.truthy s
    | None => false
    end.
End Preferences.

(** One entry of the ranked list. *)
Module Scored.
Record t := mk {
    recipe : Recipe.t;
    score : Q;
    ingredient_match : Q;
    preference_match : Q
  }.
End Scored.

(** ** [app.py] *)

Module App.

  (** The body of the [for restriction in restrictions] loop: [false] when
      the loop returns [False] at this restriction. *)
Definition restriction_passes
      (recipe_tags : list string) (recipe_dietary : Dietary.t)
      (restriction : string) : bool :=
    let restriction_lower := Str.lower restriction in
    if String.eqb restriction_lower "vegetarian" then
      negb (negb (Dietary.get (Dietary.vegetarian recipe_dietary))
            && negb (Str.mem "vegetarian" recipe_tags))
    else if String.eqb restriction_lower "vegan" then
      negb (negb (Dietary.get (Dietary.vegan recipe_dietary))
            && negb (Str.mem "vegan" recipe_tags))
    else if String.eqb restriction_lower "gluten-free" then
      negb (negb (Dietary.get (Dietary.gluten_free recipe_dietary))
            && negb (Str.mem "gluten-free" recipe_tags))
    else if String.eqb restriction_lower "dairy-free" then
      negb (negb (Dietary.get (Dietary.dairy_free recipe_dietary))
            && negb (Str.mem "dairy-free" recipe_tags))
    else if String.eqb restriction_lower "nut-free" then
      negb (negb (Dietary.get (Dietary.nut_free recipe_dietary))
            && negb (Str.mem "nut-free" recipe_tags))
    else if String.eqb restriction_lower "low-carb" then
      negb (negb (Dietary.get (Dietary.low_carb recipe_dietary))
            && negb (Str.mem "low-carb" recipe_tags))
    else if String.eqb restriction_lower "keto" then
      negb (negb (Dietary.get (Dietary.keto recipe_dietary))
            && negb (Str.mem "keto" recipe_tags))
    else true.

  (** The loop: it returns [False] at the first restriction that fails, and
      [True] when it runs to its end. *)
Fixpoint check_restrictions
      (recipe_tags : list string) (recipe_dietary : Dietary.t)
      (restrictions : list string) : bool :=
    match restrictions with
    | [] => true
    | restriction :: rest =>
        if restriction_passes recipe_tags recipe_dietary restriction
        then check_restrictions recipe_tags recipe_dietary rest
        else false
    end.

Definition matches_dietary_restrictions
      (recipe : Recipe.t) (restrictions : list string) : bool :=
    match restrictions with
    | [] => true
    | _ =>
        let recipe_tags := default [] (Recipe.tags recipe) in
        let recipe_dietary := default Dietary.empty (Recipe.dietary_info recipe) in
        check_restrictions recipe_tags recipe_dietary restrictions
    end.

  (** [any(avail in ing or ing in avail for avail in available_lower)]. *)
Definition ingredient_available (available_lower : list string) (ing : string) : bool :=
    existsb (fun avail => Str.contains avail ing || Str.contains ing avail)
            available_lower.

  (** [sum(1 for ing in recipe_ingredients if ...)]. *)
Definition count_matching (recipe_ingredients available_lower : list string) : nat :=
    length (filter (fun ing => ingredient_available available_lower ing = true)
                   recipe_ingredients).

Definition calculate_ingredient_match_score
      (recipe : Recipe.t) (available_ingredients : list string) : Q :=
    match available_ingredients with
    | [] => 1
    | _ =>
        let recipe_ingredients := map Str.lower (default [] (Recipe.ingredients recipe)) in
        let available_lower := map Str.lower available_ingredients in
        let matching := count_matching recipe_ingredients available_lower in
        let total := length recipe_ingredients in
        if Nat.eqb total 0 then 0
        else
          let score := (inject_Z (Z.of_nat matching) / inject_Z (Z.of_nat total))%Q in
          if Nat.eqb matching total then 1 else score
    end.

  (** The three preference checks of the loop body.  [wanted] is the field
      of [preferences], [have] the field of the recipe. *)
Definition cuisine_match (wanted have : option string) : bool :=
    if Preferences.requested wanted then
      let recipe_cuisine := Str.lower (default "" have) in
      let preferred_cuisine := Str.lower (default "" wanted) in
      Str.contains preferred_cuisine recipe_cuisine
    else true.

Definition meal_type_match (wanted have : option string) : bool :=
    if Preferences.requested wanted then
      let recipe_meal_type := Str.lower (default "" have) in
      let preferred_meal_type := Str.lower (default "" wanted) in
      Str.contains preferred_meal_type recipe_meal_type
    else true.

Definition difficulty_match (wanted have : option string) : bool :=
    if Preferences.requested wanted then
      let recipe_difficulty := Str.lower (default "" have) in
      let preferred_difficulty := Str.lower (default "" wanted) in
      String.eqb recipe_difficulty preferred_difficulty
    else true.

Definition preference_score (cuisine_ok meal_type_ok difficulty_ok : bool) : Q :=
    let s0 := 1%Q in
    let s1 := if negb cuisine_ok then (s0 * 0.7)%Q else s0 in
    let s2 := if negb meal_type_ok then (s1 * 0.7)%Q else s1 in
    let s3 := if negb difficulty_ok then (s2 * 0.8)%Q else s2 in
    s3.

  (** One turn of the loop of [filter_recipes]: [None] when the recipe is
      skipped ([continue]), the appended entry otherwise. *)
Definition rank_one
      (preferences : Preferences.t) (dietary_restrictions available_ingredients : list string)
      (recipe : Recipe.t) : option Scored.t :=
    if negb (matches_dietary_restrictions recipe dietary_restrictions) then None
    else
      let match_score := calculate_ingredient_match_score recipe available_ingredients in
      let cuisine_ok :=
        cuisine_match (Preferences.cuisine preferences) (Recipe.cuisine recipe) in
      let meal_type_ok :=
        meal_type_match (Preferences.meal_type preferences) (Recipe.meal_type recipe) in
      let difficulty_ok :=
        difficulty_match (Preferences.difficulty preferences) (Recipe.difficulty recipe) in
      let preference_score := preference_score cuisine_ok meal_type_ok difficulty_ok in
      let final_score := (match_score * 0.6 + preference_score * 0.4)%Q in
      Some (Scored.mk recipe final_score match_score preference_score).

  (** The loop of [filter_recipes]: [filtered] grows by [append]. *)
Definition collect
      (preferences : Preferences.t) (dietary_restrictions available_ingredients : list string)
      (recipes : list Recipe.t) : list Scored.t :=
    fold_left
      (fun filtered recipe =>
         match rank_one preferences dietary_restrictions available_ingredients recipe with
         | None => filtered
         | Some entry => filtered ++ [entry]
         end)
      recipes [].

  (** [list.sort(key=..., reverse=True)] on the exact values: what the sort
      would give if the scores were not rounded.  Which entries the list
      holds does not depend on the rounding; their order does, and
      [Binary64.filter_recipes] has the order of the code. *)
Fixpoint insert_desc {A} (key : A → Q) (x : A) (l : list A) : list A :=
    match l with
    | [] => [x]
    | y :: l' =>
        if Qle_bool (key y) (key x) then x :: y :: l'
        else y :: insert_desc key x l'
    end.

Definition sort_desc {A} (key : A → Q) (l : list A) : list A :=
    foldr (insert_desc key) [] l.

Definition filter_recipes
      (recipes : list Recipe.t) (preferences : Preferences.t)
      (dietary_restrictions available_ingredients : list string) : list Scored.t :=
    let filtered := collect preferences dietary_restrictions available_ingredients recipes in
    sort_desc Scored.score filtered.

End App.

(** ** [cli.py] *)

Module Cli.

  (** [cli.py] writes the dietary check as seven independent [if]s. *)
Definition restriction_passes
      (recipe_tags : list string) (recipe_dietary : Dietary.t)
      (restriction : string) : bool :=
    let r := Str.lower restriction in
    if String.eqb r "vegetarian"
       && (negb (Dietary.get (Dietary.vegetarian recipe_dietary))
           && negb (Str.mem "vegetarian" recipe_tags)) then false
    else if String.eqb r "vegan"
       && (negb (Dietary.get (Dietary.vegan recipe_dietary))
           && negb (Str.mem "vegan" recipe_tags)) then false
    else if String.eqb r "gluten-free"
       && (negb (Dietary.get (Dietary.gluten_free recipe_dietary))
           && negb (Str.mem "gluten-free" recipe_tags)) then false
    else if String.eqb r "dairy-free"
       && (negb (Dietary.get (Dietary.dairy_free recipe_dietary))
           && negb (Str.mem "dairy-free" recipe_tags)) then false
    else if String.eqb r "nut-free"
       && (negb (Dietary.get (Dietary.nut_free recipe_dietary))
           && negb (Str.mem "nut-free" recipe_tags)) then false
    else if String.eqb r "low-carb"
       && (negb (Dietary.get (Dietary.low_carb recipe_dietary))
           && negb (Str.mem "low-carb" recipe_tags)) then false
    else if String.eqb r "keto"
       && (negb (Dietary.get (Dietary.keto recipe_dietary))
           && negb (Str.mem "keto" recipe_tags)) then false
    else true.

Fixpoint check_restrictions
      (recipe_tags : list string) (recipe_dietary : Dietary.t)
      (restrictions : list string) : bool :=
    match restrictions with
    | [] => true
    | restriction :: rest =>
        if restriction_passes recipe_tags recipe_dietary restriction
        then check_restrictions recipe_tags recipe_dietary rest
        else false
    end.

Definition matches_dietary_restrictions
      (recipe : Recipe.t) (restrictions : list string) : bool :=
    match restrictions with
    | [] => true
    | _ =>
        let recipe_tags := default [] (Recipe.tags recipe) in
        let recipe_dietary := default Dietary.empty (Recipe.dietary_info recipe) in
        check_restrictions recipe_tags recipe_dietary restrictions
    end.

  (** [calculate_ingredient_match_score] and [filter_recipes] of [cli.py]
      repeat those of [app.py] statement for statement; they differ in the
      dietary check they call. *)
Definition calculate_ingredient_match_score := App.calculate_ingredient_match_score.

Definition rank_one
      (preferences : Preferences.t) (dietary_restrictions available_ingredients : list string)
      (recipe : Recipe.t) : option Scored.t :=
    if negb (matches_dietary_restrictions recipe dietary_restrictions) then None
    else
      let match_score := calculate_ingredient_match_score recipe available_ingredients in
      let cuisine_ok :=
        App.cuisine_match (Preferences.cuisine preferences) (Recipe.cuisine recipe) in
      let meal_type_ok :=
        App.meal_type_match (Preferences.meal_type preferences) (Recipe.meal_type recipe) in
      let difficulty_ok :=
        App.difficulty_match (Preferences.difficulty preferences) (Recipe.difficulty recipe) in
      let preference_score := App.preference_score cuisine_ok meal_type_ok difficulty_ok in
      let final_score := (match_score * 0.6 + preference_score * 0.4)%Q in
      Some (Scored.mk recipe final_score match_score preference_score).

Definition filter_recipes
      (recipes : list Recipe.t) (preferences : Preferences.t)
      (dietary_restrictions available_ingredients : list string) : list Scored.t :=
    let filtered :=
      fold_left
        (fun filtered recipe =>
           match rank_one preferences dietary_restrictions available_ingredients recipe with
           | None => filtered
           | Some entry => filtered ++ [entry]
           end)
        recipes [] in
    App.sort_desc Scored.score filtered.

End Cli.

(** ** The ranker on Python's floats *)

(** [calculate_ingredient_match_score] and [filter_recipes] with the
    arithmetic of the code: a Python [float] is a binary64 number, and
    [*], [+] and [/] round to the nearest one. *)
Module Binary64.

#[warnings="-inexact-float"]
Definition preference_score (cuisine_ok meal_type_ok difficulty_ok : bool) : float :=
    let s0 := 1%float in
    let s1 := if negb cuisine_ok then (s0 * 0.7)%float else s0 in
    let s2 := if negb meal_type_ok then (s1 * 0.7)%float else s1 in
    let s3 := if negb difficulty_ok then (s2 * 0.8)%float else s2 in
    s3.

#[warnings="-inexact-float"]
Definition final_score (match_score preference_score : float) : float :=
    (match_score * 0.6 + preference_score * 0.4)%float.

  (** The float of a length.  [matching / total] on two [int]s below [2^53]
      is the quotient of their floats, rounded once. *)
Definition of_nat (n : nat) : float := of_uint63 (Uint63.of_Z (Z.of_nat n)).

Definition calculate_ingredient_match_score
      (recipe : Recipe.t) (available_ingredients : list string) : float :=
    match available_ingredients with
    | [] => 1%float
    | _ =>
        let recipe_ingredients := map Str.lower (default [] (Recipe.ingredients recipe)) in
        let available_lower := map Str.lower available_ingredients in
        let matching := App.count_matching recipe_ingredients available_lower in
        let total := length recipe_ingredients in
        if Nat.eqb total 0 then 0%float
        else
          let score := (of_nat matching / of_nat total)%float in
          if Nat.eqb matching total then 1%float else score
    end.

  (** One entry of the ranked list, as the code builds it. *)
Record scored := mk {
    recipe : Recipe.t;
    score : float;
    ingredient_match : float;
    preference_match : float
  }.

  (** One turn of the loop of [filter_recipes].  [matches] is the dietary
      check that the loop calls: the one of [app.py] or the one of
      [cli.py]. *)
Definition rank_one
      (matches : Recipe.t → list string → bool)
      (preferences : Preferences.t) (dietary_restrictions available_ingredients : list string)
      (recipe : Recipe.t) : option scored :=
    if negb (matches recipe dietary_restrictions) then None
    else
      let match_score := calculate_ingredient_match_score recipe available_ingredients in
      let cuisine_ok :=
        App.cuisine_match (Preferences.cuisine preferences) (Recipe.cuisine recipe) in
      let meal_type_ok :=
        App.meal_type_match (Preferences.meal_type preferences) (Recipe.meal_type recipe) in
      let difficulty_ok :=
        App.difficulty_match (Preferences.difficulty preferences) (Recipe.difficulty recipe) in
      let preference_score := preference_score cuisine_ok meal_type_ok difficulty_ok in
      let final_score := final_score match_score preference_score in
      Some (mk recipe final_score match_score preference_score).

  (** The loop: [filtered] grows by [append]. *)
Definition collect
      (matches : Recipe.t → list string → bool)
      (preferences : Preferences.t) (dietary_restrictions available_ingredients : list string)
      (recipes : list Recipe.t) : list scored :=
    fold_left
      (fun filtered recipe =>
         match rank_one matches preferences dietary_restrictions available_ingredients
                 recipe with
         | None => filtered
         | Some entry => filtered ++ [entry]
         end)
      recipes [].

  (** [list.sort(key=..., reverse=True)] on float keys none of which is a
      NaN.  The sort compares two keys by [<] and is stable, also under
      [reverse=True]: an entry goes behind the entries with a greater key and
      in front of the first entry whose key is not greater than its own. *)
Fixpoint insert_desc {A} (key : A → float) (x : A) (l : list A) : list A :=
    match l with
    | [] => [x]
    | y :: l' =>
        if (key x <? key y)%float then y :: insert_desc key x l'
        else x :: y :: l'
    end.

Definition sort_desc {A} (key : A → float) (l : list A) : list A :=
    foldr (insert_desc key) [] l.

  (** [filter_recipes] of [app.py]. *)
Definition filter_recipes
      (recipes : list Recipe.t) (preferences : Preferences.t)
      (dietary_restrictions available_ingredients : list string) : list scored :=
    let filtered :=
      collect App.matches_dietary_restrictions preferences dietary_restrictions
        available_ingredients recipes in
    sort_desc score filtered.

  (** [filter_recipes] of [cli.py]. *)
Definition cli_filter_recipes
      (recipes : list Recipe.t) (preferences : Preferences.t)
      (dietary_restrictions available_ingredients : list string) : list scored :=
    let filtered :=
      collect Cli.matches_dietary_restrictions preferences dietary_restrictions
        available_ingredients recipes in
    sort_desc score filtered.

End Binary64.

(** ** Python values that are shared: the store *)

Module Py.
  (** The exceptions the modelled code can raise. *)
Inductive exn :=
  | KeyError (key : string)
  | TypeError
  | JSONDecodeError
  | RecursionError.

Inductive result (A : Type) :=
  | Ok (a : A)
  | Raise (e : exn).
  Arguments Ok {A} a.
  Arguments Raise {A} e.
End Py.

(** A dict or a list is an object of the store, and a variable or a dict
    entry holds its address: two names for one list see each other's
    updates.  Strings, numbers and booleans cannot be updated in place and
    are kept as values. *)
Module Heap.

  Abbreviation loc := nat.

  (** A recipe dict as it lies in the store: its lists and its
      [dietary_info] dict are addresses. *)
Record dict := mk {
    id : option Z;
    name : option string;
    cuisine : option string;
    meal_type : option string;
    difficulty : option string;
    prep_time : option Z;
    cook_time : option Z;
    servings : option Z;
    ingredients : option loc;
    steps : option loc;
    dietary_info : option loc;
    tags : option loc;
    ai_generated : option bool
  }.

  (** [d[key] = v] for the three keys [adapt_recipe] assigns. *)
Definition set_ingredients (v : loc) (d : dict) : dict :=
    mk (id d) (name d) (cuisine d) (meal_type d) (difficulty d) (prep_time d)
       (cook_time d) (servings d) (Some v) (steps d) (dietary_info d) (tags d)
       (ai_generated d).

Definition set_name (v : string) (d : dict) : dict :=
    mk (id d) (Some v) (cuisine d) (meal_type d) (difficulty d) (prep_time d)
       (cook_time d) (servings d) (ingredients d) (steps d) (dietary_info d) (tags d)
       (ai_generated d).

Definition set_ai_generated (v : bool) (d : dict) : dict :=
    mk (id d) (name d) (cuisine d) (meal_type d) (difficulty d) (prep_time d)
       (cook_time d) (servings d) (ingredients d) (steps d) (dietary_info d) (tags d)
       (Some v).

Inductive obj :=
  | ODict (d : dict)
  | OList (xs : list string)
  | ODietary (d : Dietary.t).

  (** The store: the object at address [l] is the [l]-th one; a new object
      goes to the end. *)
  Abbreviation t := (list obj).

  (** A computation on the store that returns or raises. *)
Definition M (A : Type) : Type := t → Py.result A * t.

Definition ret {A} (a : A) : M A := λ h, (Py.Ok a, h).

#[global] Instance M_ret : MRet M := @ret.

#[global] Instance M_bind : MBind M := λ A B f m h,
    match m h with
    | (Py.Ok a, h') => f a h'
    | (Py.Raise e, h') => (Py.Raise e, h')
    end.

Definition raise {A} (e : Py.exn) : M A := λ h, (Py.Raise e, h).

  (** [try: m except Exception: handler]. *)
Definition try_except {A} (m : M A) (handler : Py.exn → M A) : M A := λ h,
    match m h with
    | (Py.Ok a, h') => (Py.Ok a, h')
    | (Py.Raise e, h') => handler e h'
    end.

Definition alloc (o : obj) : M loc := λ h, (Py.Ok (length h), h ++ [o]).

Definition read_dict (l : loc) : M dict := λ h,
    match h !! l with
    | Some (ODict d) => (Py.Ok d, h)
    | _ => (Py.Raise Py.TypeError, h)
    end.

Definition read_list (l : loc) : M (list string) := λ h,
    match h !! l with
    | Some (OList xs) => (Py.Ok xs, h)
    | _ => (Py.Raise Py.TypeError, h)
    end.

Definition write (l : loc) (o : obj) : M unit := λ h, (Py.Ok (), <[l:=o]> h).

  (** [d[key] = v] on the dict at [l]. *)
Definition update_dict (l : loc) (f : dict → dict) : M unit :=
    d ← read_dict l; write l (ODict (f d)).

  (** [for x in xs: body]. *)
Fixpoint for_each {A} (xs : list A) (body : A → M unit) : M unit :=
    match xs with
    | [] => ret ()
    | x :: xs' => body x ≫= λ _, for_each xs' body
    end.

  (** [for x in xs: v = body(v, x)], a loop that rebinds one variable. *)
Fixpoint for_fold {A B} (xs : list A) (body : B → A → M B) (v : B) : M B :=
    match xs with
    | [] => ret v
    | x :: xs' => v' ← body v x; for_fold xs' body v'
    end.

  (** The value of a recipe dict: what reading it key by key gives.  [None]
      when an address does not hold what the key's type asks for. *)
Definition load_list (h : t) (ref : option loc) : option (option (list string)) :=
    match ref with
    | None => Some None
    | Some l => match h !! l with Some (OList xs) => Some (Some xs) | _ => None end
    end.

Definition load_dietary (h : t) (ref : option loc) : option (option Dietary.t) :=
    match ref with
    | None => Some None
    | Some l => match h !! l with Some (ODietary d) => Some (Some d) | _ => None end
    end.

Definition load (h : t) (l : loc) : option Recipe.t :=
    match h !! l with
    | Some (ODict d) =>
        ings ← load_list h (ingredients d);
        stps ← load_list h (steps d);
        diet ← load_dietary h (dietary_info d);
        tgs ← load_list h (tags d);
        Some (Recipe.mk (id d) (name d) (cuisine d) (meal_type d) (difficulty d)
                (prep_time d) (cook_time d) (servings d) ings stps diet tgs
                (ai_generated d))
    | _ => None
    end.

End Heap.

(** ** [ai_service.py]: the template generator *)

Module FallbackAIGenerator.

  (** The [cuisine_ingredients] dict of [generate_recipe]. *)
Definition cuisine_ingredients : list (string * list string) :=
    [ ("Italian", ["tomatoes"; "basil"; "parmesan cheese"]);
      ("Indian", ["curry powder"; "turmeric"; "cumin"]);
      ("Japanese", ["soy sauce"; "ginger"; "sesame oil"]);
      ("Mexican", ["cilantro"; "lime"; "cumin"]);
      ("Mediterranean", ["lemon"; "oregano"; "olives"]) ].

  (** [d[key]] when [key in d], on a dict written as its list of items. *)
Fixpoint dict_get {V} (d : list (string * V)) (key : string) : option V :=
    match d with
    | [] => None
    | (k, v) :: d' => if String.eqb key k then Some v else dict_get d' key
    end.

Definition steps : list string :=
    [ "Prepare all ingredients. Wash and chop vegetables if needed.";
      "Heat oil in a pan over medium heat. Add aromatics and cook until fragrant.";
      "Add main ingredients and cook for 5-7 minutes until tender.";
      "Season with salt, pepper, and spices to taste.";
      "Stir everything together and cook for another 2-3 minutes.";
      "Serve hot, garnished with fresh herbs if available." ].

  Section Generate.

    (** [list(set(xs))]: the distinct elements of [xs], in the order in
        which the set happens to list them.  Python leaves that order open
        (it follows the hashes of the strings), so the order is a parameter
        of the model. *)
    Variable set_to_list : list string → list string.

Definition generate_recipe
        (preferences : Preferences.t)
        (dietary_restrictions available_ingredients : list string) : Recipe.t :=
      let cuisine := default "International" (Preferences.cuisine preferences) in
      let meal_type := default "Dinner" (Preferences.meal_type preferences) in
      let difficulty := default "Easy" (Preferences.difficulty preferences) in
      let is_vegan := Str.mem "vegan" dietary_restrictions in
      let is_vegetarian := Str.mem "vegetarian" dietary_restrictions || is_vegan in
      let is_gluten_free := Str.mem "gluten-free" dietary_restrictions in
      let is_dairy_free := Str.mem "dairy-free" dietary_restrictions || is_vegan in
      let base_name0 := cuisine +:+ " " +:+ meal_type in
      let base_name1 := if is_vegetarian then "Vegetarian " +:+ base_name0 else base_name0 in
      let base_name := if is_gluten_free then "Gluten-Free " +:+ base_name1 else base_name1 in
      let recipe_name :=
        if String.eqb meal_type "Lunch" then base_name +:+ " Bowl"
        else base_name +:+ " Dish" in
      let ingredients0 :=
        match available_ingredients with
        | [] => ["olive oil"; "garlic"; "salt"; "pepper"]
        | _ => take 5 available_ingredients
        end in
      let ingredients :=
        match dict_get cuisine_ingredients cuisine with
        | Some extra => ingredients0 ++ take 2 extra
        | None => ingredients0
        end in
      let prep_time :=
        if String.eqb difficulty "Easy" then 10%Z
        else if String.eqb difficulty "Medium" then 15%Z else 20%Z in
      let cook_time :=
        if String.eqb difficulty "Easy" then 15%Z
        else if String.eqb difficulty "Medium" then 25%Z else 35%Z in
      {| Recipe.id := Some 9999%Z;
         Recipe.name := Some recipe_name;
         Recipe.cuisine := Some cuisine;
         Recipe.meal_type := Some meal_type;
         Recipe.difficulty := Some difficulty;
         Recipe.prep_time := Some prep_time;
         Recipe.cook_time := Some cook_time;
         Recipe.servings := Some 4%Z;
         Recipe.ingredients := Some (set_to_list ingredients);
         Recipe.steps := Some steps;
         Recipe.dietary_info :=
           Some {| Dietary.vegetarian := Some is_vegetarian;
                   Dietary.vegan := Some is_vegan;
                   Dietary.gluten_free := Some is_gluten_free;
                   Dietary.dairy_free := Some is_dairy_free;
                   Dietary.nut_free := Some true;
                   Dietary.low_carb := Some (Str.mem "low-carb" dietary_restrictions);
                   Dietary.keto := Some (Str.mem "keto" dietary_restrictions) |};
         Recipe.tags := Some (dietary_restrictions ++ ["ai-generated"]);
         Recipe.ai_generated := Some true |}.

  End Generate.

  (** One turn of [for old_ing, new_ing in substitutions.items()]: the list
      comprehension makes a new list, and the variable is bound to it. *)
Definition apply_substitution
      (adapted_ingredients : Heap.loc) (item : string * string) : Heap.M Heap.loc :=
    let '(old_ing, new_ing) := item in
    ys ← Heap.read_list adapted_ingredients;
    Heap.alloc
      (Heap.OList
         (map (λ ing, if String.eqb (Str.lower ing) (Str.lower old_ing)
                      then new_ing else ing) ys)).

  (** One turn of [for i, ing in enumerate(adapted_ingredients)]: the list is
      updated in place. *)
Definition replace_unavailable
      (available_ingredients : list string) (adapted_ingredients : Heap.loc)
      (i : nat) : Heap.M unit :=
    ys ← Heap.read_list adapted_ingredients;
    match ys !! i with
    | Some ing =>
        if negb (Str.mem (Str.lower ing) (map Str.lower available_ingredients)) then
          match available_ingredients with
          | first :: _ => Heap.write adapted_ingredients (Heap.OList (<[i:=first]> ys))
          | [] => Heap.ret ()
          end
        else Heap.ret ()
    | None => Heap.ret ()
    end.

  (** [adapt_recipe], on the store: [recipe] is the address of the caller's
      dict.  [available_ingredients] and [substitutions] are only read; the
      items of [substitutions] come in the order of the dict. *)
Definition adapt_recipe
      (recipe : Heap.loc) (available_ingredients : list string)
      (substitutions : list (string * string)) : Heap.M Heap.loc :=
    (* adapted = recipe.copy() *)
    d ← Heap.read_dict recipe;
    adapted ← Heap.alloc (Heap.ODict d);
    (* adapted_ingredients = adapted.get('ingredients', []).copy() *)
    d ← Heap.read_dict adapted;
    ings ← match Heap.ingredients d with
           | Some l => Heap.ret l
           | None => Heap.alloc (Heap.OList [])
           end;
    xs ← Heap.read_list ings;
    adapted_ingredients ← Heap.alloc (Heap.OList xs);
    (* Apply substitutions *)
    adapted_ingredients ←
      Heap.for_fold substitutions apply_substitution adapted_ingredients;
    (* Replace unavailable ingredients with available ones *)
    ys ← Heap.read_list adapted_ingredients;
    Heap.for_each (seq 0 (length ys))
      (replace_unavailable available_ingredients adapted_ingredients);;
    (* adapted['ingredients'] = adapted_ingredients *)
    Heap.update_dict adapted (Heap.set_ingredients adapted_ingredients);;
    (* adapted['name'] = f"{adapted['name']} (Adapted)" *)
    d ← Heap.read_dict adapted;
    name ← match Heap.name d with
           | Some name => Heap.ret name
           | None => Heap.raise (Py.KeyError "name")
           end;
    Heap.update_dict adapted (Heap.set_name (name +:+ " (Adapted)"));;
    (* adapted['ai_generated'] = True *)
    Heap.update_dict adapted (Heap.set_ai_generated true);;
    Heap.ret adapted.

Definition generate_cooking_tips (recipe : Recipe.t) : list string :=
    let difficulty := default "Easy" (Recipe.difficulty recipe) in
    let meal_type := default "Dinner" (Recipe.meal_type recipe) in
    let tips :=
      [ "Always prep your ingredients before you start cooking (mise en place).";
        "For " +:+ Str.lower difficulty +:+ " recipes, read through all steps before beginning.";
        "Taste and adjust seasoning as you cook, not just at the end." ] in
    if String.eqb meal_type "Breakfast" then
      tips ++ ["Prep can be done the night before to save morning time."]
    else if String.eqb meal_type "Dinner" then
      tips ++ ["Let proteins rest for a few minutes after cooking for better juiciness."]
    else tips.

End FallbackAIGenerator.

(** ** Standard library: [re] and [json] *)

(** The part of [re] that the two patterns of [_parse_json_from_response]
    use, with the search order of Python's backtracking matcher: the
    leftmost start, and at a star one more turn before the rest of the
    pattern. *)
Module Re.

Inductive t :=
  | Chr (c : ascii)           (* an escaped literal, as [\{] *)
  | Any                       (* [.] under [re.DOTALL] *)
  | NoneOf (cs : list ascii)  (* [[^...]] *)
  | Seq (r1 r2 : t)
  | Star (r : t).             (* greedy [r*] *)

Definition one (p : ascii → bool) {X} (s : string) (k : string → option X) : option X :=
    match s with
    | String c s' => if p c then k s' else None
    | EmptyString => None
    end.

  (** The turns of a star on the matcher [body] of its operand: one more
      turn first, the rest of the pattern ([k]) when that fails.  A turn has
      to consume a character; there are at most [n] of them. *)
Fixpoint star_loop {X} (body : string → (string → option X) → option X)
    (k : string → option X) (n : nat) (s : string) : option X :=
    match n with
    | 0 => k s
    | S n' =>
        match body s (λ s', if String.length s' <? String.length s
                            then star_loop body k n' s' else None) with
        | Some x => Some x
        | None => k s
        end
    end.

  (** [go r s k]: match [r] at the start of [s] and give the rest of [s] to
      [k]; when [k] refuses, try the next way to match [r]. *)
Fixpoint go {X} (r : t) : string → (string → option X) → option X :=
    match r with
    | Chr c => one (Ascii.eqb c)
    | Any => one (λ _, true)
    | NoneOf cs => one (λ c, negb (bool_decide (c ∈ cs)))
    | Seq r1 r2 => λ s k, go r1 s (λ s', go r2 s' k)
    | Star r1 => λ s k, star_loop (go r1) k (String.length s) s
    end.

  (** The first [n] characters of [s]. *)
Fixpoint take (n : nat) (s : string) : string :=
    match n, s with
    | S n', String c s' => String c (take n' s')
    | _, _ => EmptyString
    end.

  (** [re.search(r, s)]: the text of the first match ([.group()]), or [None]. *)
Fixpoint search (r : t) (s : string) : option string :=
    match go r s Some with
    | Some rest => Some (take (String.length s - String.length rest) s)
    | None =>
        match s with
        | EmptyString => None
        | String _ s' => search r s'
        end
    end.

End Re.

(** [json.loads] on ASCII text, after the grammar that [json.decoder]
    implements.  An escape [\uXXXX] above 007F is outside this model and
    makes [loads] fail here. *)
Module Json.

#[warnings="-register-all"] Inductive value :=
  | Null
  | Bool (b : bool)
  | Int (z : Z)
  | Float (m e : Z)           (* the decimal [m * 10^e], before rounding *)
  | NaN
  | Infinity (negative : bool)
  | Str (s : string)
  | Array (xs : list value)
  | Object (items : list (string * value)).

  (** [d[key] = v] on the items of a dict: a key that is there keeps its
      place. *)
Fixpoint dict_set (items : list (string * value)) (key : string) (v : value)
    : list (string * value) :=
    match items with
    | [] => [(key, v)]
    | (k, v') :: items' =>
        if String.eqb k key then (k, v) :: items'
        else (k, v') :: dict_set items' key v
    end.

  (** The truth value of a decoded value, as [if data:] takes it. *)
Definition truthy (v : value) : bool :=
    match v with
    | Null => false
    | Bool b => b
    | Int z => negb (Z.eqb z 0)
    | Float m _ => negb (Z.eqb m 0)
    | NaN | Infinity _ => true
    | Str s => Str.truthy s
    | Array xs => match xs with [] => false | _ => true end
    | Object items => match items with [] => false | _ => true end
    end.

Definition is_ws (c : ascii) : bool :=
    let n := N_of_ascii c in
    ((n =? 32) || (n =? 9) || (n =? 10) || (n =? 13))%N.

Fixpoint skip_ws (s : string) : string :=
    match s with
    | String c s' => if is_ws c then skip_ws s' else s
    | EmptyString => s
    end.

Definition digit (c : ascii) : option Z :=
    let n := N_of_ascii c in
    if ((48 <=? n) && (n <=? 57))%N then Some (Z.of_N (n - 48)) else None.

  (** A run of digits: the number read so far, how many digits were read, the rest. *)
Fixpoint digits (acc : Z) (count : Z) (s : string) : Z * Z * string :=
    match s with
    | String c s' =>
        match digit c with
        | Some d => digits (acc * 10 + d) (count + 1) s'
        | None => (acc, count, s)
        end
    | EmptyString => (acc, count, s)
    end.

  (** A number: an optional minus; 0, or a digit from 1 to 9 followed by
      digits; then, each optional, a point with digits and an exponent (e or
      E, an optional sign, digits).  With neither fraction nor exponent the
      value is an [int], otherwise a [float]. *)
Definition parse_number (s : string) : option (value * string) :=
    let '(negative, s1) :=
      match s with
      | String "-" s' => (true, s')
      | _ => (false, s)
      end in
    let integer :=
      match s1 with
      | String "0" s' => Some (0%Z, s')
      | String c _ =>
          match digit c with
          | Some _ => let '(n, _, rest) := digits 0 0 s1 in Some (n, rest)
          | None => None
          end
      | EmptyString => None
      end in
    match integer with
    | None => None
    | Some (n, s2) =>
        let '(m, shift, s3, has_frac) :=
          match s2 with
          | String "." s' =>
              let '(m, count, rest) := digits n 0 s' in
              if (count =? 0)%Z then (n, 0%Z, s2, false) else (m, count, rest, true)
          | _ => (n, 0%Z, s2, false)
          end in
        let '(e, s4, has_exp) :=
          match s3 with
          | String c s' =>
              if Ascii.eqb c "e" || Ascii.eqb c "E" then
                let '(minus, s'') :=
                  match s' with
                  | String "-" t => (true, t)
                  | String "+" t => (false, t)
                  | _ => (false, s')
                  end in
                let '(x, count, rest) := digits 0 0 s'' in
                if (count =? 0)%Z then (0%Z, s3, false)
                else ((if minus then - x else x)%Z, rest, true)
              else (0%Z, s3, false)
          | EmptyString => (0%Z, s3, false)
          end in
        let signed := (if negative then - m else m)%Z in
        if has_frac || has_exp then Some (Float signed (e - shift), s4)
        else Some (Int signed, s4)
    end.

Definition hex (c : ascii) : option N :=
    let n := N_of_ascii c in
    if ((48 <=? n) && (n <=? 57))%N then Some (n - 48)%N
    else if ((97 <=? n) && (n <=? 102))%N then Some (n - 87)%N
    else if ((65 <=? n) && (n <=? 70))%N then Some (n - 55)%N
    else None.

  (** The text of a string after its opening quote, up to the closing one. *)
Fixpoint parse_string (s : string) : option (string * string) :=
    match s with
    | EmptyString => None
    | String "034" s' => Some (EmptyString, s')
    | String "\" (String c s') =>
        let escaped (x : ascii) (rest : string) :=
          match parse_string rest with
          | Some (text, rest') => Some (String x text, rest')
          | None => None
          end in
        if Ascii.eqb c "034" then escaped "034"%char s'
        else if Ascii.eqb c "\" then escaped "\"%char s'
        else if Ascii.eqb c "/" then escaped "/"%char s'
        else if Ascii.eqb c "b" then escaped "008"%char s'
        else if Ascii.eqb c "f" then escaped "012"%char s'
        else if Ascii.eqb c "n" then escaped "010"%char s'
        else if Ascii.eqb c "r" then escaped "013"%char s'
        else if Ascii.eqb c "t" then escaped "009"%char s'
        else if Ascii.eqb c "u" then
          match s' with
          | String h1 (String h2 (String h3 (String h4 rest))) =>
              match hex h1, hex h2, hex h3, hex h4 with
              | Some a, Some b, Some c, Some d =>
                  let code := (((a * 16 + b) * 16 + c) * 16 + d)%N in
                  if (code <? 128)%N then escaped (ascii_of_N code) rest else None
              | _, _, _, _ => None
              end
          | _ => None
          end
        else None
    | String c s' =>
        if (N_of_ascii c <? 32)%N then None
        else
          match parse_string s' with
          | Some (text, rest) => Some (String c text, rest)
          | None => None
          end
    end.

Definition starts_with (word s : string) : option string :=
    if String.prefix word s
    then Some (String.substring (String.length word) (String.length s - String.length word) s)
    else None.

  Section Containers.
    (** The decoder of one value, for the elements of a container. *)
    Variable parse_value : string → Py.result (value * string).

    (** The elements of an array, after a first value is known to start. *)
Fixpoint parse_elements (n : nat) (s : string) : Py.result (list value * string) :=
      match n with
      | 0 => Py.Raise Py.JSONDecodeError
      | S n' =>
          match parse_value s with
          | Py.Raise e => Py.Raise e
          | Py.Ok (v, s1) =>
              match skip_ws s1 with
              | String "," s2 =>
                  match parse_elements n' (skip_ws s2) with
                  | Py.Ok (vs, rest) => Py.Ok (v :: vs, rest)
                  | Py.Raise e => Py.Raise e
                  end
              | String "]" s2 => Py.Ok ([v], s2)
              | _ => Py.Raise Py.JSONDecodeError
              end
          end
      end.

    (** The members of an object, the cursor being at the quote that opens a
        key. *)
Fixpoint parse_members (n : nat) (s : string)
      : Py.result (list (string * value) * string) :=
      match n with
      | 0 => Py.Raise Py.JSONDecodeError
      | S n' =>
          match s with
          | String "034" s0 =>
              match parse_string s0 with
              | None => Py.Raise Py.JSONDecodeError
              | Some (key, s1) =>
                  match skip_ws s1 with
                  | String ":" s2 =>
                      match parse_value (skip_ws s2) with
                      | Py.Raise e => Py.Raise e
                      | Py.Ok (v, s3) =>
                          match skip_ws s3 with
                          | String "," s4 =>
                              match parse_members n' (skip_ws s4) with
                              | Py.Ok (items, rest) => Py.Ok ((key, v) :: items, rest)
                              | Py.Raise e => Py.Raise e
                              end
                          | String "}" s4 => Py.Ok ([(key, v)], s4)
                          | _ => Py.Raise Py.JSONDecodeError
                          end
                      end
                  | _ => Py.Raise Py.JSONDecodeError
                  end
              end
          | _ => Py.Raise Py.JSONDecodeError
          end
      end.
  End Containers.

  (** The pairs of an object become a dict: a later pair with the same key
      overwrites the value. *)
Definition to_dict (pairs : list (string * value)) : list (string * value) :=
    fold_left (λ items '(k, v), dict_set items k v) pairs [].

  (** A value that is neither a string, an object nor an array. *)
Definition parse_scalar (s : string) : Py.result (value * string) :=
    match starts_with "null" s, starts_with "true" s, starts_with "false" s with
    | Some rest, _, _ => Py.Ok (Null, rest)
    | _, Some rest, _ => Py.Ok (Bool true, rest)
    | _, _, Some rest => Py.Ok (Bool false, rest)
    | _, _, _ =>
        match parse_number s with
        | Some r => Py.Ok r
        | None =>
            match starts_with "NaN" s, starts_with "Infinity" s,
                  starts_with "-Infinity" s with
            | Some rest, _, _ => Py.Ok (NaN, rest)
            | _, Some rest, _ => Py.Ok (Infinity false, rest)
            | _, _, Some rest => Py.Ok (Infinity true, rest)
            | _, _, _ => Py.Raise Py.JSONDecodeError
            end
        end
    end.

  (** One value.  The decoder calls itself for what an object or an array
      holds, and the interpreter counts these calls: [depth] is how many of
      them, one inside the other, its recursion limit still allows.  At an
      object or an array that comes when none is left, [RecursionError] is
      raised.  A text that is not JSON raises [JSONDecodeError]. *)
Fixpoint parse_value (depth : nat) (s : string) : Py.result (value * string) :=
    match s with
    | EmptyString => Py.Raise Py.JSONDecodeError
    | String "034" s' =>
        match parse_string s' with
        | Some (text, rest) => Py.Ok (Str text, rest)
        | None => Py.Raise Py.JSONDecodeError
        end
    | String "{" s' =>
        match depth with
        | 0 => Py.Raise Py.RecursionError
        | S depth' =>
            match skip_ws s' with
            | String "}" rest => Py.Ok (Object [], rest)
            | s1 =>
                match parse_members (parse_value depth') (String.length s1) s1 with
                | Py.Ok (pairs, rest) => Py.Ok (Object (to_dict pairs), rest)
                | Py.Raise e => Py.Raise e
                end
            end
        end
    | String "[" s' =>
        match depth with
        | 0 => Py.Raise Py.RecursionError
        | S depth' =>
            match skip_ws s' with
            | String "]" rest => Py.Ok (Array [], rest)
            | s1 =>
                match parse_elements (parse_value depth') (String.length s1) s1 with
                | Py.Ok (vs, rest) => Py.Ok (Array vs, rest)
                | Py.Raise e => Py.Raise e
                end
            end
        end
    | _ => parse_scalar s
    end.

  (** [json.loads(s)] under a recursion limit that allows [limit] nested
      objects and arrays: one value with white space around it and nothing
      else.  It returns the value or raises [JSONDecodeError] or
      [RecursionError]. *)
Definition loads (limit : nat) (s : string) : Py.result value :=
    match parse_value limit (skip_ws s) with
    | Py.Ok (v, rest) =>
        match skip_ws rest with
        | EmptyString => Py.Ok v
        | _ => Py.Raise Py.JSONDecodeError
        end
    | Py.Raise e => Py.Raise e
    end.

End Json.

(** ** [ai_service.py]: the Gemini generator *)

Module GeminiGenerator.

  (** [r'\{.*\}'], compiled with [re.DOTALL]. *)
Definition object_pattern : Re.t :=
    Re.Seq (Re.Chr "{") (Re.Seq (Re.Star Re.Any) (Re.Chr "}")).

  (** [[^\[\]]] *)
Definition no_bracket : Re.t := Re.NoneOf ["["%char; "]"%char].

  (** The pattern of the array search, [\[ N* (?: \[ N* \] N* )* \]] where
      [N] is [no_bracket] (blanks added for reading). *)
Definition array_pattern : Re.t :=
    Re.Seq (Re.Chr "[")
      (Re.Seq (Re.Star no_bracket)
         (Re.Seq
            (Re.Star
               (Re.Seq (Re.Chr "[")
                  (Re.Seq (Re.Star no_bracket)
                     (Re.Seq (Re.Chr "]") (Re.Star no_bracket)))))
            (Re.Chr "]"))).

  Section Parse.
    (** [json.loads]: it returns a value or raises. *)
    Variable json_loads : string → Py.result Json.value.

    (** One of the two attempts: search the pattern and decode the match.
        [Some v] is [return v].  [except json.JSONDecodeError: pass] lets the
        function go on, and so does a search without match; an exception of
        any other class leaves the function. *)
Definition attempt (pattern : Re.t) (response_text : string)
      : Py.result (option Json.value) :=
      match Re.search pattern response_text with
      | Some json_str =>
          match json_loads json_str with
          | Py.Ok v => Py.Ok (Some v)
          | Py.Raise Py.JSONDecodeError => Py.Ok None
          | Py.Raise e => Py.Raise e
          end
      | None => Py.Ok None
      end.

Definition _parse_json_from_response (response_text : string)
      : Py.result (option Json.value) :=
      if negb (Str.truthy response_text) then Py.Ok None
      else
        match attempt object_pattern response_text with
        | Py.Ok (Some v) => Py.Ok (Some v)
        | Py.Raise e => Py.Raise e
        | Py.Ok None =>
            match attempt array_pattern response_text with
            | Py.Ok (Some v) => Py.Ok (Some v)
            | Py.Raise e => Py.Raise e
            | Py.Ok None => Py.Ok None
            end
        end.
  End Parse.

  (** What the call of the model inside [try] comes to: the text of a
      response, or an exception (network, quota, a response without text). *)
Inductive outcome :=
  | Responds (response_text : string)
  | Fails.

  (** A recipe is returned as the model gave it or as the template
      generator made it. *)
Inductive generated :=
  | GeneratedByModel (recipe_data : Json.value)
  | GeneratedByTemplate (recipe : Recipe.t).

Inductive adapted :=
  | AdaptedByModel (adapted_data : Json.value)
  | AdaptedByTemplate (adapted : Heap.loc).

Inductive tips :=
  | TipsByModel (tips_data : list Json.value)
  | TipsByTemplate (tips : list string).

  Section Generate.
    Variable json_loads : string → Py.result Json.value.
    Variable set_to_list : list string → list string.

    (** The model's answer: the outcome of the call. *)
    Variable answer : outcome.

    (** [generate_recipe].  An assignment [recipe_data['id'] = 9999] on a
        value that is not a dict raises [TypeError] inside [try], and the
        handler falls back; so it does when the extraction raises. *)
Definition generate_recipe
        (preferences : Preferences.t)
        (dietary_restrictions available_ingredients : list string) : generated :=
      let fallback :=
        GeneratedByTemplate
          (FallbackAIGenerator.generate_recipe set_to_list preferences
             dietary_restrictions available_ingredients) in
      match answer with
      | Fails => fallback
      | Responds response_text =>
          match _parse_json_from_response json_loads response_text with
          | Py.Ok (Some recipe_data) =>
              if Json.truthy recipe_data then
                match recipe_data with
                | Json.Object items =>
                    GeneratedByModel (Json.Object (Json.dict_set items "id" (Json.Int 9999)))
                | _ => fallback
                end
              else fallback
          | Py.Ok None => fallback
          | Py.Raise _ => fallback
          end
      end.

    (** [adapt_recipe].  The fallback of the [else] branch runs inside
        [try], so when it raises, the handler runs the fallback again.  When
        the extraction raises, the handler runs the fallback. *)
Definition adapt_recipe
        (recipe : Heap.loc) (available_ingredients : list string)
        (substitutions : list (string * string)) : Heap.M adapted :=
      let fallback :=
        adapted ← FallbackAIGenerator.adapt_recipe recipe available_ingredients substitutions;
        Heap.ret (AdaptedByTemplate adapted) in
      match answer with
      | Fails => fallback
      | Responds response_text =>
          match _parse_json_from_response json_loads response_text with
          | Py.Ok (Some adapted_data) =>
              if Json.truthy adapted_data then
                match adapted_data with
                | Json.Object items =>
                    d ← Heap.read_dict recipe;
                    let items := Json.dict_set items "ai_generated" (Json.Bool true) in
                    let id := Json.Int (default 9999%Z (Heap.id d)) in
                    Heap.ret (AdaptedByModel (Json.Object (Json.dict_set items "id" id)))
                | _ => fallback
                end
              else Heap.try_except fallback (λ _, fallback)
          | Py.Ok None => Heap.try_except fallback (λ _, fallback)
          | Py.Raise _ => fallback
          end
      end.

    (** [generate_cooking_tips]. *)
Definition generate_cooking_tips (recipe : Recipe.t) : tips :=
      let fallback := TipsByTemplate (FallbackAIGenerator.generate_cooking_tips recipe) in
      match answer with
      | Fails => fallback
      | Responds response_text =>
          match _parse_json_from_response json_loads response_text with
          | Py.Ok (Some (Json.Array (x :: xs))) => TipsByModel (x :: xs)
          | _ => fallback
          end
      end.
  End Generate.

End GeminiGenerator.

(** ** [app.py]: the routes *)

Module Routes.

  (** The JSON body of a request to [/api/recommend]; a key may be missing. *)
Record recommend_request := {
    req_preferences : option Preferences.t;
    req_dietary_restrictions : option (list string);
    req_available_ingredients : option (list string);
    req_use_ai_generation : option bool
  }.

  (** The JSON body of the answer. *)
Record recommend_response := {
    recipes : list Recipe.t;
    total_matches : nat;
    ai_generated_included : bool
  }.

  (** [recommend_recipes].  [stored] is what [load_recipes()] reads;
      [generate] is [ai_generator.generate_recipe], which returns a recipe or
      raises inside [try]. *)
Definition recommend_recipes
      (generate : Preferences.t → list string → list string → Py.result Recipe.t)
      (stored : list Recipe.t) (data : recommend_request) : recommend_response :=
    let preferences := default (Preferences.mk None None None) (req_preferences data) in
    let dietary_restrictions := default [] (req_dietary_restrictions data) in
    let available_ingredients := default [] (req_available_ingredients data) in
    let use_ai_generation := default false (req_use_ai_generation data) in
    let recipes := stored in
    let '(ai_generated, recipes) :=
      if use_ai_generation && negb (bool_decide (available_ingredients = [])) then
        match generate preferences dietary_restrictions available_ingredients with
        | Py.Ok generated => (Some generated, recipes ++ [generated])
        | Py.Raise _ => (None, recipes)
        end
      else (None, recipes) in
    let filtered :=
      Binary64.filter_recipes recipes preferences dietary_restrictions
        available_ingredients in
    {| recipes := map Binary64.recipe (take 10 filtered);
       total_matches := length filtered;
       ai_generated_included := bool_decide (is_Some ai_generated) |}.

  (** [next((r for r in recipes if r.get('id') == recipe_id), None)], on the
      store: the address of the first dict with this id. *)
Fixpoint find_recipe (recipes : list Heap.loc) (recipe_id : Z) : Heap.M (option Heap.loc) :=
    match recipes with
    | [] => Heap.ret None
    | r :: rest =>
        d ← Heap.read_dict r;
        if bool_decide (Heap.id d = Some recipe_id) then Heap.ret (Some r)
        else find_recipe rest recipe_id
    end.

  (** The JSON body of a request to [/api/adapt/<id>]. *)
Record adapt_request := {
    req_adapt_available_ingredients : option (list string);
    req_substitutions : option (list (string * string))
  }.

  (** The answer of [/api/adapt/<id>]: 404, 200 with the adapted recipe, or
      500 with the exception. *)
Inductive adapt_response (A : Type) :=
  | NotFound
  | Adapted (adapted_recipe : A)
  | ServerError (e : Py.exn).
  Arguments NotFound {A}.
  Arguments Adapted {A} adapted_recipe.
  Arguments ServerError {A} e.

  (** [adapt_recipe(recipe_id)].  [recipes] are the dicts that
      [load_recipes()] made; [adapt] is [ai_generator.adapt_recipe].  A dict
      that was found has the key [id] and so is not empty: [if not recipe]
      is the test for [None]. *)
Definition adapt_recipe {A}
      (adapt : Heap.loc → list string → list (string * string) → Heap.M A)
      (recipes : list Heap.loc) (recipe_id : Z) (data : adapt_request)
    : Heap.M (adapt_response A) :=
    recipe ← find_recipe recipes recipe_id;
    match recipe with
    | None => Heap.ret NotFound
    | Some recipe =>
        let available_ingredients := default [] (req_adapt_available_ingredients data) in
        let substitutions := default [] (req_substitutions data) in
        Heap.try_except
          (adapted_recipe ← adapt recipe available_ingredients substitutions;
           Heap.ret (Adapted adapted_recipe))
          (λ e, Heap.ret (ServerError e))
    end.

End Routes.

(** ** [cli.py]: the commands of [main] *)

Module CliMain.

  (** What the [recommend] command prints: the message that nothing
      matches, or recipes. *)
Inductive output :=
  | NoMatch
  | Printed (recipes : list Recipe.t).

  (** The [recommend] command.  The options that are not given are empty
      strings and empty lists; [top] is the integer of [--top]. *)
Definition recommend
      (recipes : list Recipe.t) (cuisine meal_type difficulty : string)
      (diet have : list string) (top : Z) : output :=
    let preferences := Preferences.mk (Some cuisine) (Some meal_type) (Some difficulty) in
    let filtered := Binary64.cli_filter_recipes recipes preferences diet have in
    match filtered with
    | [] => NoMatch
    | _ => Printed (map Binary64.recipe (take (Z.to_nat (Z.max 1 top)) filtered))
    end.

  (** The [adapt] command: [None] stands for the message that the recipe is
      not found; the call of the generator is not inside [try].  [recipes]
      are the dicts that [load_recipes()] made, [adapt] is
      [ai.adapt_recipe]; the substitutions are the empty dict. *)
Definition adapt {A}
      (adapt : Heap.loc → list string → list (string * string) → Heap.M A)
      (recipes : list Heap.loc) (id : Z) (have : list string) : Heap.M (option A) :=
    recipe ← Routes.find_recipe recipes id;
    match recipe with
    | None => Heap.ret None
    | Some recipe =>
        adapted ← adapt recipe have [];
        Heap.ret (Some adapted)
    end.

End CliMain.

(** ** [ai_service.py] and [app.py]: which generator, and what is said of it *)

Module Config.

  (** [GEMINI_API_KEY = ""] *)
Definition GEMINI_API_KEY : string := "".

  (** [a or b] on values that are a string or [None]. *)
Definition py_or (a b : option string) : option string :=
    match a with
    | Some s => if Str.truthy s then a else b
    | None => b
    end.

  (** [GEMINI_API_KEY or os.getenv('GEMINI_API_KEY') or os.getenv('GOOGLE_API_KEY')];
      the two arguments are the values of the environment variables. *)
Definition api_key (env_gemini env_google : option string) : option string :=
    py_or (py_or (Some GEMINI_API_KEY) env_gemini) env_google.

  (** The truth value of a string or [None]. *)
Definition truthy (v : option string) : bool :=
    match v with
    | Some s => Str.truthy s
    | None => false
    end.

Inductive generator :=
  | Gemini
  | Fallback.

  (** [get_ai_generator].  [available] is [GEMINI_AVAILABLE]; [init_ok] says
      whether [GeminiGenerator()] returns rather than raises. *)
Definition get_ai_generator
      (available : bool) (env_gemini env_google : option string) (init_ok : bool)
    : generator :=
    if available && truthy (api_key env_gemini env_google) then
      if init_ok then Gemini else Fallback
    else Fallback.

  (** White space as [str.strip] takes it, on ASCII. *)
Definition is_space (c : ascii) : bool :=
    let n := N_of_ascii c in
    (((9 <=? n) && (n <=? 13)) || ((28 <=? n) && (n <=? 32)))%N.

Fixpoint lstrip (s : string) : string :=
    match s with
    | String c s' => if is_space c then lstrip s' else s
    | EmptyString => s
    end.

Fixpoint rstrip (s : string) : string :=
    match s with
    | String c s' =>
        match rstrip s' with
        | EmptyString => if is_space c then EmptyString else String c EmptyString
        | r => String c r
        end
    | EmptyString => s
    end.

  (** [s.strip()] *)
Definition strip (s : string) : string := rstrip (lstrip s).

Record status := {
    has_gemini : bool;
    ai_available : bool;
    message : string
  }.

  (** [ai_status] *)
Definition ai_status (env_gemini env_google : option string) : status :=
    let api_key := api_key env_gemini env_google in
    let has_gemini :=
      match api_key with
      | Some key => negb (String.eqb (strip key) "")
      | None => false
      end in
    {| has_gemini := has_gemini;
       ai_available := true;
       message := if has_gemini then "Google Gemini API enabled"
                  else "Using fallback AI generator" |}.

End Config.

(** ** The specification's words *)

Module Spec.

  (** The recognized labels, each with the flag of [dietary_info] that
      corresponds to it. *)
Definition dietary_flags : list (string * (Dietary.t → option bool)) :=
    [ ("vegetarian", Dietary.vegetarian);
      ("vegan", Dietary.vegan);
      ("gluten-free", Dietary.gluten_free);
      ("dairy-free", Dietary.dairy_free);
      ("nut-free", Dietary.nut_free);
      ("low-carb", Dietary.low_carb);
      ("keto", Dietary.keto) ].

Definition recognized : list string := dietary_flags.*1.

  (** A recognized label is satisfied by a recipe when its flag is true or
      the label itself is among the tags. *)
Definition satisfies (recipe : Recipe.t) (label : string) : Prop :=
    ∀ flag, (label, flag) ∈ dietary_flags →
      Dietary.get (flag (default Dietary.empty (Recipe.dietary_info recipe))) = true
      ∨ label ∈ default [] (Recipe.tags recipe).

  (** [a] occurs in [b]: some text, then [a], then some text. *)
Definition substring (a b : string) : Prop :=
    ∃ pre post, b = pre +:+ a +:+ post.

  (** A recipe ingredient is matched by the owned ingredients when, both
      lower-cased, it contains one of them or is contained in one of them. *)
Definition ingredient_matched (owned : list string) (ing : string) : Prop :=
    ∃ o, o ∈ owned ∧ (substring (Str.lower o) (Str.lower ing)
                      ∨ substring (Str.lower ing) (Str.lower o)).

  (** A preference field constrains the ranking when it is present and not
      the empty string. *)
Definition asks (wanted : option string) (s : string) : Prop :=
    wanted = Some s ∧ s ≠ "".

  (** The requested text does not occur in the recipe's field (both
      lower-cased; a missing field counts as the empty string). *)
Definition not_contained (wanted have : option string) : Prop :=
    ∃ s, asks wanted s ∧ ¬ substring (Str.lower s) (Str.lower (default "" have)).

  (** The requested text is not the recipe's field (both lower-cased). *)
Definition not_equal (wanted have : option string) : Prop :=
    ∃ s, asks wanted s ∧ Str.lower s ≠ Str.lower (default "" have).

  (** [f] is the factor a check contributes: [q] on a mismatch, 1 otherwise. *)
Definition factor (mismatch : Prop) (q f : Q) : Prop :=
    (mismatch ∧ f = q) ∨ (¬ mismatch ∧ f = 1%Q).

  (** What the ranker records for a recipe. *)
Definition entry_ok
      (preferences : Preferences.t) (owned : list string) (e : Scored.t) : Prop :=
    let r := Scored.recipe e in
    Scored.ingredient_match e = App.calculate_ingredient_match_score r owned
    ∧ (∃ fc fm fd,
         factor (not_contained (Preferences.cuisine preferences) (Recipe.cuisine r)) 0.7 fc
         ∧ factor (not_contained (Preferences.meal_type preferences) (Recipe.meal_type r)) 0.7 fm
         ∧ factor (not_equal (Preferences.difficulty preferences) (Recipe.difficulty r)) 0.8 fd
         ∧ (Scored.preference_match e == 1 * fc * fm * fd)%Q)
    ∧ Scored.score e
      = (Scored.ingredient_match e * 0.6 + Scored.preference_match e * 0.4)%Q
    ∧ (0 <= Scored.score e <= 1)%Q.

  (** A list in non-increasing order of the float key: every later entry
      has a key that is less or equal, as [<=] on floats has it. *)
Definition descending {A} (key : A → float) : list A → Prop :=
    StronglySorted (λ a b, (key b <=? key a)%float = true).

  (** The entries whose key equals [s], as [==] on floats has it, in the
      order in which they stand. *)
Definition with_key {A} (key : A → float) (s : float) (l : list A) : list A :=
    List.filter (λ a, (key a =? s)%float) l.

  (** A binary64 number that is zero or positive, infinity included: not a
      NaN and not negative. *)
Definition not_negative (f : spec_float) : Prop :=
    match f with
    | S754_nan => False
    | S754_zero _ => True
    | S754_infinity s | S754_finite s _ _ => s = false
    end.

  (** No recipe has [2^53] ingredients or more: the lengths are integers
      that binary64 holds exactly. *)
Definition short_lists (recipes : list Recipe.t) : Prop :=
    Forall (λ r, (Z.of_nat (length (default [] (Recipe.ingredients r))) < 2 ^ 53)%Z)
      recipes.

  (** [f] lists a set the way [list(set(xs))] does: every element of [xs],
      each of them once. *)
Definition lists_the_set (f : list string → list string) : Prop :=
    ∀ xs, NoDup (f xs) ∧ ∀ x, x ∈ f xs ↔ x ∈ xs.

  (** The substitutions, applied to one ingredient one after the other in
      the order of the mapping. *)
Definition substitute_one (substitutions : list (string * string)) (ing : string) : string :=
    fold_left
      (λ ing '(old_ing, new_ing),
         if decide (Str.lower ing = Str.lower old_ing) then new_ing else ing)
      substitutions ing.

  (** The substitutions read as one table: the first item whose key is the
      ingredient (lower-cased) gives its value. *)
Fixpoint substitute_first (substitutions : list (string * string)) (ing : string) : string :=
    match substitutions with
    | [] => ing
    | (old_ing, new_ing) :: rest =>
        if decide (Str.lower ing = Str.lower old_ing) then new_ing
        else substitute_first rest ing
    end.

  (** No value of the mapping is, lower-cased, a key of a later item. *)
Definition no_chain (substitutions : list (string * string)) : Prop :=
    ∀ i j old_ing new_ing old_ing' new_ing',
      i < j →
      substitutions !! i = Some (old_ing, new_ing) →
      substitutions !! j = Some (old_ing', new_ing') →
      Str.lower new_ing ≠ Str.lower old_ing'.

  (** An ingredient that is not among the owned ones (lower-cased) gives way
      to the first owned ingredient, if there is one. *)
Definition fill (available : list string) (ing : string) : string :=
    if decide (Str.lower ing ∈ map Str.lower available) then ing
    else match available with first :: _ => first | [] => ing end.

  (** The adapted recipe: [r] with three fields changed. *)
Definition adapted
      (r : Recipe.t) (name : string) (available : list string)
      (substitutions : list (string * string)) : Recipe.t :=
    {| Recipe.id := Recipe.id r;
       Recipe.name := Some (name +:+ " (Adapted)");
       Recipe.cuisine := Recipe.cuisine r;
       Recipe.meal_type := Recipe.meal_type r;
       Recipe.difficulty := Recipe.difficulty r;
       Recipe.prep_time := Recipe.prep_time r;
       Recipe.cook_time := Recipe.cook_time r;
       Recipe.servings := Recipe.servings r;
       Recipe.ingredients :=
         Some (map (λ ing, fill available (substitute_one substitutions ing))
                   (default [] (Recipe.ingredients r)));
       Recipe.steps := Recipe.steps r;
       Recipe.dietary_info := Recipe.dietary_info r;
       Recipe.tags := Recipe.tags r;
       Recipe.ai_generated := Some true |}.

  (** The strings a pattern stands for. *)
Inductive denotes : Re.t → string → Prop :=
  | denotes_chr c : denotes (Re.Chr c) (String c "")
  | denotes_any c : denotes Re.Any (String c "")
  | denotes_none_of cs c : c ∉ cs → denotes (Re.NoneOf cs) (String c "")
  | denotes_seq r1 r2 s1 s2 :
      denotes r1 s1 → denotes r2 s2 → denotes (Re.Seq r1 r2) (s1 +:+ s2)
  | denotes_star_nil r : denotes (Re.Star r) ""
  | denotes_star_cons r s1 s2 :
      denotes r s1 → denotes (Re.Star r) s2 → denotes (Re.Star r) (s1 +:+ s2).

  (** The character [c] occurs in [s]. *)
Fixpoint occurs (c : ascii) (s : string) : Prop :=
    match s with
    | EmptyString => False
    | String c' s' => c = c' ∨ occurs c s'
    end.

  (** [span] is the part of [text] from its first opening brace to its last
      closing brace. *)
Definition object_span (text span : string) : Prop :=
    ∃ pre mid post,
      text = pre +:+ "{" +:+ mid +:+ "}" +:+ post
      ∧ ¬ occurs "{" pre ∧ ¬ occurs "}" post
      ∧ span = "{" +:+ mid +:+ "}".

(** The rest of [s] after its last closing brace. *)
Fixpoint after_last_close (s : string) : option string :=
  match s with
  | EmptyString => None
  | String c s' =>
      match after_last_close s' with
      | Some rest => Some rest
      | None => if Ascii.eqb c "}" then Some s' else None
      end
  end.

  (** A text as in the examples of the specification, which are written
      with double quotes: every apostrophe stands for a double quote. *)
Fixpoint quoted (s : string) : string :=
    match s with
    | EmptyString => EmptyString
    | String c s' => String (if Ascii.eqb c "'" then "034"%char else c) (quoted s')
    end.


  (** [n] times the character [c] in front of [rest]. *)
Fixpoint repeated (c : ascii) (n : nat) (rest : string) : string :=
    match n with
    | 0 => rest
    | S n' => String c (repeated c n' rest)
    end.

  (** The text of an object whose only member holds [n] arrays, each inside
      the one before, the innermost one empty. *)
Definition nested (n : nat) : string :=
    quoted "{'a':" +:+ repeated "[" n (repeated "]" n "}").

End Spec.

(** ** Sample inputs *)

Module Examples.

  (** A store with a cake recipe at address 1 and its ingredients at
      address 0. *)
Definition cake_store : Heap.t :=
    [ Heap.OList ["Butter"; "flour"; "Sugar"];
      Heap.ODict (Heap.mk (Some 7%Z) (Some "Cake") (Some "French") None (Some "Easy")
                    None None None (Some 0) None None None None) ].

Definition cake : Recipe.t :=
    Recipe.mk (Some 7%Z) (Some "Cake") (Some "French") None (Some "Easy")
      None None None (Some ["Butter"; "flour"; "Sugar"]) None None None None.

  (** A store with a recipe that has ingredients and no name. *)
Definition nameless_store : Heap.t :=
    [ Heap.OList ["flour"; "butter"];
      Heap.ODict (Heap.mk (Some 3%Z) None None None None None None None
                    (Some 0) None None None None) ].

Definition nameless : Recipe.t :=
    Recipe.mk (Some 3%Z) None None None None None None None
      (Some ["flour"; "butter"]) None None None None.

  (** A store with a soup recipe at address 4 that has its ingredients, its
      steps, its [dietary_info] and its tags at the addresses 0 to 3. *)
Definition soup_store : Heap.t :=
    [ Heap.OList ["Leek"; "potato"; "cream"];
      Heap.OList ["Chop."; "Simmer."; "Blend."];
      Heap.ODietary (Dietary.mk (Some true) None (Some true) None None None None);
      Heap.OList ["vegetarian"; "winter"];
      Heap.ODict (Heap.mk (Some 12%Z) (Some "Leek soup") (Some "French") (Some "Dinner")
                    (Some "Easy") (Some 10%Z) (Some 25%Z) (Some 4%Z)
                    (Some 0) (Some 1) (Some 2) (Some 3) None) ].

Definition soup : Recipe.t :=
    Recipe.mk (Some 12%Z) (Some "Leek soup") (Some "French") (Some "Dinner")
      (Some "Easy") (Some 10%Z) (Some 25%Z) (Some 4%Z)
      (Some ["Leek"; "potato"; "cream"]) (Some ["Chop."; "Simmer."; "Blend."])
      (Some (Dietary.mk (Some true) None (Some true) None None None None))
      (Some ["vegetarian"; "winter"]) None.

  (** Two recipes whose scores for the French cuisine and the four owned
      ingredients below are the same rational, 22/25: the curry has all its
      ingredients owned and misses the cuisine, the stew has four of five
      owned and meets it. *)
Definition curry : Recipe.t :=
    Recipe.mk (Some 1%Z) (Some "Curry") (Some "Indian") None None None None None
      (Some ["leek"; "potato"]) None None None None.

Definition stew : Recipe.t :=
    Recipe.mk (Some 2%Z) (Some "Stew") (Some "French") None None None None None
      (Some ["leek"; "potato"; "cream"; "salt"; "thyme"]) None None None None.

Definition french : Preferences.t := Preferences.mk (Some "French") None None.

Definition pantry : list string := ["leek"; "potato"; "cream"; "salt"].

  (** A store with two recipes that have the id 3: the first one, at
      address 1, has no name, the second one, at address 3, has one. *)
Definition twins_store : Heap.t :=
    [ Heap.OList ["flour"; "butter"];
      Heap.ODict (Heap.mk (Some 3%Z) None None None None None None None
                    (Some 0) None None None None);
      Heap.OList ["rice"];
      Heap.ODict (Heap.mk (Some 3%Z) (Some "Rice") None None None None None None
                    (Some 2) None None None None) ].

End Examples.

(** * Proofs *)

(** ** Dietary matcher *)

Lemma restriction_passes_unrecognized tags d l :
  Str.lower l ∉ Spec.recognized → App.restriction_passes tags d l = true.
Proof.
  intros Hl. unfold App.restriction_passes.
  repeat (case String.eqb_spec;
          [ intros E; exfalso; apply Hl; rewrite E; unfold Spec.recognized; simpl;
            rewrite !elem_of_cons; tauto | intros _ ]).
  reflexivity.
Qed.

Lemma negb_both_false (a b : bool) : negb (negb a && negb b) = true ↔ a = true ∨ b = true.
Proof. destruct a, b; simpl; intuition congruence. Qed.

Lemma mem_true (x : string) (xs : list string) : Str.mem x xs = true ↔ x ∈ xs.
Proof. unfold Str.mem. apply bool_decide_eq_true. Qed.

(** In the table a label has one flag only. *)
Ltac table_entry H :=
  unfold Spec.dietary_flags in H;
  repeat (apply elem_of_cons in H as [H|H]; [ try discriminate H | ]);
  try (apply elem_of_nil in H; destruct H).

Lemma restriction_passes_spec (r : Recipe.t) (l : string) :
  App.restriction_passes (default [] (Recipe.tags r))
                         (default Dietary.empty (Recipe.dietary_info r)) l = true
  ↔ (Str.lower l ∈ Spec.recognized → Spec.satisfies r (Str.lower l)).
Proof.
  destruct (decide (Str.lower l ∈ Spec.recognized)) as [Hin|Hout].
  2: { rewrite restriction_passes_unrecognized by exact Hout. tauto. }
  unfold App.restriction_passes, Spec.satisfies.
  set (x := Str.lower l) in *. clearbody x.
  set (d := default Dietary.empty (Recipe.dietary_info r)). clearbody d.
  set (tags := default [] (Recipe.tags r)). clearbody tags.
  repeat (case String.eqb_spec;
    [ intros ->; rewrite negb_both_false, mem_true; split;
      [ intros H _ flag Hf; table_entry Hf; injection Hf as ->; exact H
      | intros H; apply (H Hin); unfold Spec.dietary_flags; repeat constructor ]
    | intros ? ]).
  exfalso. unfold Spec.recognized in Hin. simpl in Hin.
  rewrite !elem_of_cons, elem_of_nil in Hin. intuition congruence.
Qed.

Lemma matches_is_check (r : Recipe.t) (R : list string) :
  App.matches_dietary_restrictions r R
  = App.check_restrictions (default [] (Recipe.tags r))
                           (default Dietary.empty (Recipe.dietary_info r)) R.
Proof. destruct R; reflexivity. Qed.

Lemma check_restrictions_app tags d (R1 R2 : list string) :
  App.check_restrictions tags d (R1 ++ R2)
  = App.check_restrictions tags d R1 && App.check_restrictions tags d R2.
Proof.
  induction R1 as [|l R1 IH]; simpl; [reflexivity|].
  destruct (App.restriction_passes tags d l); [exact IH | reflexivity].
Qed.

Lemma check_restrictions_spec (r : Recipe.t) (R : list string) :
  App.check_restrictions (default [] (Recipe.tags r))
                         (default Dietary.empty (Recipe.dietary_info r)) R = true
  ↔ ∀ l, l ∈ R → Str.lower l ∈ Spec.recognized → Spec.satisfies r (Str.lower l).
Proof.
  induction R as [|l R IH]; simpl.
  - split; [intros _ l Hl; by apply elem_of_nil in Hl | reflexivity].
  - destruct (App.restriction_passes _ _ l) eqn:E.
    + rewrite IH. pose proof (proj1 (restriction_passes_spec r l) E) as E'. split.
      * intros H l' [->|Hl']%elem_of_cons; [exact E' | by apply H].
      * intros H l' Hl'. apply H. by apply elem_of_cons; right.
    + split; [discriminate|]. intros H.
      rewrite <- E. apply restriction_passes_spec. apply H. by apply elem_of_cons; left.
Qed.

Lemma cli_restriction_passes tags d l :
  Cli.restriction_passes tags d l = App.restriction_passes tags d l.
Proof.
  unfold Cli.restriction_passes, App.restriction_passes.
  set (x := Str.lower l). clearbody x.
  repeat (case String.eqb_spec;
    [ intros ->; simpl;
      match goal with |- context [negb ?a && negb ?b] => destruct a, b end; reflexivity
    | intros _; simpl ]).
  reflexivity.
Qed.

Lemma cli_matches_dietary_restrictions (r : Recipe.t) (R : list string) :
  Cli.matches_dietary_restrictions r R = App.matches_dietary_restrictions r R.
Proof.
  destruct R as [|l0 R0]; [reflexivity|]. unfold Cli.matches_dietary_restrictions,
    App.matches_dietary_restrictions.
  generalize (l0 :: R0). intros R.
  induction R as [|l R IH]; simpl; [reflexivity|].
  by rewrite cli_restriction_passes, IH.
Qed.

(** C2.  [matches_dietary_restrictions] holds exactly when every label of
    the list that is recognized once lower-cased is satisfied by its flag of
    [dietary_info] or by the label being among the tags; [cli.py] and
    [app.py] agree; the empty list gives true; a label outside the recognized
    set changes nothing; and the answer for ["vegetarian"] is the vegetarian
    flag or the "vegetarian" tag, in which the vegan flag plays no part. *)
Theorem matches_dietary_restrictions_spec (r : Recipe.t) (R : list string) :
  (App.matches_dietary_restrictions r R = true
   ↔ ∀ l, l ∈ R → Str.lower l ∈ Spec.recognized → Spec.satisfies r (Str.lower l))
  ∧ Cli.matches_dietary_restrictions r R = App.matches_dietary_restrictions r R
  ∧ App.matches_dietary_restrictions r [] = true
  ∧ (∀ R1 l R2, Str.lower l ∉ Spec.recognized →
       App.matches_dietary_restrictions r (R1 ++ l :: R2)
       = App.matches_dietary_restrictions r (R1 ++ R2))
  ∧ App.matches_dietary_restrictions r ["vegetarian"]
    = Dietary.get (Dietary.vegetarian (default Dietary.empty (Recipe.dietary_info r)))
      || Str.mem "vegetarian" (default [] (Recipe.tags r)).
Proof.
  split; [|split; [|split; [|split]]].
  - rewrite matches_is_check. apply check_restrictions_spec.
  - apply cli_matches_dietary_restrictions.
  - reflexivity.
  - intros R1 l R2 Hl. rewrite !matches_is_check, !check_restrictions_app. simpl.
    by rewrite restriction_passes_unrecognized.
  - simpl. unfold App.restriction_passes. simpl.
    by destruct (Dietary.get _), (Str.mem _ _).
Qed.

(** A recipe that is vegan by its flag and nothing else does not pass the
    vegetarian restriction. *)
Example vegan_flag_is_not_vegetarian :
  App.matches_dietary_restrictions
    (Recipe.mk None (Some "Tofu bowl") None None None None None None None None
       (Some (Dietary.mk None (Some true) None None None None None)) (Some ["vegan"]) None)
    ["vegetarian"] = false.
Proof. reflexivity. Qed.

(** ** Ingredient scorer *)

Lemma prefix_spec (a b : string) :
  String.prefix a b = true ↔ ∃ post, b = a +:+ post.
Proof.
  revert b. induction a as [|c a IH]; intros b.
  - split; [intros _; by exists b | by destruct b].
  - destruct b as [|c' b]; simpl.
    + split; [discriminate | intros [post H]; discriminate H].
    + destruct (Ascii.ascii_dec c c') as [->|Hne].
      * rewrite IH. split; intros [post H]; exists post; [by rewrite H | by injection H].
      * split; [discriminate | intros [post H]; injection H as -> _; by destruct Hne].
Qed.

Lemma contains_spec (a b : string) :
  Str.contains a b = true ↔ Spec.substring a b.
Proof.
  unfold Spec.substring. induction b as [|c b IH].
  - change (Str.contains a "") with (String.prefix a "" || false).
    rewrite orb_false_r, prefix_spec. split.
    + intros [post H]. by exists "", post.
    + intros [pre [post H]]. destruct pre; [by exists post | discriminate H].
  - change (Str.contains a (String c b))
      with (String.prefix a (String c b) || Str.contains a b).
    rewrite orb_true_iff, prefix_spec, IH. split.
    + intros [[post H]|[pre [post H]]].
      * by exists "", post.
      * exists (String c pre), post. simpl. by rewrite H.
    + intros [pre [post H]]. destruct pre as [|c' pre].
      * left. by exists post.
      * right. exists pre, post. simpl in H. by injection H.
Qed.

Lemma ingredient_available_spec (owned : list string) (ing : string) :
  App.ingredient_available (map Str.lower owned) (Str.lower ing) = true
  ↔ Spec.ingredient_matched owned ing.
Proof.
  unfold App.ingredient_available, Spec.ingredient_matched.
  rewrite existsb_exists. split.
  - intros [x [Hx H]]. apply in_map_iff in Hx as [o [<- Ho]].
    exists o. split; [by apply list_elem_of_In|].
    apply orb_true_iff in H. by rewrite <- !contains_spec.
  - intros [o [Ho H]]. exists (Str.lower o). split.
    + apply in_map. by apply list_elem_of_In.
    + apply orb_true_iff. by rewrite !contains_spec.
Qed.

#[local] Instance ingredient_matched_dec owned ing :
  Decision (Spec.ingredient_matched owned ing).
Proof.
  refine (cast_if (decide (App.ingredient_available (map Str.lower owned) (Str.lower ing) = true)));
    by rewrite <- ingredient_available_spec.
Defined.

Lemma count_matching_spec (ings owned : list string) :
  App.count_matching (map Str.lower ings) (map Str.lower owned)
  = length (filter (Spec.ingredient_matched owned) ings).
Proof.
  unfold App.count_matching. induction ings as [|ing ings IH]; [reflexivity|].
  simpl. rewrite !filter_cons.
  destruct (decide (App.ingredient_available _ _ = true)) as [H|H];
    destruct (decide (Spec.ingredient_matched owned ing)) as [H'|H'].
  - simpl. by rewrite IH.
  - by apply ingredient_available_spec in H.
  - by apply ingredient_available_spec in H'.
  - exact IH.
Qed.

(** C3.  With no owned ingredient the score is 1; with some owned
    ingredient the score of a recipe without ingredients is 0; otherwise the
    score is the number of matched ingredients over the number of
    ingredients, an ingredient being matched when, lower-cased, it contains
    or is contained in some lower-cased owned ingredient; and when all are
    matched the result is the constant 1 of the special case. *)
Theorem calculate_ingredient_match_score_spec (r : Recipe.t) (owned : list string) :
  let ings := default [] (Recipe.ingredients r) in
  let matched := length (filter (Spec.ingredient_matched owned) ings) in
  let total := length ings in
  App.calculate_ingredient_match_score r [] = 1%Q
  ∧ (owned ≠ [] → ings = [] → App.calculate_ingredient_match_score r owned = 0%Q)
  ∧ (owned ≠ [] → ings ≠ [] →
       (App.calculate_ingredient_match_score r owned
        == inject_Z (Z.of_nat matched) / inject_Z (Z.of_nat total))%Q)
  ∧ (owned ≠ [] → ings ≠ [] → matched = total →
       App.calculate_ingredient_match_score r owned = 1%Q)
  ∧ (owned ≠ [] → ings ≠ [] → matched ≠ total →
       App.calculate_ingredient_match_score r owned
       = (inject_Z (Z.of_nat matched) / inject_Z (Z.of_nat total))%Q)
  ∧ Cli.calculate_ingredient_match_score r owned
    = App.calculate_ingredient_match_score r owned.
Proof.
  intros ings matched total.
  assert (Hcode : owned ≠ [] →
    App.calculate_ingredient_match_score r owned
    = if Nat.eqb total 0 then 0%Q
      else if Nat.eqb matched total then 1%Q
      else (inject_Z (Z.of_nat matched) / inject_Z (Z.of_nat total))%Q).
  { intros Ho. unfold App.calculate_ingredient_match_score.
    destruct owned as [|o owned']; [done|].
    rewrite count_matching_spec. fold ings. rewrite length_map. fold total matched.
    reflexivity. }
  assert (Htot : ings ≠ [] → Nat.eqb total 0 = false).
  { intros Hi. apply Nat.eqb_neq. unfold total. by destruct ings. }
  split; [reflexivity|]. split; [|split; [|split; [|split]]].
  - intros Ho Hi. rewrite Hcode by done. unfold total. by rewrite Hi.
  - intros Ho Hi. rewrite Hcode, Htot by done.
    destruct (Nat.eqb_spec matched total) as [->|_]; [|reflexivity].
    field. intros H. pose proof (Htot Hi) as Ht. apply Nat.eqb_neq in Ht.
    unfold Qeq in H. simpl in H. lia.
  - intros Ho Hi Hm. rewrite Hcode, Htot by done. by rewrite (proj2 (Nat.eqb_eq _ _) Hm).
  - intros Ho Hi Hm. rewrite Hcode, Htot by done. by rewrite (proj2 (Nat.eqb_neq _ _) Hm).
  - reflexivity.
Qed.

Example tomato_matches_tomatoes :
  App.calculate_ingredient_match_score
    (Recipe.mk None None None None None None None None
       (Some ["Tomato"; "Basil"; "Flour"]) None None None None)
    ["tomatoes"; "fresh basil leaves"] = (2 # 3)%Q.
Proof. reflexivity. Qed.

(** ** Ranker *)

Lemma requested_spec (wanted : option string) :
  Preferences.requested wanted = true ↔ ∃ s, Spec.asks wanted s.
Proof.
  unfold Preferences.requested, Spec.asks, Str.truthy. destruct wanted as [s|].
  - rewrite negb_true_iff. case String.eqb_spec; intros H; split; try done.
    + intros [s' [Hs' Hs]]. injection Hs' as <-. done.
    + intros _. by exists s.
  - split; [done | by intros [s [? _]]].
Qed.

Lemma cuisine_match_spec (wanted have : option string) :
  App.cuisine_match wanted have = false ↔ Spec.not_contained wanted have.
Proof.
  unfold App.cuisine_match, Spec.not_contained.
  destruct (Preferences.requested wanted) eqn:E.
  - apply requested_spec in E as [s [-> Hs]]. simpl.
    rewrite <- not_true_iff_false, contains_spec. split.
    + intros H. by exists s.
    + intros [s' [[Hs' _] H]]. injection Hs' as <-. exact H.
  - split; [done|]. intros [s [Hs _]].
    assert (Preferences.requested wanted = true) by (apply requested_spec; eauto).
    congruence.
Qed.

Lemma meal_type_match_spec (wanted have : option string) :
  App.meal_type_match wanted have = false ↔ Spec.not_contained wanted have.
Proof. apply cuisine_match_spec. Qed.

Lemma difficulty_match_spec (wanted have : option string) :
  App.difficulty_match wanted have = false ↔ Spec.not_equal wanted have.
Proof.
  unfold App.difficulty_match, Spec.not_equal.
  destruct (Preferences.requested wanted) eqn:E.
  - apply requested_spec in E as [s [-> Hs]]. simpl.
    case String.eqb_spec; intros H; split; try done.
    + intros [s' [[Hs' _] H']]. injection Hs' as <-. by destruct H'.
    + intros _. exists s. split; [done | congruence].
  - split; [done|]. intros [s [Hs _]].
    assert (Preferences.requested wanted = true) by (apply requested_spec; eauto).
    congruence.
Qed.

Lemma factor_of_bool (ok : bool) (mismatch : Prop) (q : Q) :
  (ok = false ↔ mismatch) → Spec.factor mismatch q (if ok then 1%Q else q).
Proof.
  intros H. unfold Spec.factor. destruct ok.
  - right. split; [|done]. intros Hm. by apply H in Hm.
  - left. split; [|done]. by apply H.
Qed.

Lemma preference_score_product (c m d : bool) :
  (App.preference_score c m d
   == 1 * (if c then 1 else 0.7) * (if m then 1 else 0.7) * (if d then 1 else 0.8))%Q.
Proof. destruct c, m, d; reflexivity. Qed.

Lemma preference_score_range (c m d : bool) :
  (0 <= App.preference_score c m d <= 1)%Q.
Proof. destruct c, m, d; split; discriminate. Qed.

Lemma count_matching_le (ings avail : list string) :
  App.count_matching ings avail ≤ length ings.
Proof. unfold App.count_matching. apply length_filter. Qed.

Lemma ratio_range (m t : nat) :
  m ≤ t → 0 < t → (0 <= inject_Z (Z.of_nat m) / inject_Z (Z.of_nat t) <= 1)%Q.
Proof.
  intros Hm Ht.
  assert (0 < inject_Z (Z.of_nat t))%Q as Hpos.
  { change 0%Q with (inject_Z 0). rewrite <- Zlt_Qlt. lia. }
  split.
  - apply Qle_shift_div_l; [exact Hpos|]. rewrite Qmult_0_l.
    change 0%Q with (inject_Z 0). rewrite <- Zle_Qle. lia.
  - apply Qle_shift_div_r; [exact Hpos|]. rewrite Qmult_1_l.
    rewrite <- Zle_Qle. lia.
Qed.

Lemma calculate_ingredient_match_score_range (r : Recipe.t) (owned : list string) :
  (0 <= App.calculate_ingredient_match_score r owned <= 1)%Q.
Proof.
  unfold App.calculate_ingredient_match_score.
  destruct owned as [|o owned]; [split; discriminate|].
  set (ings := map Str.lower (default [] (Recipe.ingredients r))).
  set (avail := map Str.lower (o :: owned)).
  destruct (Nat.eqb_spec (length ings) 0) as [_|Hne]; [split; discriminate|].
  destruct (Nat.eqb_spec (App.count_matching ings avail) (length ings)) as [_|_];
    [split; discriminate|].
  apply ratio_range; [apply count_matching_le | lia].
Qed.

Lemma rank_one_spec prefs R owned (r : Recipe.t) (e : Scored.t) :
  App.rank_one prefs R owned r = Some e
  ↔ App.matches_dietary_restrictions r R = true
    ∧ e = Scored.mk r
            (App.calculate_ingredient_match_score r owned * 0.6
             + App.preference_score
                 (App.cuisine_match (Preferences.cuisine prefs) (Recipe.cuisine r))
                 (App.meal_type_match (Preferences.meal_type prefs) (Recipe.meal_type r))
                 (App.difficulty_match (Preferences.difficulty prefs) (Recipe.difficulty r))
               * 0.4)%Q
            (App.calculate_ingredient_match_score r owned)
            (App.preference_score
               (App.cuisine_match (Preferences.cuisine prefs) (Recipe.cuisine r))
               (App.meal_type_match (Preferences.meal_type prefs) (Recipe.meal_type r))
               (App.difficulty_match (Preferences.difficulty prefs) (Recipe.difficulty r))).
Proof.
  unfold App.rank_one. destruct (App.matches_dietary_restrictions r R); simpl.
  - split; [intros [= <-]; done | intros [_ ->]; done].
  - split; [done | intros [? _]; done].
Qed.

Lemma rank_one_entry_ok prefs R owned (r : Recipe.t) (e : Scored.t) :
  App.rank_one prefs R owned r = Some e →
  Scored.recipe e = r ∧ Spec.entry_ok prefs owned e.
Proof.
  intros [_ ->]%rank_one_spec. split; [reflexivity|].
  unfold Spec.entry_ok. simpl. split; [reflexivity|]. split; [|split; [reflexivity|]].
  - eexists _, _, _. split; [|split; [|split]].
    + apply factor_of_bool, cuisine_match_spec.
    + apply factor_of_bool, meal_type_match_spec.
    + apply factor_of_bool, difficulty_match_spec.
    + apply preference_score_product.
  - pose proof (calculate_ingredient_match_score_range r owned) as [? ?].
    pose proof (preference_score_range
      (App.cuisine_match (Preferences.cuisine prefs) (Recipe.cuisine r))
      (App.meal_type_match (Preferences.meal_type prefs) (Recipe.meal_type r))
      (App.difficulty_match (Preferences.difficulty prefs) (Recipe.difficulty r)))
      as [? ?].
    split; lra.
Qed.

(** The loop of [filter_recipes] keeps, in corpus order, the entries of the
    recipes that pass the dietary check. *)
Lemma collect_omap prefs R owned (recipes : list Recipe.t) :
  App.collect prefs R owned recipes = omap (App.rank_one prefs R owned) recipes.
Proof.
  unfold App.collect.
  enough (∀ acc, fold_left
            (λ filtered recipe,
               match App.rank_one prefs R owned recipe with
               | None => filtered
               | Some entry => filtered ++ [entry]
               end) recipes acc
          = acc ++ omap (App.rank_one prefs R owned) recipes) as H by apply (H []).
  induction recipes as [|r recipes IH]; intros acc; simpl.
  - by rewrite app_nil_r.
  - rewrite IH. destruct (App.rank_one prefs R owned r); simpl; [|reflexivity].
    by rewrite <- app_assoc.
Qed.

Lemma collect_recipes prefs R owned (recipes : list Recipe.t) :
  Scored.recipe <$> App.collect prefs R owned recipes
  = filter (λ r, App.matches_dietary_restrictions r R = true) recipes.
Proof.
  rewrite collect_omap. induction recipes as [|r recipes IH]; [reflexivity|].
  cbn [omap list_omap].
  destruct (App.rank_one prefs R owned r) as [e|] eqn:Er.
  - apply rank_one_spec in Er as [Hm ->].
    rewrite fmap_cons, IH, filter_cons_True by done. reflexivity.
  - rewrite filter_cons_False; [exact IH|].
    intros Hm. unfold App.rank_one in Er. rewrite Hm in Er. discriminate.
Qed.

Section Sort.
  Context {A : Type} (key : A → Q).

Lemma insert_desc_perm (x : A) (l : list A) : App.insert_desc key x l ≡ₚ x :: l.
  Proof.
    induction l as [|y l IH]; simpl; [reflexivity|].
    destruct (Qle_bool (key y) (key x)); [reflexivity|].
    rewrite IH. apply Permutation_swap.
  Qed.

Lemma sort_desc_perm (l : list A) : App.sort_desc key l ≡ₚ l.
  Proof.
    induction l as [|x l IH]; simpl; [reflexivity|].
    by rewrite insert_desc_perm, IH.
  Qed.

End Sort.

Lemma cli_filter_recipes recipes prefs R owned :
  Cli.filter_recipes recipes prefs R owned = App.filter_recipes recipes prefs R owned.
Proof.
  unfold Cli.filter_recipes, App.filter_recipes, App.collect. f_equal.
  enough (∀ acc : list Scored.t,
    fold_left (λ filtered recipe,
                 match Cli.rank_one prefs R owned recipe with
                 | None => filtered
                 | Some entry => filtered ++ [entry]
                 end) recipes acc
    = fold_left (λ filtered recipe,
                   match App.rank_one prefs R owned recipe with
                   | None => filtered
                   | Some entry => filtered ++ [entry]
                   end) recipes acc) as H by apply H.
  induction recipes as [|r recipes IH]; intros acc; simpl; [reflexivity|].
  rewrite IH. f_equal.
  unfold Cli.rank_one, App.rank_one.
  by rewrite cli_matches_dietary_restrictions.
Qed.

(** C1.  Every entry of the ranked list belongs to a recipe of the corpus
    that passes the dietary check, and every such recipe has its entry.  The
    entry records the ingredient score; a preference score that is 1 times
    0.7 when a requested cuisine does not occur in the recipe's cuisine, times
    0.7 when a requested meal type does not occur in the recipe's meal type,
    times 0.8 when a requested difficulty is not the recipe's difficulty
    (all lower-cased); and the composite score
    [ingredient_match * 0.6 + preference_match * 0.4], which lies between 0
    and 1.  [cli.py] ranks as [app.py] does. *)
Theorem filter_recipes_scores
    (recipes : list Recipe.t) (prefs : Preferences.t) (R owned : list string) :
  (∀ e, e ∈ App.filter_recipes recipes prefs R owned →
     Scored.recipe e ∈ recipes
     ∧ App.matches_dietary_restrictions (Scored.recipe e) R = true
     ∧ Spec.entry_ok prefs owned e)
  ∧ (∀ r, r ∈ recipes → App.matches_dietary_restrictions r R = true →
       ∃ e, e ∈ App.filter_recipes recipes prefs R owned ∧ Scored.recipe e = r)
  ∧ Cli.filter_recipes recipes prefs R owned = App.filter_recipes recipes prefs R owned.
Proof.
  split; [|split; [|apply cli_filter_recipes]].
  - intros e He. unfold App.filter_recipes in He.
    rewrite sort_desc_perm, collect_omap in He.
    apply list_elem_of_omap in He as [r [Hr He]].
    pose proof (rank_one_entry_ok _ _ _ _ _ He) as [-> Hok].
    apply rank_one_spec in He as [Hm _]. done.
  - intros r Hr Hm.
    destruct (App.rank_one prefs R owned r) as [e|] eqn:Er.
    + exists e. split.
      * unfold App.filter_recipes. rewrite sort_desc_perm, collect_omap.
        apply list_elem_of_omap. eauto.
      * by apply rank_one_entry_ok in Er as [? _].
    + unfold App.rank_one in Er. rewrite Hm in Er. discriminate.
Qed.

(** ** The ranker on binary64 *)

(** *** Rounding never gives a NaN from what is not negative *)

Lemma shr_1_nonneg (mrs : shr_record) :
  (0 <= shr_m mrs)%Z → (0 <= shr_m (shr_1 mrs))%Z.
Proof. destruct mrs as [[|[p|p|]|[p|p|]] r s]; simpl; lia. Qed.

Lemma iter_shr_1_nonneg (p : positive) :
  ∀ mrs, (0 <= shr_m mrs)%Z → (0 <= shr_m (SpecFloat.iter_pos shr_1 p mrs))%Z.
Proof. induction p; simpl; intros mrs H; auto using shr_1_nonneg. Qed.

Lemma shr_fexp_nonneg (m e : Z) (l : location) :
  (0 <= m)%Z → (0 <= shr_m (fst (shr_fexp prec emax m e l)))%Z.
Proof.
  intros H. unfold shr_fexp, shr.
  assert (H0 : (0 <= shr_m (shr_record_of_loc m l))%Z) by by destruct l as [|[]].
  destruct (_ - e)%Z; simpl; auto using iter_shr_1_nonneg.
Qed.

Lemma round_nearest_even_nonneg (m : Z) (l : location) :
  (0 <= m)%Z → (0 <= round_nearest_even m l)%Z.
Proof. intros H. destruct l as [|[]]; simpl; try destruct (Z.even m); lia. Qed.

Lemma binary_round_aux_not_negative (m e : Z) (l : location) :
  (0 <= m)%Z → Spec.not_negative (binary_round_aux prec emax false m e l).
Proof.
  intros H. unfold binary_round_aux.
  pose proof (shr_fexp_nonneg m e l H) as H1.
  destruct (shr_fexp prec emax m e l) as [mrs' e']. simpl in H1.
  pose proof (shr_fexp_nonneg _ e' loc_Exact
                (round_nearest_even_nonneg _ (loc_of_shr_record mrs') H1)) as H2.
  destruct (shr_fexp prec emax _ e' loc_Exact) as [mrs'' e'']. simpl in H2.
  destruct (shr_m mrs'') as [|p|p]; [done| |lia].
  by destruct (_ <=? _)%Z.
Qed.

Lemma SFmul_not_negative (x : spec_float) (m : positive) (e : Z) :
  Spec.not_negative x → Spec.not_negative (SF64mul x (S754_finite false m e)).
Proof.
  destruct x as [s|s| |s mx ex]; simpl; try done.
  - intros ->. reflexivity.
  - intros ->. by apply binary_round_aux_not_negative.
Qed.

Lemma binary_round_not_negative (m : positive) (e : Z) :
  Spec.not_negative (binary_round prec emax false m e).
Proof.
  unfold binary_round. destruct (shl_align _ _ _) as [mz ez].
  by apply binary_round_aux_not_negative.
Qed.

Lemma SFadd_not_negative (x y : spec_float) :
  Spec.not_negative x → Spec.not_negative y → Spec.not_negative (SF64add x y).
Proof.
  destruct x as [sx|sx| |sx mx ex], y as [sy|sy| |sy my ey]; simpl; try done.
  - intros _ _. by destruct sx, sy.
  - by intros -> ->.
  - intros -> ->. apply binary_round_not_negative.
Qed.

Lemma SFdiv_not_negative (x : spec_float) (m : positive) (e : Z) :
  Spec.not_negative x → x = S754_zero false ∨ (∃ mx ex, x = S754_finite false mx ex) →
  Spec.not_negative (SF64div x (S754_finite false m e)).
Proof.
  intros _ [->|(mx & ex & ->)]; [done|].
  unfold SF64div, SFdiv, SFdiv_core_binary.
  set (m' := match _ with Z0 => Z.pos mx | Z.pos _ => _ | Z.neg _ => _ end).
  assert (H : (0 <= m')%Z).
  { unfold m'. destruct (_ - _)%Z; [lia| |lia]. by apply Z.shiftl_nonneg. }
  pose proof (Z_div_mod m' (Z.pos m) eq_refl) as Hd.
  destruct (Z.div_eucl m' (Z.pos m)) as [q r].
  apply binary_round_aux_not_negative. nia.
Qed.

(** Conversion of a natural number below 2^53. *)
Lemma digits2_pos_lower (p : positive) :
  (2 ^ (Z.pos (digits2_pos p) - 1) <= Z.pos p)%Z.
Proof.
  induction p as [p IH|p IH|]; simpl digits2_pos; [| |simpl; lia].
  - rewrite Pos2Z.inj_succ. replace (Z.succ (Z.pos (digits2_pos p)) - 1)%Z
      with (Z.succ (Z.pos (digits2_pos p) - 1))%Z by lia.
    rewrite Z.pow_succ_r by lia. lia.
  - rewrite Pos2Z.inj_succ. replace (Z.succ (Z.pos (digits2_pos p)) - 1)%Z
      with (Z.succ (Z.pos (digits2_pos p) - 1))%Z by lia.
    rewrite Z.pow_succ_r by lia. lia.
Qed.

Lemma digits2_pos_iter_xO (p k : positive) :
  digits2_pos (Pos.iter xO p k) = (digits2_pos p + k)%positive.
Proof.
  induction k as [|k IH] using Pos.peano_ind.
  - simpl. lia.
  - rewrite Pos.iter_succ. simpl. rewrite IH. lia.
Qed.

Lemma shr_fexp_exact (m : positive) (e : Z) :
  Z.pos (digits2_pos m) = 53%Z → (-1074 <= e)%Z →
  shr_fexp prec emax (Z.pos m) e loc_Exact
  = ({| shr_m := Z.pos m; shr_r := false; shr_s := false |}, e).
Proof.
  intros Hd He. unfold shr_fexp, fexp, emin, Zdigits2, prec, emax. rewrite Hd.
  replace (Z.max (53 + e - 53) (3 - 1024 - 53) - e)%Z with 0%Z by lia.
  reflexivity.
Qed.

Lemma binary_round_aux_exact (m : positive) (e : Z) :
  Z.pos (digits2_pos m) = 53%Z → (-1074 <= e <= 971)%Z →
  binary_round_aux prec emax false (Z.pos m) e loc_Exact = S754_finite false m e.
Proof.
  intros Hd He. unfold binary_round_aux.
  rewrite shr_fexp_exact by (done || lia). simpl.
  rewrite shr_fexp_exact by (done || lia). simpl.
  destruct (Z.leb_spec e (emax - prec)) as [_|H]; [done|]. unfold emax, prec in H. lia.
Qed.

Lemma binary_normalize_small (n : Z) :
  (0 < n < 2 ^ 53)%Z →
  ∃ m e, binary_normalize prec emax n 0 false = S754_finite false m e.
Proof.
  intros [H0 H1]. destruct n as [|p|p]; [lia| |lia]. simpl binary_normalize.
  pose proof (digits2_pos_lower p) as Hl.
  assert (Hd : (Z.pos (digits2_pos p) <= 53)%Z).
  { destruct (Z.le_gt_cases (Z.pos (digits2_pos p)) 53) as [|Hgt]; [done|].
    assert (2 ^ 53 <= 2 ^ (Z.pos (digits2_pos p) - 1))%Z
      by (apply Z.pow_le_mono_r; lia).
    lia. }
  unfold binary_round, shl_align, fexp, emin, prec, emax.
  replace (Z.max (Z.pos (digits2_pos p) + 0 - 53) (3 - 1024 - 53) - 0)%Z
    with (Z.pos (digits2_pos p) - 53)%Z by lia.
  destruct (Z.pos (digits2_pos p) - 53)%Z as [|k|k] eqn:Ek; [|lia|].
  - eexists _, _. apply binary_round_aux_exact; lia.
  - replace (Z.max (Z.pos (digits2_pos p) + 0 - 53) (3 - 1024 - 53))
      with (Z.neg k) by lia.
    eexists _, _. apply binary_round_aux_exact; [|lia].
    rewrite digits2_pos_iter_xO. lia.
Qed.

Lemma of_nat_spec (n : nat) :
  (Z.of_nat n < 2 ^ 53)%Z →
  Prim2SF (Binary64.of_nat n) = binary_normalize prec emax (Z.of_nat n) 0 false.
Proof.
  intros H. unfold Binary64.of_nat. rewrite of_uint63_spec, Uint63.of_Z_spec.
  rewrite Z.mod_small; [reflexivity|].
  split; [lia|]. eapply Z.lt_trans; [exact H|]. reflexivity.
Qed.

(** The order of the floats that are not NaN. *)
Ltac compare_cases :=
  repeat match goal with
         | |- context [Pos.compare_cont Eq ?a ?b] =>
             change (Pos.compare_cont Eq a b) with (Pos.compare a b)
         | H : context [Pos.compare_cont Eq ?a ?b] |- _ =>
             change (Pos.compare_cont Eq a b) with (Pos.compare a b) in H
         end;
  repeat match goal with
         | |- context [Z.compare ?a ?b] => destruct (Z.compare_spec a b)
         | H : context [Z.compare ?a ?b] |- _ => destruct (Z.compare_spec a b)
         end;
  repeat match goal with
         | |- context [Pos.compare ?a ?b] => destruct (Pos.compare_spec a b)
         | H : context [Pos.compare ?a ?b] |- _ => destruct (Pos.compare_spec a b)
         end;
  simpl in *; try done; try lia.

Lemma SFleb_trans (a b c : spec_float) :
  SFleb a b = true → SFleb b c = true → SFleb a c = true.
Proof.
  unfold SFleb.
  destruct a as [[]|[]| |[] ma ea], b as [[]|[]| |[] mb eb], c as [[]|[]| |[] mc ec];
    simpl; try done; compare_cases.
Qed.

Lemma SFltb_false_leb (a b : spec_float) :
  a ≠ S754_nan → b ≠ S754_nan → SFltb a b = false → SFleb b a = true.
Proof.
  unfold SFltb, SFleb.
  destruct a as [[]|[]| |[] ma ea], b as [[]|[]| |[] mb eb];
    simpl; try done; compare_cases.
Qed.

Lemma SFltb_leb (a b : spec_float) : SFltb a b = true → SFleb a b = true.
Proof. unfold SFltb, SFleb. by destruct (SFcompare a b) as [[]|]. Qed.

Lemma SFeqb_not_ltb (a b s : spec_float) :
  SFeqb a s = true → SFeqb b s = true → SFltb a b = false.
Proof.
  unfold SFltb, SFeqb.
  destruct a as [[]|[]| |[] ma ea], b as [[]|[]| |[] mb eb], s as [[]|[]| |[] ms es];
    simpl; try done; compare_cases.
Qed.

(** *** The order of the floats that are not NaN, on [float] *)

Lemma leb_trans (a b c : float) :
  (a <=? b)%float = true → (b <=? c)%float = true → (a <=? c)%float = true.
Proof. rewrite !FloatAxioms.leb_spec. apply SFleb_trans. Qed.

Lemma ltb_false_leb (a b : float) :
  Spec.not_negative (Prim2SF a) → Spec.not_negative (Prim2SF b) →
  (a <? b)%float = false → (b <=? a)%float = true.
Proof.
  rewrite FloatAxioms.ltb_spec, FloatAxioms.leb_spec. intros Ha Hb.
  apply SFltb_false_leb; intros E; [by rewrite E in Ha | by rewrite E in Hb].
Qed.

Lemma ltb_leb (a b : float) : (a <? b)%float = true → (a <=? b)%float = true.
Proof. rewrite FloatAxioms.ltb_spec, FloatAxioms.leb_spec. apply SFltb_leb. Qed.

Lemma eqb_not_ltb (a b s : float) :
  (a =? s)%float = true → (b =? s)%float = true → (a <? b)%float = false.
Proof. rewrite !FloatAxioms.eqb_spec, FloatAxioms.ltb_spec. apply SFeqb_not_ltb. Qed.

(** *** The sort *)

Section Sort64.
  Context {A : Type} (key : A → float).

Lemma insert_desc64_perm (x : A) (l : list A) : Binary64.insert_desc key x l ≡ₚ x :: l.
  Proof.
    induction l as [|y l IH]; simpl; [reflexivity|].
    destruct (key x <? key y)%float; [|reflexivity].
    rewrite IH. apply Permutation_swap.
  Qed.

Lemma sort_desc64_perm (l : list A) : Binary64.sort_desc key l ≡ₚ l.
  Proof.
    induction l as [|x l IH]; simpl; [reflexivity|].
    by rewrite insert_desc64_perm, IH.
  Qed.

Lemma insert_desc64_descending (x : A) (l : list A) :
    Spec.not_negative (Prim2SF (key x)) →
    Forall (λ y, Spec.not_negative (Prim2SF (key y))) l →
    Spec.descending key l → Spec.descending key (Binary64.insert_desc key x l).
  Proof.
    unfold Spec.descending. intros Hx Hl Hs. revert Hl.
    induction Hs as [|y l Hs IH Hy]; intros Hl; simpl.
    - repeat constructor.
    - apply Forall_cons in Hl as [Hny Hl].
      destruct (key x <? key y)%float eqn:E.
      + constructor; [by apply IH|].
        rewrite insert_desc64_perm. constructor; [by apply ltb_leb | exact Hy].
      + assert (Hyx : (key y <=? key x)%float = true) by by apply ltb_false_leb.
        constructor; [by constructor|].
        constructor; [exact Hyx|].
        eapply Forall_impl; [exact Hy|]. intros z Hz. simpl in Hz.
        by apply leb_trans with (key y).
  Qed.

Lemma sort_desc64_descending (l : list A) :
    Forall (λ y, Spec.not_negative (Prim2SF (key y))) l →
    Spec.descending key (Binary64.sort_desc key l).
  Proof.
    induction 1 as [|x l Hx Hl IH]; simpl; [constructor|].
    apply insert_desc64_descending; [exact Hx| |exact IH].
    by rewrite sort_desc64_perm.
  Qed.

Lemma insert_desc64_with_key (s : float) (x : A) (l : list A) :
    Spec.with_key key s (Binary64.insert_desc key x l) = Spec.with_key key s (x :: l).
  Proof.
    induction l as [|y l IH]; [reflexivity|].
    cbn [Binary64.insert_desc]. destruct (key x <? key y)%float eqn:E; [|reflexivity].
    unfold Spec.with_key in *. cbn [List.filter]. rewrite IH. cbn [List.filter].
    destruct (key x =? s)%float eqn:Ex; [|reflexivity].
    destruct (key y =? s)%float eqn:Ey; [|reflexivity].
    rewrite (eqb_not_ltb _ _ _ Ex Ey) in E. discriminate.
  Qed.

Lemma sort_desc64_with_key (s : float) (l : list A) :
    Spec.with_key key s (Binary64.sort_desc key l) = Spec.with_key key s l.
  Proof.
    induction l as [|x l IH]; [reflexivity|].
    cbn [Binary64.sort_desc foldr]. rewrite insert_desc64_with_key.
    unfold Spec.with_key in *. cbn [List.filter]. fold (Binary64.sort_desc key l).
    by rewrite IH.
  Qed.
End Sort64.

(** *** The scores are numbers *)

Lemma of_nat_not_negative (n : nat) :
  (Z.of_nat n < 2 ^ 53)%Z →
  Prim2SF (Binary64.of_nat n) = S754_zero false
  ∨ ∃ m e, Prim2SF (Binary64.of_nat n) = S754_finite false m e.
Proof.
  intros H. rewrite of_nat_spec by done. destruct n as [|n]; [by left|].
  right. apply binary_normalize_small. lia.
Qed.

Lemma ingredient_match64_not_negative (r : Recipe.t) (owned : list string) :
  (Z.of_nat (length (default [] (Recipe.ingredients r))) < 2 ^ 53)%Z →
  Spec.not_negative (Prim2SF (Binary64.calculate_ingredient_match_score r owned)).
Proof.
  intros Hlen. unfold Binary64.calculate_ingredient_match_score.
  destruct owned as [|o owned]; [reflexivity|].
  set (ings := map Str.lower (default [] (Recipe.ingredients r))).
  set (avail := map Str.lower (o :: owned)).
  assert (Ht : (Z.of_nat (length ings) < 2 ^ 53)%Z) by (unfold ings; by rewrite length_map).
  pose proof (count_matching_le ings avail) as Hle.
  destruct (Nat.eqb_spec (length ings) 0) as [|Hne]; [done|].
  destruct (Nat.eqb_spec (App.count_matching ings avail) (length ings)); [reflexivity|].
  rewrite div_spec.
  destruct (of_nat_not_negative (length ings) Ht) as [E|(m & e & E)].
  { rewrite of_nat_spec in E by done.
    destruct (length ings) as [|k]; [done|].
    destruct (binary_normalize_small (Z.of_nat (S k))) as (m & e & E'); [lia|].
    rewrite E' in E. discriminate. }
  rewrite E.
  destruct (of_nat_not_negative (App.count_matching ings avail)) as [E'|(m' & e' & E')];
    [lia| |]; rewrite E'; apply SFdiv_not_negative; eauto; done.
Qed.

Lemma final_score_not_negative (match_score : float) (c m d : bool) :
  Spec.not_negative (Prim2SF match_score) →
  Spec.not_negative
    (Prim2SF (Binary64.final_score match_score (Binary64.preference_score c m d))).
Proof.
  intros H. unfold Binary64.final_score. rewrite add_spec, (mul_spec match_score).
  apply SFadd_not_negative.
  - match goal with
    | |- context [SF64mul _ (Prim2SF ?w)] =>
        assert (Hw : ∃ mw ew, Prim2SF w = S754_finite false mw ew)
          by (eexists _, _; vm_compute; reflexivity)
    end.
    destruct Hw as (mw & ew & ->). by apply SFmul_not_negative.
  - destruct c, m, d; vm_compute; reflexivity.
Qed.

Lemma rank_one64_spec matches prefs R owned (r : Recipe.t) (e : Binary64.scored) :
  Binary64.rank_one matches prefs R owned r = Some e →
  matches r R = true
  ∧ Binary64.recipe e = r
  ∧ Binary64.ingredient_match e = Binary64.calculate_ingredient_match_score r owned
  ∧ Binary64.preference_match e
    = Binary64.preference_score
        (App.cuisine_match (Preferences.cuisine prefs) (Recipe.cuisine r))
        (App.meal_type_match (Preferences.meal_type prefs) (Recipe.meal_type r))
        (App.difficulty_match (Preferences.difficulty prefs) (Recipe.difficulty r))
  ∧ Binary64.score e
    = Binary64.final_score (Binary64.ingredient_match e) (Binary64.preference_match e).
Proof.
  unfold Binary64.rank_one. destruct (matches r R); [|discriminate].
  simpl negb. cbv iota. intros E. injection E as <-. by repeat split.
Qed.

Lemma rank_one64_none matches prefs R owned (r : Recipe.t) :
  Binary64.rank_one matches prefs R owned r = None ↔ matches r R = false.
Proof. unfold Binary64.rank_one. by destruct (matches r R). Qed.

Lemma rank_one64_not_negative matches prefs R owned (r : Recipe.t) (e : Binary64.scored) :
  (Z.of_nat (length (default [] (Recipe.ingredients r))) < 2 ^ 53)%Z →
  Binary64.rank_one matches prefs R owned r = Some e →
  Spec.not_negative (Prim2SF (Binary64.score e)).
Proof.
  intros Hlen (_ & _ & Him & Hpm & ->)%rank_one64_spec. rewrite Him, Hpm.
  by apply final_score_not_negative, ingredient_match64_not_negative.
Qed.

(** *** The loop *)

Lemma collect64_omap matches prefs R owned (recipes : list Recipe.t) :
  Binary64.collect matches prefs R owned recipes
  = omap (Binary64.rank_one matches prefs R owned) recipes.
Proof.
  unfold Binary64.collect.
  enough (∀ acc, fold_left
            (λ filtered recipe,
               match Binary64.rank_one matches prefs R owned recipe with
               | None => filtered
               | Some entry => filtered ++ [entry]
               end) recipes acc
          = acc ++ omap (Binary64.rank_one matches prefs R owned) recipes) as H
    by apply (H []).
  induction recipes as [|r recipes IH]; intros acc; simpl.
  - by rewrite app_nil_r.
  - rewrite IH. destruct (Binary64.rank_one matches prefs R owned r); simpl; [|reflexivity].
    by rewrite <- app_assoc.
Qed.

Lemma collect64_recipes matches prefs R owned (recipes : list Recipe.t) :
  Binary64.recipe <$> omap (Binary64.rank_one matches prefs R owned) recipes
  = filter (λ r, matches r R = true) recipes.
Proof.
  induction recipes as [|r recipes IH]; [reflexivity|].
  cbn [omap list_omap].
  destruct (Binary64.rank_one matches prefs R owned r) as [e|] eqn:Er.
  - apply rank_one64_spec in Er as (Hm & <- & _).
    rewrite fmap_cons, IH, filter_cons_True by done. reflexivity.
  - apply rank_one64_none in Er. rewrite IH, filter_cons_False; [reflexivity|].
    rewrite Er. discriminate.
Qed.

Lemma collect64_not_negative matches prefs R owned (recipes : list Recipe.t) :
  Spec.short_lists recipes →
  Forall (λ e, Spec.not_negative (Prim2SF (Binary64.score e)))
    (omap (Binary64.rank_one matches prefs R owned) recipes).
Proof.
  induction 1 as [|r recipes Hr _ IH]; [constructor|].
  cbn [omap list_omap].
  destruct (Binary64.rank_one matches prefs R owned r) as [e|] eqn:Er; [|exact IH].
  constructor; [|exact IH]. by eapply rank_one64_not_negative.
Qed.

Lemma cli_filter_recipes64 recipes prefs R owned :
  Binary64.cli_filter_recipes recipes prefs R owned
  = Binary64.filter_recipes recipes prefs R owned.
Proof.
  unfold Binary64.cli_filter_recipes, Binary64.filter_recipes. f_equal.
  rewrite !collect64_omap.
  induction recipes as [|r recipes IH]; [reflexivity|].
  cbn [omap list_omap]. rewrite IH.
  unfold Binary64.rank_one. by rewrite cli_matches_dietary_restrictions.
Qed.

(** The binary64 ranker and the ranker on exact values rank the same
    recipes. *)
Lemma filter_recipes64_recipes recipes prefs R owned :
  Binary64.recipe <$> Binary64.filter_recipes recipes prefs R owned
  ≡ₚ Scored.recipe <$> App.filter_recipes recipes prefs R owned.
Proof.
  unfold Binary64.filter_recipes, App.filter_recipes.
  rewrite sort_desc64_perm, sort_desc_perm, collect64_omap, collect64_recipes.
  by rewrite collect_recipes.
Qed.

Lemma filter_recipes64_passing recipes prefs R owned :
  Binary64.recipe <$> Binary64.filter_recipes recipes prefs R owned
  ≡ₚ filter (λ r, App.matches_dietary_restrictions r R = true) recipes.
Proof.
  unfold Binary64.filter_recipes.
  by rewrite sort_desc64_perm, collect64_omap, collect64_recipes.
Qed.

Lemma length_filter_recipes64 recipes prefs R owned :
  length (Binary64.filter_recipes recipes prefs R owned)
  = length (filter (λ r, App.matches_dietary_restrictions r R = true) recipes).
Proof. by rewrite <- (filter_recipes64_passing recipes prefs R owned), length_fmap. Qed.

(** C4.  For recipes with fewer than [2^53] ingredients, where the
    division of the lengths is the division of their floats: the ranked
    list is in non-increasing order of the composite score as binary64 has
    it, and for every score the entries that have it stand in the ranked
    list as the loop produced them, which is the order of their recipes in
    the corpus.  [cli.py] returns the same list. *)
Theorem filter_recipes_sorted_stable
    (recipes : list Recipe.t) (prefs : Preferences.t) (R owned : list string) :
  Spec.short_lists recipes →
  let ranked := Binary64.filter_recipes recipes prefs R owned in
  let entries :=
    omap (Binary64.rank_one App.matches_dietary_restrictions prefs R owned) recipes in
  Spec.descending Binary64.score ranked
  ∧ (∀ s, Spec.with_key Binary64.score s ranked = Spec.with_key Binary64.score s entries)
  ∧ Binary64.recipe <$> entries
    = filter (λ r, App.matches_dietary_restrictions r R = true) recipes
  ∧ ranked ≡ₚ entries
  ∧ Binary64.cli_filter_recipes recipes prefs R owned = ranked.
Proof.
  intros Hshort ranked entries. unfold ranked, entries, Binary64.filter_recipes.
  rewrite collect64_omap.
  split; [|split; [|split; [|split]]].
  - by apply sort_desc64_descending, collect64_not_negative.
  - intros s. by rewrite sort_desc64_with_key.
  - apply collect64_recipes.
  - by rewrite sort_desc64_perm.
  - rewrite cli_filter_recipes64. unfold Binary64.filter_recipes.
    by rewrite collect64_omap.
Qed.

Lemma filter_recipes_sorted_stable_witness :
  Spec.short_lists [Examples.curry; Examples.stew]
  ∧ Spec.descending Binary64.score
      (Binary64.filter_recipes [Examples.curry; Examples.stew]
         Examples.french [] Examples.pantry)
  ∧ Binary64.cli_filter_recipes [Examples.curry; Examples.stew]
      Examples.french [] Examples.pantry
    = Binary64.filter_recipes [Examples.curry; Examples.stew]
        Examples.french [] Examples.pantry.
Proof.
  assert (H : Spec.short_lists [Examples.curry; Examples.stew]).
  { repeat constructor; simpl; lia. }
  split; [exact H|].
  destruct (filter_recipes_sorted_stable [Examples.curry; Examples.stew]
              Examples.french [] Examples.pantry H) as (Hd & _ & _ & _ & Hc).
  split; [exact Hd | exact Hc].
Defined.

(** The order follows the rounding.  The scores of the curry and the stew
    are the same rational, and the exact ranker leaves the two in corpus
    order; in binary64 the score of the curry, [1.0 * 0.6 + 0.7 * 0.4], is
    one unit in the last place below the score of the stew,
    [0.8 * 0.6 + 1.0 * 0.4], and the code returns the stew first. *)
Example ranking_follows_rounding :
  let ranked :=
    Binary64.filter_recipes [Examples.curry; Examples.stew]
      Examples.french [] Examples.pantry in
  let exact :=
    App.filter_recipes [Examples.curry; Examples.stew]
      Examples.french [] Examples.pantry in
  Binary64.recipe <$> ranked = [Examples.stew; Examples.curry]
  ∧ (∀ e e', e ∈ ranked → e' ∈ ranked →
       Binary64.recipe e = Examples.curry → Binary64.recipe e' = Examples.stew →
       (Binary64.score e <? Binary64.score e')%float = true)
  ∧ Scored.recipe <$> exact = [Examples.curry; Examples.stew]
  ∧ Forall (λ e, (Scored.score e == 22 # 25)%Q) exact.
Proof.
  intros ranked exact.
  split; [vm_compute; reflexivity|]. split; [|split].
  - intros e e' He He'.
    change ranked with
      (Binary64.sort_desc Binary64.score
         (Binary64.collect App.matches_dietary_restrictions Examples.french []
            Examples.pantry [Examples.curry; Examples.stew])) in He, He'.
    vm_compute in He, He'.
    apply elem_of_cons in He as [->|He]; [discriminate 1|].
    apply elem_of_cons in He as [->|He]; [|by apply elem_of_nil in He].
    apply elem_of_cons in He' as [->|He']; [|apply elem_of_cons in He' as [->|He']].
    + intros _ _. vm_compute. reflexivity.
    + discriminate 2.
    + by apply elem_of_nil in He'.
  - vm_compute. reflexivity.
  - repeat constructor.
Qed.

(** The arithmetic of the ranker in binary64 at the corners of the range:
    the least preference score is positive and none exceeds 1.0; the
    greatest composite score is 1.0 itself. *)
Lemma binary64_preference_score_range (c m d : bool) :
  PrimFloat.ltb 0 (Binary64.preference_score c m d) = true
  ∧ PrimFloat.leb (Binary64.preference_score c m d) 1 = true.
Proof. destruct c, m, d; split; vm_compute; reflexivity. Qed.

Lemma binary64_final_score_corners :
  PrimFloat.eqb (Binary64.final_score 1 1) 1 = true
  ∧ PrimFloat.ltb 0 (Binary64.final_score 0 (Binary64.preference_score false false false))
    = true.
Proof. split; vm_compute; reflexivity. Qed.

(** ** Template generator *)

(** One way to list a set: keep the first occurrence of every element. *)
Lemma remove_dups_lists_the_set : Spec.lists_the_set remove_dups.
Proof.
  intros xs. split; [apply NoDup_remove_dups | intros x; apply elem_of_remove_dups].
Qed.

Lemma lower_recognized (l : string) : l ∈ Spec.recognized → Str.lower l = l.
Proof.
  unfold Spec.recognized. simpl. rewrite !elem_of_cons, elem_of_nil.
  intros H. repeat (destruct H as [->|H]; [reflexivity|]). destruct H.
Qed.

Section Fallback.
  Variable set_to_list : list string → list string.
  Hypothesis set_to_list_ok : Spec.lists_the_set set_to_list.

Let generate_recipe := FallbackAIGenerator.generate_recipe set_to_list.

  (** C8.  For Italian, Lunch, Easy, no restriction and no owned ingredient
      the generated recipe is named "Italian Lunch Bowl", takes 10 minutes
      to prepare and 15 to cook, and its ingredients are the four defaults
      with "tomatoes" and "basil" (not "parmesan cheese").  In general the
      times are those of the tier of the difficulty: 10/15 for "Easy", 15/25
      for "Medium", 20/35 for "Hard" and for every other text. *)
Theorem generate_recipe_italian_lunch
      (preferences : Preferences.t) (R owned : list string) :
    (let r := generate_recipe
                (Preferences.mk (Some "Italian") (Some "Lunch") (Some "Easy")) [] [] in
     Recipe.name r = Some "Italian Lunch Bowl"
     ∧ Spec.substring "Italian" "Italian Lunch Bowl"
     ∧ Spec.substring "Lunch" "Italian Lunch Bowl"
     ∧ Recipe.prep_time r = Some 10%Z
     ∧ Recipe.cook_time r = Some 15%Z
     ∧ ∃ ings, Recipe.ingredients r = Some ings
         ∧ ("tomatoes" ∈ ings ∨ "basil" ∈ ings ∨ "parmesan cheese" ∈ ings)
         ∧ NoDup ings
         ∧ ∀ x, x ∈ ings
                ↔ x ∈ ["olive oil"; "garlic"; "salt"; "pepper"; "tomatoes"; "basil"])
    ∧ (let r := generate_recipe preferences R owned in
       let difficulty := default "Easy" (Preferences.difficulty preferences) in
       Recipe.difficulty r = Some difficulty
       ∧ (difficulty = "Easy" →
            Recipe.prep_time r = Some 10%Z ∧ Recipe.cook_time r = Some 15%Z)
       ∧ (difficulty = "Medium" →
            Recipe.prep_time r = Some 15%Z ∧ Recipe.cook_time r = Some 25%Z)
       ∧ (difficulty = "Hard" →
            Recipe.prep_time r = Some 20%Z ∧ Recipe.cook_time r = Some 35%Z)
       ∧ (difficulty ≠ "Easy" → difficulty ≠ "Medium" →
            Recipe.prep_time r = Some 20%Z ∧ Recipe.cook_time r = Some 35%Z)).
  Proof.
    split.
    - cbv zeta. repeat split.
      + by exists "", " Lunch Bowl".
      + by exists "Italian ", " Bowl".
      + eexists. split; [reflexivity|].
        destruct (set_to_list_ok ["olive oil"; "garlic"; "salt"; "pepper"; "tomatoes"; "basil"])
          as [Hnd Hin].
        split; [|split; [exact Hnd | exact Hin]].
        left. apply Hin. rewrite !elem_of_cons. tauto.
    - cbv zeta. unfold generate_recipe, FallbackAIGenerator.generate_recipe. cbn [Recipe.difficulty
        Recipe.prep_time Recipe.cook_time].
      generalize (default "Easy" (Preferences.difficulty preferences)). intros d.
      split; [reflexivity|].
      split; [intros ->; split; reflexivity|].
      split; [intros ->; split; reflexivity|].
      split; [intros ->; split; reflexivity|].
      intros H1 H2. apply String.eqb_neq in H1, H2. rewrite H1, H2. split; reflexivity.
  Qed.

  (** C9.  A recipe generated for restrictions taken from the lower-case
      vocabulary passes the dietary check for these restrictions: they are
      copied into its tags, and each of them has its flag set. *)
Theorem generate_recipe_passes_own_restrictions
      (preferences : Preferences.t) (R owned : list string) :
    Forall (λ l, l ∈ Spec.recognized) R →
    let r := generate_recipe preferences R owned in
    App.matches_dietary_restrictions r R = true
    ∧ Cli.matches_dietary_restrictions r R = true
    ∧ Recipe.tags r = Some (R ++ ["ai-generated"])
    ∧ ∀ l flag, l ∈ R → (l, flag) ∈ Spec.dietary_flags →
        (Recipe.dietary_info r ≫= flag) = Some true.
  Proof.
    intros HR r.
    assert (Hflags : ∀ l flag, l ∈ R → (l, flag) ∈ Spec.dietary_flags →
              (Recipe.dietary_info r ≫= flag) = Some true).
    { intros l flag Hl Hf. unfold r, generate_recipe, FallbackAIGenerator.generate_recipe.
      cbn [Recipe.dietary_info mbind option_bind].
      apply mem_true in Hl.
      unfold Spec.dietary_flags in Hf. rewrite !elem_of_cons, elem_of_nil in Hf.
      repeat (destruct Hf as [Hf|Hf];
              [ injection Hf as -> ->; cbn; rewrite ?Hl; reflexivity | ]).
      destruct Hf. }
    assert (Hm : App.matches_dietary_restrictions r R = true).
    { rewrite matches_is_check. apply check_restrictions_spec.
      intros l Hl _. rewrite Forall_forall in HR.
      rewrite (lower_recognized l) by auto.
      intros flag Hf. right. unfold r, generate_recipe. simpl.
      apply elem_of_app. by left. }
    split; [exact Hm|]. split; [by rewrite cli_matches_dietary_restrictions|].
    split; [reflexivity | exact Hflags].
  Qed.

  (** C10.  Every generated recipe has [nut_free] set, whatever was asked for
      and whatever the owned ingredients are, and so passes the dietary
      check for any list of nut-free restrictions. *)
Theorem generate_recipe_nut_free
      (preferences : Preferences.t) (R owned : list string) :
    let r := generate_recipe preferences R owned in
    (Recipe.dietary_info r ≫= Dietary.nut_free) = Some true
    ∧ App.matches_dietary_restrictions r ["nut-free"] = true
    ∧ Cli.matches_dietary_restrictions r ["nut-free"] = true
    ∧ ∀ R', Forall (λ l, Str.lower l = "nut-free") R' →
        App.matches_dietary_restrictions r R' = true.
  Proof.
    intros r.
    assert (H : ∀ R', Forall (λ l, Str.lower l = "nut-free") R' →
              App.matches_dietary_restrictions r R' = true).
    { intros R' HR'. rewrite matches_is_check.
      induction HR' as [|l R' Hl _ IH]; [reflexivity|].
      cbn [App.check_restrictions]. rewrite IH.
      unfold App.restriction_passes. rewrite Hl. reflexivity. }
    split; [reflexivity|]. split; [|split; [|exact H]].
    - apply H. by repeat constructor.
    - rewrite cli_matches_dietary_restrictions. apply H. by repeat constructor.
  Qed.

End Fallback.

Lemma generate_recipe_italian_lunch_witness :
  Spec.lists_the_set remove_dups
  ∧ Recipe.name
      (FallbackAIGenerator.generate_recipe remove_dups
         (Preferences.mk (Some "Italian") (Some "Lunch") (Some "Easy")) [] [])
    = Some "Italian Lunch Bowl".
Proof.
  split; [exact remove_dups_lists_the_set|].
  exact (proj1 (proj1 (generate_recipe_italian_lunch remove_dups remove_dups_lists_the_set
                         (Preferences.mk None None None) [] []))).
Defined.

Lemma generate_recipe_passes_own_restrictions_witness :
  Forall (λ l, l ∈ Spec.recognized) ["vegan"; "gluten-free"]
  ∧ App.matches_dietary_restrictions
      (FallbackAIGenerator.generate_recipe remove_dups
         (Preferences.mk (Some "Indian") None (Some "Medium"))
         ["vegan"; "gluten-free"] ["rice"; "lentils"])
      ["vegan"; "gluten-free"] = true.
Proof.
  assert (H : Forall (λ l, l ∈ Spec.recognized) ["vegan"; "gluten-free"]).
  { repeat constructor. }
  split; [exact H|].
  exact (proj1 (generate_recipe_passes_own_restrictions remove_dups
                  (Preferences.mk (Some "Indian") None (Some "Medium"))
                  ["vegan"; "gluten-free"] ["rice"; "lentils"] H)).
Defined.

(** A recipe made from owned peanuts is marked nut-free. *)
Example peanut_recipe_is_nut_free :
  App.matches_dietary_restrictions
    (FallbackAIGenerator.generate_recipe remove_dups
       (Preferences.mk None None None) [] ["peanuts"; "peanut butter"])
    ["nut-free"] = true.
Proof. reflexivity. Qed.

(** ** [adapt_recipe] on the store *)

Lemma bind_ok {A B} (m : Heap.M A) (f : A → Heap.M B) (h h' : Heap.t) (a : A) :
  m h = (Py.Ok a, h') → (m ≫= f) h = f a h'.
Proof. intros H. unfold mbind, Heap.M_bind. by rewrite H. Qed.

Lemma bind_raise {A B} (m : Heap.M A) (f : A → Heap.M B) (h h' : Heap.t) (e : Py.exn) :
  m h = (Py.Raise e, h') → (m ≫= f) h = (Py.Raise e, h').
Proof. intros H. unfold mbind, Heap.M_bind. by rewrite H. Qed.

Lemma read_dict_ok (h : Heap.t) (l : Heap.loc) (d : Heap.dict) :
  h !! l = Some (Heap.ODict d) → Heap.read_dict l h = (Py.Ok d, h).
Proof. intros H. unfold Heap.read_dict. by rewrite H. Qed.

Lemma read_list_ok (h : Heap.t) (l : Heap.loc) (xs : list string) :
  h !! l = Some (Heap.OList xs) → Heap.read_list l h = (Py.Ok xs, h).
Proof. intros H. unfold Heap.read_list. by rewrite H. Qed.

Lemma update_dict_ok (h : Heap.t) (l : Heap.loc) (d : Heap.dict) (f : Heap.dict → Heap.dict) :
  h !! l = Some (Heap.ODict d) →
  Heap.update_dict l f h = (Py.Ok (), <[l:=Heap.ODict (f d)]> h).
Proof.
  intros H. unfold Heap.update_dict. by rewrite (bind_ok _ _ _ _ _ (read_dict_ok _ _ _ H)).
Qed.

(** An update at an address that was not in use leaves the old store as it
    was. *)
Lemma prefix_insert_ge (h h' : Heap.t) (l : Heap.loc) (o : Heap.obj) :
  h `prefix_of` h' → length h ≤ l → h `prefix_of` <[l:=o]> h'.
Proof.
  intros [k ->] Hl. rewrite insert_app_r_alt by exact Hl. by eexists.
Qed.

Lemma load_list_prefix (h h' : Heap.t) ref v :
  h `prefix_of` h' → Heap.load_list h ref = Some v → Heap.load_list h' ref = Some v.
Proof.
  intros Hp. unfold Heap.load_list. destruct ref as [l|]; [|done].
  destruct (h !! l) as [o|] eqn:E; [|done].
  by rewrite (prefix_lookup_Some _ _ _ _ E Hp).
Qed.

Lemma load_dietary_prefix (h h' : Heap.t) ref v :
  h `prefix_of` h' → Heap.load_dietary h ref = Some v → Heap.load_dietary h' ref = Some v.
Proof.
  intros Hp. unfold Heap.load_dietary. destruct ref as [l|]; [|done].
  destruct (h !! l) as [o|] eqn:E; [|done].
  by rewrite (prefix_lookup_Some _ _ _ _ E Hp).
Qed.

(** What [load] reads. *)
Lemma load_inv (h : Heap.t) (l : Heap.loc) (r : Recipe.t) :
  Heap.load h l = Some r ↔
  ∃ d, h !! l = Some (Heap.ODict d)
     ∧ Heap.load_list h (Heap.ingredients d) = Some (Recipe.ingredients r)
     ∧ Heap.load_list h (Heap.steps d) = Some (Recipe.steps r)
     ∧ Heap.load_dietary h (Heap.dietary_info d) = Some (Recipe.dietary_info r)
     ∧ Heap.load_list h (Heap.tags d) = Some (Recipe.tags r)
     ∧ Recipe.id r = Heap.id d ∧ Recipe.name r = Heap.name d
     ∧ Recipe.cuisine r = Heap.cuisine d ∧ Recipe.meal_type r = Heap.meal_type d
     ∧ Recipe.difficulty r = Heap.difficulty d ∧ Recipe.prep_time r = Heap.prep_time d
     ∧ Recipe.cook_time r = Heap.cook_time d ∧ Recipe.servings r = Heap.servings d
     ∧ Recipe.ai_generated r = Heap.ai_generated d.
Proof.
  unfold Heap.load. split.
  - destruct (h !! l) as [[d| |]|]; try done.
    destruct (Heap.load_list h (Heap.ingredients d)) as [i|] eqn:Ei; [|done].
    destruct (Heap.load_list h (Heap.steps d)) as [s|] eqn:Es; [|done].
    destruct (Heap.load_dietary h (Heap.dietary_info d)) as [di|] eqn:Ed; [|done].
    destruct (Heap.load_list h (Heap.tags d)) as [t|] eqn:Et; [|done].
    simpl. intros [= <-]. exists d. simpl. repeat split; assumption.
  - intros [d (-> & -> & -> & -> & -> & H)]. simpl. destruct r; simpl in *.
    destruct H as (-> & -> & -> & -> & -> & -> & -> & -> & ->). done.
Qed.

Lemma load_prefix (h h' : Heap.t) (l : Heap.loc) (r : Recipe.t) :
  h `prefix_of` h' → Heap.load h l = Some r → Heap.load h' l = Some r.
Proof.
  intros Hp [d (Hd & Hi & Hs & Hdi & Ht & H)]%load_inv. apply load_inv. exists d.
  split; [by eapply prefix_lookup_Some|].
  split; [by eapply load_list_prefix|]. split; [by eapply load_list_prefix|].
  split; [by eapply load_dietary_prefix|]. split; [by eapply load_list_prefix|]. exact H.
Qed.

Lemma substitute_one_cons old_ing new_ing subs ing :
  Spec.substitute_one ((old_ing, new_ing) :: subs) ing
  = Spec.substitute_one subs
      (if String.eqb (Str.lower ing) (Str.lower old_ing) then new_ing else ing).
Proof.
  unfold Spec.substitute_one. simpl.
  case String.eqb_spec; intros H; [by rewrite decide_True | by rewrite decide_False].
Qed.

(** The substitution loop leaves every list it reads as it is: each turn
    binds the variable to a new list. *)
Lemma for_fold_substitute (subs : list (string * string)) :
  ∀ (cur : Heap.loc) (ys : list string) (h : Heap.t),
    h !! cur = Some (Heap.OList ys) →
    ∃ cur' h',
      Heap.for_fold subs FallbackAIGenerator.apply_substitution cur h = (Py.Ok cur', h')
      ∧ h `prefix_of` h'
      ∧ h' !! cur' = Some (Heap.OList (map (Spec.substitute_one subs) ys))
      ∧ cur ≤ cur'.
Proof.
  induction subs as [|[old_ing new_ing] subs IH]; intros cur ys h Hcur.
  - exists cur, h. simpl. rewrite map_id. done.
  - set (ys1 := map (λ ing, if String.eqb (Str.lower ing) (Str.lower old_ing)
                            then new_ing else ing) ys).
    destruct (IH (length h) ys1 (h ++ [Heap.OList ys1])) as (cur' & h' & Hrun & Hp & Hl & Hle).
    { by apply list_lookup_middle. }
    exists cur', h'. split; [|split; [|split]].
    + cbn [Heap.for_fold]. erewrite bind_ok; [exact Hrun|].
      unfold FallbackAIGenerator.apply_substitution.
      erewrite bind_ok; [|by apply read_list_ok]. reflexivity.
    + etransitivity; [|exact Hp]. by apply prefix_app_r.
    + rewrite Hl. f_equal. f_equal. unfold ys1. rewrite map_map.
      apply map_ext. intros ing. by rewrite substitute_one_cons.
    + apply lookup_lt_Some in Hcur. lia.
Qed.

Lemma replace_unavailable_run available cur (h : Heap.t) (done_ rest_ : list string) ing :
  h !! cur = Some (Heap.OList (done_ ++ ing :: rest_)) →
  FallbackAIGenerator.replace_unavailable available cur (length done_) h
  = (Py.Ok (), <[cur:=Heap.OList (done_ ++ Spec.fill available ing :: rest_)]> h).
Proof.
  intros Hcur. unfold FallbackAIGenerator.replace_unavailable.
  erewrite bind_ok; [|by apply read_list_ok].
  rewrite list_lookup_middle by done. unfold Spec.fill, Str.mem.
  destruct (decide (Str.lower ing ∈ map Str.lower available)) as [Hin|Hout].
  - rewrite bool_decide_eq_true_2 by done. simpl.
    by rewrite list_insert_id.
  - rewrite bool_decide_eq_false_2 by done. simpl. destruct available as [|first ?].
    + by rewrite list_insert_id.
    + unfold Heap.write. do 3 f_equal.
      rewrite insert_app_r_alt by done. by rewrite Nat.sub_diag.
Qed.

(** The loop over the indices is a [map] on the one list it updates. *)
Lemma for_each_replace_unavailable available cur (rest_ : list string) :
  ∀ (done_ : list string) (h : Heap.t),
    h !! cur = Some (Heap.OList (done_ ++ rest_)) →
    Heap.for_each (seq (length done_) (length rest_))
      (FallbackAIGenerator.replace_unavailable available cur) h
    = (Py.Ok (), <[cur:=Heap.OList (done_ ++ map (Spec.fill available) rest_)]> h).
Proof.
  induction rest_ as [|ing rest_ IH]; intros done_ h Hcur.
  - simpl. by rewrite list_insert_id.
  - cbn [length seq Heap.for_each].
    erewrite bind_ok; [|by apply replace_unavailable_run].
    assert (Hlen : cur < length h) by (by eapply lookup_lt_Some).
    specialize (IH (done_ ++ [Spec.fill available ing])
                   (<[cur:=Heap.OList (done_ ++ Spec.fill available ing :: rest_)]> h)).
    rewrite length_app in IH. simpl in IH. rewrite Nat.add_1_r in IH.
    rewrite IH.
    + rewrite list_insert_insert_eq. by rewrite <- app_assoc.
    + rewrite list_lookup_insert_eq by done. by rewrite <- app_assoc.
Qed.

(** The run of [adapt_recipe] up to the reading of the name, from the facts
    about the stores it goes through. *)
Ltac run_to_name Hd Ha1 Hget Hli Hsub Hc1 Ha5 Ha6 :=
  erewrite bind_ok; [|apply read_dict_ok; exact Hd];
  erewrite bind_ok; [|reflexivity];
  erewrite bind_ok; [|apply read_dict_ok; exact Ha1];
  erewrite bind_ok; [|exact Hget];
  erewrite bind_ok; [|apply read_list_ok; exact Hli];
  erewrite bind_ok; [|reflexivity];
  erewrite bind_ok; [|exact Hsub];
  erewrite bind_ok; [|apply read_list_ok; exact Hc1];
  erewrite bind_ok;
    [|apply (for_each_replace_unavailable _ _ _ []); exact Hc1];
  erewrite bind_ok; [|apply update_dict_ok; exact Ha5];
  erewrite bind_ok; [|apply read_dict_ok; exact Ha6].

(** The run of [adapt_recipe] on a store that holds the recipe [r] at
    [recipe]: the old objects stay as they are; with a name the call returns
    the address of a new dict, without a name it raises [KeyError]. *)
Lemma adapt_recipe_run
    (h : Heap.t) (recipe : Heap.loc) (r : Recipe.t)
    (available : list string) (substitutions : list (string * string)) :
  Heap.load h recipe = Some r →
  ∃ res h',
    FallbackAIGenerator.adapt_recipe recipe available substitutions h = (res, h')
    ∧ h `prefix_of` h'
    ∧ Heap.load h' recipe = Some r
    ∧ match Recipe.name r with
      | Some name =>
          ∃ adapted, res = Py.Ok adapted
            ∧ length h ≤ adapted
            ∧ Heap.load h' adapted = Some (Spec.adapted r name available substitutions)
      | None => res = Py.Raise (Py.KeyError "name")
      end.
Proof.
  intros Hload.
  pose proof Hload as [d (Hd & Hi & Hs & Hdi & Ht & Hid & Hname & Hrest)]%load_inv.
  set (a := length h). set (h1 := h ++ [Heap.ODict d]).
  set (xs0 := default [] (Recipe.ingredients r)).
  assert (Ha1 : h1 !! a = Some (Heap.ODict d)) by (by apply list_lookup_middle).
  assert (Hp1 : h `prefix_of` h1) by (by apply prefix_app_r).
  (* the list that [adapted.get('ingredients', [])] gives *)
  assert (∃ li h2,
            match Heap.ingredients d with
            | Some l => Heap.ret l
            | None => Heap.alloc (Heap.OList [])
            end h1 = (Py.Ok li, h2)
            ∧ h1 `prefix_of` h2 ∧ h2 !! li = Some (Heap.OList xs0))
    as (li & h2 & Hget & Hp2 & Hli).
  { unfold xs0. destruct (Heap.ingredients d) as [l|]; simpl in Hi.
    - destruct (h !! l) as [[| xs |]|] eqn:El; try done. injection Hi as <-.
      exists l, h1. split; [done|]. split; [done|].
      by apply (prefix_lookup_Some h).
    - injection Hi as <-. exists (length h1), (h1 ++ [Heap.OList []]).
      split; [done|]. split; [by apply prefix_app_r | by apply list_lookup_middle]. }
  set (c0 := length h2). set (h3 := h2 ++ [Heap.OList xs0]).
  destruct (for_fold_substitute substitutions c0 xs0 h3) as (c1 & h4 & Hsub & Hp4 & Hc1 & Hle).
  { by apply list_lookup_middle. }
  set (ys := map (Spec.substitute_one substitutions) xs0) in *.
  set (h5 := <[c1:=Heap.OList (map (Spec.fill available) ys)]> h4).
  assert (Hp3 : h `prefix_of` h4).
  { etransitivity; [exact Hp1|]. etransitivity; [exact Hp2|].
    etransitivity; [|exact Hp4]. by apply prefix_app_r. }
  assert (Hlen1 : length h1 = S a) by (unfold h1; rewrite length_app; simpl; lia).
  assert (Hlen2 : S a ≤ c0) by (rewrite <- Hlen1; by apply prefix_length).
  assert (Hac : a ≠ c1) by lia.
  assert (Hc1lt : c1 < length h4) by (by eapply lookup_lt_Some).
  assert (Ha4 : h4 !! a = Some (Heap.ODict d)).
  { apply (prefix_lookup_Some h1); [done|].
    etransitivity; [exact Hp2|]. etransitivity; [|exact Hp4]. by apply prefix_app_r. }
  assert (Ha5 : h5 !! a = Some (Heap.ODict d)).
  { unfold h5. by rewrite list_lookup_insert_ne. }
  set (d6 := Heap.set_ingredients c1 d).
  set (h6 := <[a:=Heap.ODict d6]> h5).
  assert (Hlen5 : a < length h5).
  { by eapply lookup_lt_Some. }
  assert (Ha6 : h6 !! a = Some (Heap.ODict d6)).
  { unfold h6. by rewrite list_lookup_insert_eq. }
  assert (Hp6 : h `prefix_of` h6).
  { unfold h6, h5. apply prefix_insert_ge; [|done].
    apply prefix_insert_ge; [done|]. unfold a in *. lia. }
  rewrite Hname. destruct (Heap.name d) as [name|] eqn:En.
  - set (d7 := Heap.set_name (name +:+ " (Adapted)") d6).
    set (d8 := Heap.set_ai_generated true d7).
    set (h8 := <[a:=Heap.ODict d8]> (<[a:=Heap.ODict d7]> h6)).
    assert (Hp8 : h `prefix_of` h8).
    { unfold h8. apply prefix_insert_ge; [|done]. by apply prefix_insert_ge. }
    exists (Py.Ok a), h8. split; [|split; [done|split; [by eapply load_prefix|]]].
    + unfold FallbackAIGenerator.adapt_recipe.
      run_to_name Hd Ha1 Hget Hli Hsub Hc1 Ha5 Ha6.
      change (Heap.name d6) with (Heap.name d). rewrite En.
      erewrite bind_ok; [|reflexivity].
      erewrite bind_ok; [|by apply update_dict_ok]. fold d7.
      erewrite bind_ok; [|apply update_dict_ok; apply list_lookup_insert_eq;
                          unfold h6; by rewrite length_insert].
      reflexivity.
    + exists a. split; [done|]. split; [done|].
      apply load_inv. exists d8.
      assert (Hc8 : h8 !! c1 = Some (Heap.OList (map (Spec.fill available) ys))).
      { unfold h8, h6, h5. rewrite !list_lookup_insert_ne by done.
        by apply list_lookup_insert_eq. }
      split.
      { unfold h8. apply list_lookup_insert_eq. unfold h6.
        by rewrite !length_insert. }
      split.
      { simpl. rewrite Hc8. unfold ys. by rewrite map_map. }
      split; [by eapply load_list_prefix|].
      split; [by eapply load_dietary_prefix|].
      split; [by eapply load_list_prefix|].
      simpl. destruct Hrest as (? & ? & ? & ? & ? & ? & ?). done.
  - exists (Py.Raise (Py.KeyError "name")), h6.
    split; [|split; [done|split; [by eapply load_prefix|done]]].
    unfold FallbackAIGenerator.adapt_recipe.
    run_to_name Hd Ha1 Hget Hli Hsub Hc1 Ha5 Ha6.
      change (Heap.name d6) with (Heap.name d). rewrite En.
    erewrite bind_raise; reflexivity.
Qed.



(** The substitutions are applied in a row: a value that one of them brings
    in can be replaced by a later one. *)
Example substitutions_chain :
  Spec.substitute_one [("a", "b"); ("b", "c")] "a" = "c".
Proof. reflexivity. Qed.

Lemma substitute_one_fixed (subs : list (string * string)) (ing : string) :
  (∀ j old_ing new_ing, subs !! j = Some (old_ing, new_ing) →
     Str.lower ing ≠ Str.lower old_ing) →
  Spec.substitute_one subs ing = ing.
Proof.
  induction subs as [|[old_ing new_ing] subs IH]; intros H; [reflexivity|].
  rewrite substitute_one_cons.
  rewrite (proj2 (String.eqb_neq _ _) (H 0 old_ing new_ing eq_refl)).
  apply IH. intros j o n Hj. by apply (H (S j) o n).
Qed.

(** When no substitution feeds a later one, applying them in a row is
    looking the ingredient up in the mapping once. *)
Lemma substitute_one_no_chain (subs : list (string * string)) (ing : string) :
  Spec.no_chain subs → Spec.substitute_one subs ing = Spec.substitute_first subs ing.
Proof.
  revert ing. induction subs as [|[old_ing new_ing] subs IH]; intros ing H; [reflexivity|].
  rewrite substitute_one_cons. cbn [Spec.substitute_first].
  case String.eqb_spec; intros E.
  - rewrite decide_True by done. apply substitute_one_fixed.
    intros j o n Hj. by apply (H 0 (S j) old_ing new_ing o n); [lia| |].
  - rewrite decide_False by done. apply IH.
    intros i j o n o' n' Hij Hi Hj. apply (H (S i) (S j) o n o' n'); [lia|done|done].
Qed.

(** A recipe without a name makes [adapt_recipe] raise, on every store. *)
Lemma adapt_recipe_raises
    (h : Heap.t) (recipe : Heap.loc) (r : Recipe.t)
    (available : list string) (substitutions : list (string * string)) :
  Heap.load h recipe = Some r →
  Recipe.name r = None →
  (FallbackAIGenerator.adapt_recipe recipe available substitutions h).1
  = Py.Raise (Py.KeyError "name").
Proof.
  intros Hload Hname.
  destruct (adapt_recipe_run h recipe r available substitutions Hload)
    as (res & h' & Hrun & _ & _ & H).
  rewrite Hname in H. by rewrite Hrun, H.
Qed.

(** C5.  [adapt_recipe] does not default a missing name: on a recipe with
    ingredients and no name the template generator raises [KeyError], and so
    does the Gemini generator when the call of the model fails or its
    response holds no JSON, whatever [json.loads] is. *)
Theorem adapt_recipe_raises_on_missing_name :
  Heap.load Examples.nameless_store 1 = Some Examples.nameless
  ∧ (FallbackAIGenerator.adapt_recipe 1 ["oil"] [] Examples.nameless_store).1
    = Py.Raise (Py.KeyError "name")
  ∧ (∀ json_loads,
       (GeminiGenerator.adapt_recipe json_loads GeminiGenerator.Fails
          1 ["oil"] [] Examples.nameless_store).1
       = Py.Raise (Py.KeyError "name"))
  ∧ (∀ json_loads,
       (GeminiGenerator.adapt_recipe json_loads
          (GeminiGenerator.Responds "no braces or brackets here")
          1 ["oil"] [] Examples.nameless_store).1
       = Py.Raise (Py.KeyError "name")).
Proof. repeat split. Qed.

(** ** Searching a pattern *)

Lemma str_app_cons (x : ascii) (a b : string) : String x a +:+ b = String x (a +:+ b).
Proof. reflexivity. Qed.

Lemma str_app_nil_l (a : string) : "" +:+ a = a.
Proof. reflexivity. Qed.

Lemma str_app_assoc (a b c : string) : (a +:+ b) +:+ c = a +:+ (b +:+ c).
Proof.
  induction a as [|x a IH]; [reflexivity|]. rewrite !str_app_cons. by f_equal.
Qed.

Lemma str_app_nil_r (a : string) : a +:+ "" = a.
Proof.
  induction a as [|x a IH]; [reflexivity|]. rewrite !str_app_cons. by f_equal.
Qed.

Lemma str_length_app (a b : string) :
  String.length (a +:+ b) = String.length a + String.length b.
Proof.
  induction a as [|x a IH]; [reflexivity|]. rewrite str_app_cons. simpl. by f_equal.
Qed.

Lemma take_app_length (a b : string) :
  Re.take (String.length (a +:+ b) - String.length b) (a +:+ b) = a.
Proof.
  rewrite str_length_app, Nat.add_sub.
  induction a as [|x a IH]; [by destruct b|].
  rewrite str_app_cons. simpl. by f_equal.
Qed.

Lemma one_sound {X} (p : ascii → bool) (s : string) (k : string → option X) (x : X) :
  Re.one p s k = Some x → ∃ c s', s = String c s' ∧ p c = true ∧ k s' = Some x.
Proof.
  destruct s as [|c s']; simpl; [done|].
  destruct (p c) eqn:E; [|done]. intros H. by exists c, s'.
Qed.

(** What [go] matches is a string of the pattern. *)
Lemma go_sound (r : Re.t) :
  ∀ {X} (s : string) (k : string → option X) (x : X),
    Re.go r s k = Some x →
    ∃ s1 s2, s = s1 +:+ s2 ∧ Spec.denotes r s1 ∧ k s2 = Some x.
Proof.
  induction r as [c| |cs|r1 IH1 r2 IH2|r1 IH1]; intros X s k x H; simpl in H.
  - apply one_sound in H as (c' & s' & -> & Hc & Hk).
    apply Ascii.eqb_eq in Hc as <-. exists (String c ""), s'. repeat split; [constructor | done].
  - apply one_sound in H as (c' & s' & -> & _ & Hk).
    exists (String c' ""), s'. repeat split; [constructor | done].
  - apply one_sound in H as (c' & s' & -> & Hc & Hk).
    apply negb_true_iff, bool_decide_eq_false in Hc.
    exists (String c' ""), s'. repeat split; [by constructor | done].
  - apply IH1 in H as (s1 & s2 & -> & H1 & H).
    apply IH2 in H as (s3 & s4 & -> & H2 & H).
    exists (s1 +:+ s3), s4. rewrite str_app_assoc. repeat split; [by constructor | done].
  - revert H. generalize (String.length s). intros n. revert s.
    induction n as [|n IHn]; intros s H; simpl in H.
    + exists "", s. repeat split; [constructor | done].
    + destruct (Re.go r1 s _) as [x'|] eqn:E.
      * injection H as ->. apply IH1 in E as (s1 & s2 & -> & H1 & H).
        destruct (String.length s2 <? _); [|done].
        apply IHn in H as (s3 & s4 & -> & H3 & H).
        exists (s1 +:+ s3), s4. rewrite str_app_assoc. repeat split; [by constructor | done].
      * exists "", s. repeat split; [constructor | done].
Qed.

Lemma go_span (r : Re.t) (s rest : string) :
  Re.go r s Some = Some rest →
  ∃ span, s = span +:+ rest ∧ Spec.denotes r span
          ∧ Re.take (String.length s - String.length rest) s = span.
Proof.
  intros (s1 & s2 & -> & H1 & [= ->])%go_sound.
  exists s1. by rewrite take_app_length.
Qed.

(** The match that [search] returns is a piece of the text and a string of
    the pattern. *)
Lemma search_sound (r : Re.t) (text span : string) :
  Re.search r text = Some span →
  ∃ pre post, text = pre +:+ span +:+ post ∧ Spec.denotes r span.
Proof.
  induction text as [|c text IH]; cbn [Re.search].
  - destruct (Re.go r "" Some) as [rest|] eqn:E; [|done].
    apply go_span in E as (span' & Hs & Hd & ->). intros [= <-]. by exists "", rest.
  - destruct (Re.go r (String c text) Some) as [rest|] eqn:E.
    + apply go_span in E as (span' & Hs & Hd & ->). intros [= <-]. by exists "", rest.
    + intros (pre & post & -> & H)%IH. by exists (String c pre), post.
Qed.

Lemma after_last_close_none (s : string) :
  Spec.after_last_close s = None ↔ ¬ Spec.occurs "}" s.
Proof.
  induction s as [|c s IH]; simpl; [tauto|].
  destruct (Spec.after_last_close s) as [rest|].
  - split; [done|]. intros H.
    assert (Hn : ¬ Spec.occurs "}" s) by tauto. by apply IH in Hn.
  - case Ascii.eqb_spec; intros Hc.
    + split; [done|]. intros H. destruct H. by left.
    + split; [|done]. intros _ [H|H]; [congruence | by apply IH in H].
Qed.

Lemma after_last_close_some (s rest : string) :
  Spec.after_last_close s = Some rest
  ↔ ∃ mid, s = mid +:+ "}" +:+ rest ∧ ¬ Spec.occurs "}" rest.
Proof.
  revert rest. induction s as [|c s IH]; intros rest; simpl.
  - split; [done|]. intros [mid [H _]]. by destruct mid.
  - destruct (Spec.after_last_close s) as [rest'|] eqn:E.
    + split.
      * intros [= ->]. destruct (proj1 (IH rest) eq_refl) as [mid [-> Hr]].
        by exists (String c mid).
      * intros [mid [H Hr]]. destruct mid as [|c' mid]; rewrite ?str_app_cons, ?str_app_nil_l in H.
        -- injection H as -> ->. apply after_last_close_none in Hr. congruence.
        -- injection H as -> ->. apply IH. exists mid. split; [reflexivity | exact Hr].
    + apply after_last_close_none in E. case Ascii.eqb_spec; intros Hc.
      * split.
        -- intros [= <-]. exists "". split; [by rewrite Hc | exact E].
        -- intros [mid [H Hr]]. destruct mid as [|c' mid]; rewrite ?str_app_cons, ?str_app_nil_l in H.
           ++ by injection H as _ ->.
           ++ injection H as _ ->. exfalso. apply E.
              clear. induction mid as [|x mid IH]; [by left | by right].
      * split; [done|]. intros [mid [H Hr]]. destruct mid as [|c' mid]; rewrite ?str_app_cons, ?str_app_nil_l in H.
        -- injection H as -> _. done.
        -- injection H as _ ->. exfalso. apply E.
           clear. induction mid as [|x mid IH]; [by left | by right].
Qed.

Lemma star_any_close (n : nat) :
  ∀ s, String.length s ≤ n →
    Re.star_loop (Re.go Re.Any) (λ s1, Re.go (Re.Chr "}") s1 Some) n s
    = Spec.after_last_close s.
Proof.
  induction n as [|n IH]; intros s Hn.
  - destruct s; [reflexivity | simpl in Hn; lia].
  - destruct s as [|c s]; [reflexivity|].
    cbn [Re.star_loop Re.go Re.one Spec.after_last_close]. simpl in Hn.
    rewrite (proj2 (Nat.ltb_lt _ _)) by (simpl; lia).
    rewrite IH by lia. destruct (Spec.after_last_close s); [reflexivity|].
    by rewrite Ascii.eqb_sym.
Qed.

Lemma go_object (s : string) :
  Re.go GeminiGenerator.object_pattern s Some
  = match s with
    | String c s' => if Ascii.eqb "{" c then Spec.after_last_close s' else None
    | EmptyString => None
    end.
Proof.
  destruct s as [|c s]; [reflexivity|].
  cbn [GeminiGenerator.object_pattern Re.go Re.one].
  destruct (Ascii.eqb "{" c); [|reflexivity]. by apply star_any_close.
Qed.

Lemma search_object_none (s : string) :
  ¬ Spec.occurs "}" s → Re.search GeminiGenerator.object_pattern s = None.
Proof.
  induction s as [|c s IH]; intros H; cbn [Re.search]; rewrite go_object; [reflexivity|].
  assert (Hs : ¬ Spec.occurs "}" s) by (intros ?; apply H; by right).
  rewrite (proj2 (after_last_close_none s) Hs), IH by done.
  by destruct (Ascii.eqb "{" c).
Qed.

(** The object search finds the part of the text from the first opening
    brace to the last closing brace, when the one comes before the other, and
    nothing else. *)
Lemma search_object_span (text span : string) :
  Re.search GeminiGenerator.object_pattern text = Some span
  ↔ Spec.object_span text span.
Proof.
  unfold Spec.object_span. split.
  - revert span. induction text as [|c text IH]; intros span;
      cbn [Re.search]; rewrite go_object; [done|].
    case Ascii.eqb_spec; intros Hc.
    + subst c. destruct (Spec.after_last_close text) as [rest|] eqn:E.
      * apply after_last_close_some in E as [mid [-> Hr]]. intros [= <-].
        exists "", mid, rest. split; [reflexivity|]. split; [by intros []|]. split; [done|].
        change (String "{" (mid +:+ "}" +:+ rest)) with ("{" +:+ mid +:+ "}" +:+ rest).
        change (S (String.length (mid +:+ "}" +:+ rest)))
          with (String.length ("{" +:+ mid +:+ "}" +:+ rest)).
        replace ("{" +:+ mid +:+ "}" +:+ rest) with (("{" +:+ mid +:+ "}") +:+ rest).
        -- apply take_app_length.
        -- by rewrite !str_app_assoc.
      * apply after_last_close_none in E. by rewrite search_object_none.
    + intros (pre & mid & post & -> & Hpre & Hpost & ->)%IH.
      exists (String c pre), mid, post. split; [reflexivity|].
      split; [|done]. intros [H|H]; [congruence | done].
  - intros (pre & mid & post & -> & Hpre & Hpost & ->).
    induction pre as [|c pre IH].
    + rewrite str_app_nil_l. change ("{" +:+ mid +:+ "}" +:+ post)
        with (String "{" (mid +:+ "}" +:+ post)).
      cbn [Re.search]. rewrite go_object.
      rewrite Ascii.eqb_refl.
      rewrite (proj2 (after_last_close_some (mid +:+ "}" +:+ post) post)) by eauto.
      f_equal.
      change (S (String.length (mid +:+ "}" +:+ post)))
        with (String.length ("{" +:+ mid +:+ "}" +:+ post)).
      change (String "{" (mid +:+ "}" +:+ post)) with ("{" +:+ mid +:+ "}" +:+ post).
      replace ("{" +:+ mid +:+ "}" +:+ post) with (("{" +:+ mid +:+ "}") +:+ post).
      * apply take_app_length.
      * by rewrite !str_app_assoc.
    + rewrite str_app_cons. cbn [Re.search]. rewrite go_object.
      case Ascii.eqb_spec; intros Hc.
      * exfalso. apply Hpre. by left.
      * apply IH. intros H. apply Hpre. by right.
Qed.

Section ParseJson.
Variable json_loads : string → Py.result Json.value.

Lemma parse_attempts (text : string) :
  GeminiGenerator._parse_json_from_response json_loads text
  = match GeminiGenerator.attempt json_loads GeminiGenerator.object_pattern text with
    | Py.Ok None => GeminiGenerator.attempt json_loads GeminiGenerator.array_pattern text
    | r => r
    end.
Proof.
  unfold GeminiGenerator._parse_json_from_response.
  destruct text as [|c text]; [reflexivity|]. simpl negb. cbv iota.
  destruct (GeminiGenerator.attempt json_loads GeminiGenerator.object_pattern _)
    as [[v|]|e]; [reflexivity| |reflexivity].
  by destruct (GeminiGenerator.attempt json_loads GeminiGenerator.array_pattern _)
    as [[v|]|e].
Qed.


End ParseJson.


(** Whatever the limit is, some JSON text is nested one level too deep for
    it, and on that text the extractor raises. *)
Lemma parse_value_too_deep (depth : nat) (rest : string) :
  Json.parse_value depth (Spec.repeated "[" (S depth) rest) = Py.Raise Py.RecursionError.
Proof.
  revert rest. induction depth as [|depth IH]; intros rest; [reflexivity|].
  change (Spec.repeated "[" (S (S depth)) rest)
    with (String "[" (String "[" (Spec.repeated "[" depth rest))).
  cbn [Json.parse_value Json.skip_ws].
  replace (Json.is_ws "[") with false by reflexivity. cbv beta iota.
  cbn [String.length Json.parse_elements].
  change (String "[" (Spec.repeated "[" depth rest))
    with (Spec.repeated "[" (S depth) rest).
  by rewrite IH.
Qed.

Lemma parse_members_raise
    (parse_value : string → Py.result (Json.value * string))
    (n : nat) (s0 key s2 : string) (e : Py.exn) :
  Json.parse_string s0 = Some (key, String ":" s2) →
  parse_value (Json.skip_ws s2) = Py.Raise e →
  Json.parse_members parse_value (S n) (String "034" s0) = Py.Raise e.
Proof.
  intros H1 H2. cbn [Json.parse_members]. rewrite H1. cbn [Json.skip_ws].
  replace (Json.is_ws ":") with false by reflexivity. cbv beta iota.
  by rewrite H2.
Qed.

Lemma loads_too_deep (limit : nat) :
  Json.loads limit (Spec.nested limit) = Py.Raise Py.RecursionError.
Proof.
  unfold Json.loads, Spec.nested.
  destruct limit as [|depth]; [reflexivity|].
  set (inner := Spec.repeated "[" (S depth) _).
  change (Spec.quoted "{'a':" +:+ inner)
    with (String "{" (String "034" (String "a" (String "034" (String ":" inner))))).
  cbn [Json.skip_ws].
  replace (Json.is_ws "{") with false by reflexivity. cbv beta iota.
  cbn [Json.parse_value Json.skip_ws].
  replace (Json.is_ws "034") with false by reflexivity. cbv beta iota.
  cbn [String.length].
  erewrite parse_members_raise; [reflexivity|reflexivity|].
  change (Json.skip_ws inner) with inner. apply parse_value_too_deep.
Qed.

Lemma repeated_app (c : ascii) (n : nat) (rest tail : string) :
  Spec.repeated c n rest +:+ tail = Spec.repeated c n (rest +:+ tail).
Proof. induction n as [|n IH]; [reflexivity|]. simpl. by rewrite <- IH. Qed.

Lemma occurs_repeated (c x : ascii) (n : nat) (rest : string) :
  Spec.occurs c (Spec.repeated x n rest) → c = x ∨ Spec.occurs c rest.
Proof. induction n as [|n IH]; simpl; [tauto|]. intros [->|H]; tauto. Qed.

Lemma parse_json_raises_at_every_limit (limit : nat) :
  GeminiGenerator._parse_json_from_response (Json.loads limit) (Spec.nested limit)
  = Py.Raise Py.RecursionError.
Proof.
  rewrite parse_attempts. unfold GeminiGenerator.attempt at 1.
  assert (Hspan : Spec.object_span (Spec.nested limit) (Spec.nested limit)).
  { exists "", (Spec.quoted "'a':" +:+ Spec.repeated "[" limit (Spec.repeated "]" limit "")),
      "".
    assert (E : Spec.nested limit
                = "{" +:+ (Spec.quoted "'a':"
                           +:+ Spec.repeated "[" limit (Spec.repeated "]" limit "")) +:+ "}").
    { unfold Spec.nested. rewrite str_app_assoc, !repeated_app. reflexivity. }
    split; [by rewrite str_app_nil_r|]. split; [by intros []|]. split; [by intros []|].
    exact E. }
  apply search_object_span in Hspan. rewrite Hspan.
  by rewrite loads_too_deep.
Qed.

Example parse_json_below_the_limit :
  ∃ v, GeminiGenerator._parse_json_from_response (Json.loads 1000) (Spec.nested 999)
       = Py.Ok (Some (Json.Object [("a", v)])).
Proof. eexists. vm_compute. reflexivity. Qed.

(** * Further properties of the code *)

(** ** Dietary matcher *)

(** A list of restrictions is passed exactly when each part of it is, and
    the order of the labels plays no part: a recipe that is rejected stays
    rejected when restrictions are added. *)
Theorem restrictions_add_up (r : Recipe.t) (R1 R2 R R' : list string) :
  App.matches_dietary_restrictions r (R1 ++ R2)
  = App.matches_dietary_restrictions r R1 && App.matches_dietary_restrictions r R2
  ∧ (R ≡ₚ R' →
     App.matches_dietary_restrictions r R = App.matches_dietary_restrictions r R').
Proof.
  split.
  - rewrite !matches_is_check. apply check_restrictions_app.
  - intros HP. rewrite !matches_is_check.
    induction HP as [|l R R' HP IH|l1 l2 R|R R' R'' HP1 IH1 HP2 IH2]; simpl.
    + reflexivity.
    + by rewrite IH.
    + by destruct (App.restriction_passes _ _ l1), (App.restriction_passes _ _ l2).
    + by rewrite IH1.
Qed.

Lemma restriction_passes_lower tags d (l l' : string) :
  Str.lower l = Str.lower l' →
  App.restriction_passes tags d l = App.restriction_passes tags d l'.
Proof. intros H. unfold App.restriction_passes. by rewrite H. Qed.

(** The labels of the restrictions are read without regard to case: two
    lists that agree once lower-cased give the same answer. *)
Theorem restrictions_ignore_case (r : Recipe.t) (R R' : list string) :
  map Str.lower R = map Str.lower R' →
  App.matches_dietary_restrictions r R = App.matches_dietary_restrictions r R'.
Proof.
  rewrite !matches_is_check. revert R'.
  induction R as [|l R IH]; intros [|l' R'] H; try discriminate H; [reflexivity|].
  injection H as Hl HR. simpl.
  by rewrite (restriction_passes_lower _ _ l l' Hl), (IH R' HR).
Qed.

Lemma restrictions_ignore_case_witness :
  map Str.lower ["Vegan"; "GLUTEN-FREE"] = map Str.lower ["vegan"; "gluten-free"]
  ∧ App.matches_dietary_restrictions Examples.cake ["Vegan"; "GLUTEN-FREE"]
    = App.matches_dietary_restrictions Examples.cake ["vegan"; "gluten-free"].
Proof.
  split; [reflexivity|].
  exact (restrictions_ignore_case Examples.cake ["Vegan"; "GLUTEN-FREE"]
           ["vegan"; "gluten-free"] eq_refl).
Defined.

(** The tags, on the other hand, are compared as they are written. *)
Example tag_case_matters :
  App.matches_dietary_restrictions
    (Recipe.mk None None None None None None None None None None None (Some ["Vegan"]) None)
    ["vegan"] = false.
Proof. reflexivity. Qed.

(** ** Ingredient scorer *)

Lemma score_cases (r : Recipe.t) (owned : list string) :
  owned ≠ [] →
  let ings := default [] (Recipe.ingredients r) in
  let matched := length (filter (Spec.ingredient_matched owned) ings) in
  let total := length ings in
  App.calculate_ingredient_match_score r owned
  = if Nat.eqb total 0 then 0%Q
    else if Nat.eqb matched total then 1%Q
    else (inject_Z (Z.of_nat matched) / inject_Z (Z.of_nat total))%Q.
Proof.
  intros Ho ings matched total. unfold App.calculate_ingredient_match_score.
  destruct owned as [|o owned']; [done|].
  rewrite count_matching_spec. fold ings. rewrite length_map. reflexivity.
Qed.

Lemma filter_length_mono {A} (P Q : A → Prop)
    `{∀ x, Decision (P x)} `{∀ x, Decision (Q x)} (l : list A) :
  (∀ x, P x → Q x) → length (filter P l) ≤ length (filter Q l).
Proof.
  intros HPQ. induction l as [|x l IH]; [done|].
  rewrite !filter_cons. destruct (decide (P x)) as [HP|HP].
  - rewrite decide_True by auto. simpl. lia.
  - destruct (decide (Q x)); simpl; lia.
Qed.

Lemma filter_length_all {A} (P : A → Prop) `{∀ x, Decision (P x)} (l : list A) :
  (∀ x, x ∈ l → P x) → length (filter P l) = length l.
Proof.
  intros HP. induction l as [|x l IH]; [done|].
  rewrite filter_cons_True by (apply HP; by left). simpl. rewrite IH; [done|].
  intros y Hy. apply HP. by right.
Qed.

Lemma ratio_mono (m1 m2 t : nat) :
  m1 ≤ m2 → 0 < t →
  (inject_Z (Z.of_nat m1) / inject_Z (Z.of_nat t)
   <= inject_Z (Z.of_nat m2) / inject_Z (Z.of_nat t))%Q.
Proof.
  intros Hm Ht.
  assert (0 < inject_Z (Z.of_nat t))%Q as Hpos.
  { change 0%Q with (inject_Z 0). rewrite <- Zlt_Qlt. lia. }
  apply Qle_shift_div_r; [exact Hpos|].
  unfold Qdiv. rewrite <- Qmult_assoc, (Qmult_comm (/ _)), Qmult_inv_r, Qmult_1_r.
  - rewrite <- Zle_Qle. lia.
  - intros H. rewrite H in Hpos. by apply Qlt_irrefl in Hpos.
Qed.

(** Among non-empty lists of owned ingredients the score grows with the
    list; and no list gives more than the empty one, which gives 1. *)
Theorem calculate_ingredient_match_score_mono
    (r : Recipe.t) (owned more : list string) :
  owned ≠ [] →
  (App.calculate_ingredient_match_score r owned
   <= App.calculate_ingredient_match_score r (owned ++ more))%Q
  ∧ (App.calculate_ingredient_match_score r (owned ++ more)
     <= App.calculate_ingredient_match_score r [])%Q.
Proof.
  intros Ho. split; [|apply (calculate_ingredient_match_score_range r (owned ++ more))].
  assert (Ho' : owned ++ more ≠ []) by (by destruct owned).
  pose proof (calculate_ingredient_match_score_range r owned) as [_ Hle1].
  rewrite (score_cases r (owned ++ more) Ho'). rewrite (score_cases r owned Ho) in Hle1 |- *.
  cbv zeta in *.
  set (ings := default [] (Recipe.ingredients r)) in *.
  set (m1 := length (filter (Spec.ingredient_matched owned) ings)) in *.
  set (m2 := length (filter (Spec.ingredient_matched (owned ++ more)) ings)).
  assert (H12 : m1 ≤ m2).
  { apply filter_length_mono. intros x (o & Hin & H). exists o. split; [|done].
    apply elem_of_app. by left. }
  assert (H2 : m2 ≤ length ings) by apply length_filter.
  destruct (Nat.eqb_spec (length ings) 0) as [|Ht]; [apply Qle_refl|].
  destruct (Nat.eqb_spec m2 (length ings)) as [E2|E2]; [exact Hle1|].
  destruct (Nat.eqb_spec m1 (length ings)) as [E1|E1]; [lia|].
  apply ratio_mono; lia.
Qed.

Lemma calculate_ingredient_match_score_mono_witness :
  ["salt"] ≠ []
  ∧ (App.calculate_ingredient_match_score Examples.cake ["salt"]
     <= App.calculate_ingredient_match_score Examples.cake (["salt"] ++ ["butter"]))%Q.
Proof.
  split; [discriminate|].
  exact (proj1 (calculate_ingredient_match_score_mono Examples.cake ["salt"] ["butter"]
                  ltac:(discriminate))).
Defined.

Lemma contains_empty (s : string) : Str.contains "" s = true.
Proof. by destruct s. Qed.

(** An empty string among the owned ingredients is contained in every
    ingredient, so every recipe that has ingredients scores 1. *)
Theorem empty_owned_ingredient_matches_all (r : Recipe.t) (owned : list string) :
  "" ∈ owned →
  default [] (Recipe.ingredients r) ≠ [] →
  App.calculate_ingredient_match_score r owned = 1%Q.
Proof.
  intros He Hi.
  assert (Ho : owned ≠ []) by (intros ->; by apply elem_of_nil in He).
  rewrite (score_cases r owned Ho). cbv zeta.
  rewrite filter_length_all.
  - destruct (default [] (Recipe.ingredients r)) as [|i ings]; [done|].
    simpl. by rewrite Nat.eqb_refl.
  - intros ing _. exists "". split; [done|]. left. apply contains_spec, contains_empty.
Qed.

Lemma empty_owned_ingredient_matches_all_witness :
  "" ∈ [""; "kale"]
  ∧ default [] (Recipe.ingredients Examples.cake) ≠ []
  ∧ App.calculate_ingredient_match_score Examples.cake [""; "kale"] = 1%Q.
Proof.
  assert (H1 : "" ∈ [""; "kale"]) by (by left).
  assert (H2 : default [] (Recipe.ingredients Examples.cake) ≠ []) by discriminate.
  split; [exact H1|]. split; [exact H2|].
  exact (empty_owned_ingredient_matches_all Examples.cake [""; "kale"] H1 H2).
Defined.

(** ** Ranker *)

Lemma elem_of_filter_recipes recipes prefs R owned (e : Scored.t) :
  e ∈ App.filter_recipes recipes prefs R owned
  ↔ ∃ r, r ∈ recipes ∧ App.rank_one prefs R owned r = Some e.
Proof.
  unfold App.filter_recipes. rewrite sort_desc_perm, collect_omap.
  apply list_elem_of_omap.
Qed.

Lemma length_filter_recipes
    (recipes : list Recipe.t) (prefs : Preferences.t) (R owned : list string) :
  length (App.filter_recipes recipes prefs R owned)
  = length (filter (λ r, App.matches_dietary_restrictions r R = true) recipes).
Proof.
  unfold App.filter_recipes. rewrite sort_desc_perm.
  rewrite <- (collect_recipes prefs R owned recipes).
  by rewrite length_fmap.
Qed.

(** Only the dietary check removes recipes: the ranked list has as many
    entries as the corpus has recipes that pass it, whatever the preferences
    and the owned ingredients are, and with no restriction it has them all. *)
Theorem filter_recipes_length
    (recipes : list Recipe.t) (prefs : Preferences.t) (R owned : list string) :
  length (App.filter_recipes recipes prefs R owned)
  = length (filter (λ r, App.matches_dietary_restrictions r R = true) recipes)
  ∧ length (App.filter_recipes recipes prefs [] owned) = length recipes.
Proof.
  split; [apply length_filter_recipes|].
  rewrite length_filter_recipes. by rewrite filter_length_all.
Qed.

(** When no preference is requested (each field missing or empty, as from
    the command line without options), every entry has the preference score
    1 and so the score [ingredient_match * 0.6 + 1 * 0.4]. *)
Theorem filter_recipes_without_preferences
    (recipes : list Recipe.t) (prefs : Preferences.t) (R owned : list string)
    (e : Scored.t) :
  Preferences.requested (Preferences.cuisine prefs) = false →
  Preferences.requested (Preferences.meal_type prefs) = false →
  Preferences.requested (Preferences.difficulty prefs) = false →
  e ∈ App.filter_recipes recipes prefs R owned →
  Scored.preference_match e = 1%Q
  ∧ Scored.score e = (Scored.ingredient_match e * 0.6 + 1 * 0.4)%Q.
Proof.
  intros Hc Hm Hd (r & _ & [_ ->]%rank_one_spec)%elem_of_filter_recipes.
  unfold App.cuisine_match, App.meal_type_match, App.difficulty_match.
  rewrite Hc, Hm, Hd. by split.
Qed.

Lemma filter_recipes_without_preferences_witness :
  ∃ e, e ∈ App.filter_recipes [Examples.cake]
             (Preferences.mk (Some "") None (Some "")) [] ["flour"]
       ∧ Scored.preference_match e = 1%Q.
Proof.
  eexists. split.
  - apply elem_of_filter_recipes. exists Examples.cake. split; [by left | reflexivity].
  - refine (proj1 (filter_recipes_without_preferences [Examples.cake]
             (Preferences.mk (Some "") None (Some "")) [] ["flour"] _
             eq_refl eq_refl eq_refl _)).
    apply elem_of_filter_recipes. exists Examples.cake. split; [by left | reflexivity].
Defined.

(** Every score is at least 0.1568 (no ingredient matched, the three
    preferences missed), and it is 1 exactly when the ingredient score is 1
    and the three preference checks hold. *)
Theorem filter_recipes_score_extremes
    (recipes : list Recipe.t) (prefs : Preferences.t) (R owned : list string)
    (e : Scored.t) :
  e ∈ App.filter_recipes recipes prefs R owned →
  (0.1568 <= Scored.score e)%Q
  ∧ ((Scored.score e == 1)%Q
     ↔ (Scored.ingredient_match e == 1)%Q
       ∧ App.cuisine_match (Preferences.cuisine prefs)
           (Recipe.cuisine (Scored.recipe e)) = true
       ∧ App.meal_type_match (Preferences.meal_type prefs)
           (Recipe.meal_type (Scored.recipe e)) = true
       ∧ App.difficulty_match (Preferences.difficulty prefs)
           (Recipe.difficulty (Scored.recipe e)) = true).
Proof.
  intros (r & _ & [_ ->]%rank_one_spec)%elem_of_filter_recipes. simpl.
  pose proof (calculate_ingredient_match_score_range r owned) as [H0 H1].
  set (im := App.calculate_ingredient_match_score r owned) in *. clearbody im.
  destruct (App.cuisine_match _ _), (App.meal_type_match _ _), (App.difficulty_match _ _);
    cbv [App.preference_score negb]; split; try lra;
    (split; [intros H; split; [lra|]; try (exfalso; lra); done
            | intros (H & ? & ? & ?); try discriminate; lra]).
Qed.

Lemma filter_recipes_score_extremes_witness :
  ∃ e, e ∈ App.filter_recipes [Examples.cake]
             (Preferences.mk (Some "thai") None None) [] ["flour"]
       ∧ (0.1568 <= Scored.score e)%Q.
Proof.
  eexists. split.
  - apply elem_of_filter_recipes. exists Examples.cake. split; [by left | reflexivity].
  - refine (proj1 (filter_recipes_score_extremes [Examples.cake]
             (Preferences.mk (Some "thai") None None) [] ["flour"] _ _)).
    apply elem_of_filter_recipes. exists Examples.cake. split; [by left | reflexivity].
Defined.

(** ** Template generator and ranker together *)

Lemma prefix_refl (s : string) : String.prefix s s = true.
Proof. apply prefix_spec. exists "". by rewrite str_app_nil_r. Qed.

Lemma contains_refl (s : string) : Str.contains s s = true.
Proof. destruct s; [reflexivity|]. cbn [Str.contains]. by rewrite prefix_refl. Qed.

Section GeneratedAndRanked.
Variable set_to_list : list string → list string.

Lemma rank_one_generated
    (prefs : Preferences.t) (R0 owned0 R owned : list string) :
  let g := FallbackAIGenerator.generate_recipe set_to_list prefs R0 owned0 in
  let im := App.calculate_ingredient_match_score g owned in
  App.rank_one prefs R owned g
  = if App.matches_dietary_restrictions g R
    then Some (Scored.mk g (im * 0.6 + 1 * 0.4)%Q im 1%Q)
    else None.
Proof.
  intros g im. unfold App.rank_one.
  destruct (App.matches_dietary_restrictions g R); [|reflexivity]. simpl negb. cbv iota.
  assert (Hc : App.cuisine_match (Preferences.cuisine prefs) (Recipe.cuisine g) = true).
  { unfold App.cuisine_match, g. cbn [FallbackAIGenerator.generate_recipe Recipe.cuisine].
    destruct (Preferences.cuisine prefs) as [c|]; [|done]. cbn [default].
    destruct (Preferences.requested _); [apply contains_refl | done]. }
  assert (Hm : App.meal_type_match (Preferences.meal_type prefs) (Recipe.meal_type g) = true).
  { unfold App.meal_type_match, g.
    cbn [FallbackAIGenerator.generate_recipe Recipe.meal_type].
    destruct (Preferences.meal_type prefs) as [c|]; [|done]. cbn [default].
    destruct (Preferences.requested _); [apply contains_refl | done]. }
  assert (Hd : App.difficulty_match (Preferences.difficulty prefs) (Recipe.difficulty g) = true).
  { unfold App.difficulty_match, g.
    cbn [FallbackAIGenerator.generate_recipe Recipe.difficulty].
    destruct (Preferences.difficulty prefs) as [c|]; [|done]. cbn [default].
    destruct (Preferences.requested _); [apply String.eqb_refl | done]. }
  by rewrite Hc, Hm, Hd.
Qed.

(** A recipe made by the template generator from some preferences meets
    these preferences when it is ranked against them: its cuisine, meal type
    and difficulty are the requested texts.  It is ranked with the
    preference score 1, or not at all if it fails the dietary check. *)
Theorem generated_recipe_meets_preferences
    (prefs : Preferences.t) (R0 owned0 R owned : list string) :
  let g := FallbackAIGenerator.generate_recipe set_to_list prefs R0 owned0 in
  let im := App.calculate_ingredient_match_score g owned in
  App.rank_one prefs R owned g
  = if App.matches_dietary_restrictions g R
    then Some (Scored.mk g (im * 0.6 + 1 * 0.4)%Q im 1%Q)
    else None.
Proof. exact (rank_one_generated prefs R0 owned0 R owned). Qed.

Hypothesis set_to_list_ok : Spec.lists_the_set set_to_list.

Lemma generated_passes (prefs : Preferences.t) (R owned : list string) :
  Forall (λ l, l ∈ Spec.recognized) R →
  App.matches_dietary_restrictions
    (FallbackAIGenerator.generate_recipe set_to_list prefs R owned) R = true.
Proof.
  intros HR. rewrite matches_is_check. apply check_restrictions_spec.
  intros l Hl _. rewrite Forall_forall in HR.
  rewrite (lower_recognized l) by auto.
  intros flag Hf. right. simpl. apply elem_of_app. by left.
Qed.

(** For a cuisine without entry in the table of the generator, the
    generated recipe consists of owned ingredients only: ranked against the
    same request it gets the greatest score there is, 1. *)
Theorem generated_recipe_scores_one
    (prefs : Preferences.t) (R owned : list string) :
  Forall (λ l, l ∈ Spec.recognized) R →
  owned ≠ [] →
  FallbackAIGenerator.dict_get FallbackAIGenerator.cuisine_ingredients
    (default "International" (Preferences.cuisine prefs)) = None →
  let g := FallbackAIGenerator.generate_recipe set_to_list prefs R owned in
  App.calculate_ingredient_match_score g owned = 1%Q
  ∧ ∃ e, App.rank_one prefs R owned g = Some e ∧ (Scored.score e == 1)%Q.
Proof.
  intros HR Ho Hc g.
  assert (Hi : Recipe.ingredients g = Some (set_to_list (take 5 owned))).
  { unfold g, FallbackAIGenerator.generate_recipe. cbn [Recipe.ingredients].
    rewrite Hc. by destruct owned. }
  destruct (set_to_list_ok (take 5 owned)) as [_ Hin].
  assert (Hs : App.calculate_ingredient_match_score g owned = 1%Q).
  { rewrite (score_cases g owned Ho). cbv zeta. rewrite Hi. cbn [default].
    rewrite filter_length_all.
    - destruct (set_to_list (take 5 owned)) as [|x xs] eqn:E.
      + destruct owned as [|o owned']; [done|].
        assert (o ∈ @nil string) as H by (apply Hin; simpl; by left).
        by apply elem_of_nil in H.
      + simpl. by rewrite Nat.eqb_refl.
    - intros ing Hing. exists ing. split.
      + apply Hin in Hing. by apply (subseteq_take 5 owned).
      + left. apply contains_spec, contains_refl. }
  split; [exact Hs|].
  pose proof (rank_one_generated prefs R owned R owned) as Hr.
  cbv zeta in Hr. fold g in Hr. rewrite Hr.
  unfold g at 1. rewrite (generated_passes prefs R owned HR). eexists. split; [reflexivity|].
  cbn [Scored.score]. rewrite Hs. reflexivity.
Qed.

(** The ingredients of a generated recipe: without repetition, at least
    one and at most seven, and the first five owned ingredients are among
    them. *)
Theorem generated_recipe_ingredients
    (prefs : Preferences.t) (R owned : list string) :
  ∃ ings,
    Recipe.ingredients (FallbackAIGenerator.generate_recipe set_to_list prefs R owned)
    = Some ings
    ∧ NoDup ings
    ∧ 1 ≤ length ings ≤ 7
    ∧ (∀ x, x ∈ take 5 owned → x ∈ ings).
Proof.
  unfold FallbackAIGenerator.generate_recipe. cbn [Recipe.ingredients].
  set (base := match owned with
               | [] => ["olive oil"; "garlic"; "salt"; "pepper"]
               | _ => take 5 owned
               end).
  set (all := match FallbackAIGenerator.dict_get _ _ with
              | Some extra => base ++ take 2 extra
              | None => base
              end).
  destruct (set_to_list_ok all) as [Hnd Hin].
  assert (Hbase : 1 ≤ length base ≤ 5).
  { unfold base. destruct owned as [|o owned']; [simpl; lia|].
    rewrite length_take. cbn [length]. lia. }
  assert (Hall : length base ≤ length all ≤ 7 ∧ ∀ x, x ∈ base → x ∈ all).
  { unfold all. destruct (FallbackAIGenerator.dict_get _ _) as [extra|].
    - rewrite length_app, length_take. split; [lia|]. intros x Hx. apply elem_of_app. by left.
    - split; [lia | done]. }
  exists (set_to_list all). split; [reflexivity|]. split; [exact Hnd|]. split; [split|].
  - destruct base as [|b base'] eqn:E; [simpl in Hbase; lia|].
    assert (b ∈ set_to_list all) as H by (apply Hin, Hall; by left).
    destruct (set_to_list all); [by apply elem_of_nil in H | simpl; lia].
  - transitivity (length all); [|lia].
    apply submseteq_length, NoDup_submseteq; [exact Hnd|]. intros x. apply Hin.
  - intros x Hx. apply Hin, Hall. unfold base. destruct owned; [|done].
    by apply elem_of_nil in Hx.
Qed.

(** A request for "vegan" sets the vegetarian and the dairy-free flag as
    well: the recipe passes these restrictions too, and its name starts with
    "Vegetarian " unless gluten-free is requested. *)
Theorem generated_vegan_is_vegetarian
    (prefs : Preferences.t) (R owned : list string) :
  "vegan" ∈ R →
  let g := FallbackAIGenerator.generate_recipe set_to_list prefs R owned in
  App.matches_dietary_restrictions g ["vegan"; "vegetarian"; "dairy-free"] = true
  ∧ ("gluten-free" ∉ R →
     ∃ rest, Recipe.name g = Some ("Vegetarian " +:+ rest)).
Proof.
  intros Hv g. apply mem_true in Hv. split.
  - unfold g, FallbackAIGenerator.generate_recipe.
    cbn. unfold App.restriction_passes. cbn. by rewrite Hv, !orb_true_r.
  - intros Hg. unfold g, FallbackAIGenerator.generate_recipe. cbn [Recipe.name].
    rewrite Hv, orb_true_r.
    assert (Str.mem "gluten-free" R = false) as -> by (by apply bool_decide_eq_false).
    destruct (String.eqb _ "Lunch"); rewrite str_app_assoc; eauto.
Qed.

End GeneratedAndRanked.

Lemma generated_recipe_scores_one_witness :
  ∃ e, App.rank_one (Preferences.mk (Some "Thai") None None) ["vegan"] ["rice"; "tofu"]
         (FallbackAIGenerator.generate_recipe remove_dups
            (Preferences.mk (Some "Thai") None None) ["vegan"] ["rice"; "tofu"]) = Some e
       ∧ (Scored.score e == 1)%Q.
Proof.
  refine (proj2 (generated_recipe_scores_one remove_dups remove_dups_lists_the_set
            (Preferences.mk (Some "Thai") None None) ["vegan"] ["rice"; "tofu"] _ _ _)).
  - repeat constructor.
  - discriminate.
  - reflexivity.
Defined.

Lemma generated_recipe_ingredients_witness :
  Spec.lists_the_set remove_dups
  ∧ ∃ ings,
      Recipe.ingredients
        (FallbackAIGenerator.generate_recipe remove_dups
           (Preferences.mk (Some "Indian") None None) []
           ["rice"; "rice"; "cumin"; "peas"; "salt"; "oil"; "mint"]) = Some ings
      ∧ NoDup ings
      ∧ 1 ≤ length ings ≤ 7
      ∧ (∀ x, x ∈ take 5 ["rice"; "rice"; "cumin"; "peas"; "salt"; "oil"; "mint"]
              → x ∈ ings).
Proof.
  split; [exact remove_dups_lists_the_set|].
  exact (generated_recipe_ingredients remove_dups remove_dups_lists_the_set
           (Preferences.mk (Some "Indian") None None) []
           ["rice"; "rice"; "cumin"; "peas"; "salt"; "oil"; "mint"]).
Defined.

Lemma generated_vegan_is_vegetarian_witness :
  "vegan" ∈ ["keto"; "vegan"]
  ∧ App.matches_dietary_restrictions
      (FallbackAIGenerator.generate_recipe remove_dups
         (Preferences.mk None None None) ["keto"; "vegan"] [])
      ["vegan"; "vegetarian"; "dairy-free"] = true.
Proof.
  assert (H : "vegan" ∈ ["keto"; "vegan"]) by (right; left).
  split; [exact H|].
  exact (proj1 (generated_vegan_is_vegetarian remove_dups
                  (Preferences.mk None None None) ["keto"; "vegan"] [] H)).
Defined.

(** ** Gemini generator *)

(** Assignment and lookup on the items of a dict. *)
Lemma dict_get_set (items : list (string * Json.value)) (key k : string) (v : Json.value) :
  FallbackAIGenerator.dict_get (Json.dict_set items key v) k
  = if String.eqb k key then Some v else FallbackAIGenerator.dict_get items k.
Proof.
  induction items as [|[k' v'] items IH]; simpl.
  - by destruct (String.eqb k key).
  - destruct (String.eqb_spec k' key) as [->|Hne]; simpl.
    + by destruct (String.eqb k key).
    + rewrite IH. destruct (String.eqb_spec k k') as [->|]; [|done].
      by rewrite (proj2 (String.eqb_neq _ _) Hne).
Qed.

Section Gemini.
Variable json_loads : string → Py.result Json.value.
Variable set_to_list : list string → list string.

(** [generate_recipe] returns the data of the model exactly when the
    response decodes to a dict that is not empty; it then sets the key [id]
    to 9999 and leaves every other key, [ai_generated] among them, as the
    model gave it.  In every other case (the call fails, nothing decodes, the
    value is an empty dict, a list or anything else) it returns the recipe of
    the template generator. *)
Theorem gemini_generate_recipe_cases
    (answer : GeminiGenerator.outcome)
    (prefs : Preferences.t) (R owned : list string) :
  let result := GeminiGenerator.generate_recipe json_loads set_to_list answer prefs R owned in
  let template :=
    GeminiGenerator.GeneratedByTemplate
      (FallbackAIGenerator.generate_recipe set_to_list prefs R owned) in
  (∀ text item items,
     answer = GeminiGenerator.Responds text →
     GeminiGenerator._parse_json_from_response json_loads text
     = Py.Ok (Some (Json.Object (item :: items))) →
     ∃ data, result = GeminiGenerator.GeneratedByModel (Json.Object data)
       ∧ FallbackAIGenerator.dict_get data "id" = Some (Json.Int 9999)
       ∧ ∀ k, k ≠ "id" →
           FallbackAIGenerator.dict_get data k
           = FallbackAIGenerator.dict_get (item :: items) k)
  ∧ (answer = GeminiGenerator.Fails → result = template)
  ∧ (∀ text,
       answer = GeminiGenerator.Responds text →
       (∀ item items, GeminiGenerator._parse_json_from_response json_loads text
                      ≠ Py.Ok (Some (Json.Object (item :: items)))) →
       result = template).
Proof.
  intros result template. unfold result, GeminiGenerator.generate_recipe.
  split; [|split].
  - intros text item items -> ->. cbn [Json.truthy].
    eexists. split; [reflexivity|]. split.
    + by rewrite dict_get_set.
    + intros k Hk. rewrite dict_get_set. by rewrite (proj2 (String.eqb_neq _ _) Hk).
  - by intros ->.
  - intros text -> H.
    destruct (GeminiGenerator._parse_json_from_response json_loads text) as [[v|]|e];
      [|reflexivity|reflexivity].
    destruct v as [| | | | | | |xs|items]; try (by destruct (Json.truthy _)).
    destruct items as [|item items]; [reflexivity|]. by destruct (H item items).
Qed.

(** [generate_cooking_tips] returns the tips of the model exactly when the
    response decodes to a list that is not empty, and the tips of the
    template generator otherwise. *)
Theorem gemini_generate_cooking_tips_cases
    (answer : GeminiGenerator.outcome) (recipe : Recipe.t) :
  let result := GeminiGenerator.generate_cooking_tips json_loads answer recipe in
  let template :=
    GeminiGenerator.TipsByTemplate (FallbackAIGenerator.generate_cooking_tips recipe) in
  (∀ text x xs,
     answer = GeminiGenerator.Responds text →
     GeminiGenerator._parse_json_from_response json_loads text
     = Py.Ok (Some (Json.Array (x :: xs))) →
     result = GeminiGenerator.TipsByModel (x :: xs))
  ∧ (answer = GeminiGenerator.Fails → result = template)
  ∧ (∀ text,
       answer = GeminiGenerator.Responds text →
       (∀ x xs, GeminiGenerator._parse_json_from_response json_loads text
                ≠ Py.Ok (Some (Json.Array (x :: xs)))) →
       result = template).
Proof.
  intros result template. unfold result, GeminiGenerator.generate_cooking_tips.
  split; [|split].
  - by intros text x xs -> ->.
  - by intros ->.
  - intros text -> H.
    destruct (GeminiGenerator._parse_json_from_response json_loads text) as [[v|]|e];
      [|reflexivity|reflexivity].
    destruct v as [| | | | | | |[|x xs]|]; try reflexivity.
    by destruct (H x xs).
Qed.

(** When the response decodes to a dict that is not empty, [adapt_recipe]
    returns it with [ai_generated] set and [id] taken from the recipe (9999
    when the recipe has none), the other keys being as the model gave them,
    and the store is left as it is. *)
Theorem gemini_adapt_recipe_by_model
    (h : Heap.t) (recipe : Heap.loc) (d : Heap.dict)
    (available : list string) (substitutions : list (string * string))
    (text : string) (item : string * Json.value) (items : list (string * Json.value)) :
  h !! recipe = Some (Heap.ODict d) →
  GeminiGenerator._parse_json_from_response json_loads text
  = Py.Ok (Some (Json.Object (item :: items))) →
  ∃ data,
    GeminiGenerator.adapt_recipe json_loads (GeminiGenerator.Responds text)
      recipe available substitutions h
    = (Py.Ok (GeminiGenerator.AdaptedByModel (Json.Object data)), h)
    ∧ FallbackAIGenerator.dict_get data "ai_generated" = Some (Json.Bool true)
    ∧ FallbackAIGenerator.dict_get data "id"
      = Some (Json.Int (default 9999%Z (Heap.id d)))
    ∧ ∀ k, k ≠ "id" → k ≠ "ai_generated" →
        FallbackAIGenerator.dict_get data k
        = FallbackAIGenerator.dict_get (item :: items) k.
Proof.
  intros Hd Hp. unfold GeminiGenerator.adapt_recipe. rewrite Hp. cbn [Json.truthy].
  erewrite bind_ok; [|by apply read_dict_ok].
  eexists. split; [reflexivity|]. split; [|split].
  - by rewrite !dict_get_set.
  - by rewrite dict_get_set.
  - intros k H1 H2. rewrite !dict_get_set.
    by rewrite (proj2 (String.eqb_neq _ _) H1), (proj2 (String.eqb_neq _ _) H2).
Qed.

(** On a recipe that has a name [adapt_recipe] returns, whatever the model
    does: the data of the model, or the address of the adapted copy that the
    template generator made.  The objects of the caller's store are left as
    they are. *)
Theorem gemini_adapt_recipe_returns
    (answer : GeminiGenerator.outcome)
    (h : Heap.t) (recipe : Heap.loc) (r : Recipe.t) (name : string)
    (available : list string) (substitutions : list (string * string)) :
  Heap.load h recipe = Some r →
  Recipe.name r = Some name →
  ∃ result h',
    GeminiGenerator.adapt_recipe json_loads answer recipe available substitutions h
    = (Py.Ok result, h')
    ∧ h `prefix_of` h'
    ∧ Heap.load h' recipe = Some r
    ∧ match result with
      | GeminiGenerator.AdaptedByModel data => h' = h
      | GeminiGenerator.AdaptedByTemplate adapted =>
          Heap.load h' adapted = Some (Spec.adapted r name available substitutions)
      end.
Proof.
  intros Hload Hname.
  destruct (adapt_recipe_run h recipe r available substitutions Hload)
    as (res & h' & Hrun & Hp & Hr & H).
  rewrite Hname in H. destruct H as (adapted & -> & _ & Ha).
  set (fallback := FallbackAIGenerator.adapt_recipe recipe available substitutions
                   ≫= λ adapted, Heap.ret (GeminiGenerator.AdaptedByTemplate adapted)).
  assert (Hf : fallback h = (Py.Ok (GeminiGenerator.AdaptedByTemplate adapted), h')).
  { unfold fallback. by erewrite bind_ok. }
  assert (Ht : Heap.try_except fallback (λ _, fallback) h
               = (Py.Ok (GeminiGenerator.AdaptedByTemplate adapted), h')).
  { unfold Heap.try_except. by rewrite Hf. }
  assert (Hgoal : ∃ result h'0,
            (Py.Ok (GeminiGenerator.AdaptedByTemplate adapted), h') = (Py.Ok result, h'0)
            ∧ h `prefix_of` h'0 ∧ Heap.load h'0 recipe = Some r
            ∧ match result with
              | GeminiGenerator.AdaptedByModel _ => h'0 = h
              | GeminiGenerator.AdaptedByTemplate adapted0 =>
                  Heap.load h'0 adapted0
                  = Some (Spec.adapted r name available substitutions)
              end).
  { by exists (GeminiGenerator.AdaptedByTemplate adapted), h'. }
  unfold GeminiGenerator.adapt_recipe. fold fallback.
  destruct answer as [text|]; [|by rewrite Hf].
  destruct (GeminiGenerator._parse_json_from_response json_loads text) as [[v|]|e];
    [|by rewrite Ht|by rewrite Hf].
  destruct (Json.truthy v) eqn:Hv; [|by rewrite Ht].
  destruct v as [| | | | | | |xs|items]; try (by rewrite Hf).
  pose proof Hload as (d & Hd & _)%load_inv.
  erewrite bind_ok; [|by apply read_dict_ok].
  eexists _, h. split; [reflexivity|]. split; [done|]. split; [exact Hload | done].
Qed.

End Gemini.

Lemma gemini_adapt_recipe_by_model_witness :
  ∃ data,
    GeminiGenerator.adapt_recipe (Json.loads 1000)
      (GeminiGenerator.Responds (Spec.quoted "Here: {'name': 'Pie', 'id': 1}"))
      1 [] [] Examples.cake_store
    = (Py.Ok (GeminiGenerator.AdaptedByModel (Json.Object data)), Examples.cake_store)
    ∧ FallbackAIGenerator.dict_get data "id" = Some (Json.Int 7).
Proof.
  destruct (gemini_adapt_recipe_by_model (Json.loads 1000) Examples.cake_store 1
              (Heap.mk (Some 7%Z) (Some "Cake") (Some "French") None (Some "Easy")
                 None None None (Some 0) None None None None)
              [] [] (Spec.quoted "Here: {'name': 'Pie', 'id': 1}")
              ("name", Json.Str "Pie") [("id", Json.Int 1)] eq_refl eq_refl)
    as (data & Hrun & _ & Hid & _).
  exists data. split; [exact Hrun | exact Hid].
Defined.

Lemma gemini_adapt_recipe_returns_witness :
  ∃ result h',
    GeminiGenerator.adapt_recipe (Json.loads 1000) GeminiGenerator.Fails 1 ["oil"] []
      Examples.cake_store = (Py.Ok result, h')
    ∧ Examples.cake_store `prefix_of` h'.
Proof.
  destruct (gemini_adapt_recipe_returns (Json.loads 1000) GeminiGenerator.Fails
              Examples.cake_store 1 Examples.cake "Cake" ["oil"] [] eq_refl eq_refl)
    as (result & h' & Hrun & Hp & _).
  by exists result, h'.
Defined.

(** A response nested deeper than the decoder allows: the extraction raises
    inside [try], and the generator answers with the recipe of the template
    generator. *)
Example gemini_generate_recipe_deep_nesting :
  GeminiGenerator.generate_recipe (Json.loads 1000) remove_dups
    (GeminiGenerator.Responds (Spec.nested 1000)) Examples.french [] ["leek"]
  = GeminiGenerator.GeneratedByTemplate
      (FallbackAIGenerator.generate_recipe remove_dups Examples.french [] ["leek"]).
Proof. vm_compute. reflexivity. Qed.

(** ** Texts without JSON *)

Lemma occurs_app (c : ascii) (a b : string) :
  Spec.occurs c (a +:+ b) ↔ Spec.occurs c a ∨ Spec.occurs c b.
Proof.
  induction a as [|x a IH]; [simpl; tauto|].
  rewrite str_app_cons. simpl. rewrite IH. tauto.
Qed.

Lemma denotes_array_brackets (span : string) :
  Spec.denotes GeminiGenerator.array_pattern span →
  Spec.occurs "[" span ∧ Spec.occurs "]" span.
Proof.
  unfold GeminiGenerator.array_pattern. intros H.
  inversion H as [| | |r1 r2 s1 s2 H1 H2| |]; subst.
  inversion H1; subst.
  inversion H2 as [| | |r1 r2 s3 s4 H3 H4| |]; subst.
  inversion H4 as [| | |r1 r2 s5 s6 H5 H6| |]; subst.
  inversion H6; subst.
  split.
  - rewrite occurs_app. left. by left.
  - rewrite !occurs_app. right. right. right. by left.
Qed.

Section NoJson.
Variable json_loads : string → Py.result Json.value.

(** A text that lacks a brace of one of the two kinds and a bracket of one
    of the two kinds gives [None], whatever [json.loads] does, raising
    included: nothing is handed to it. *)
Theorem parse_json_needs_braces_or_brackets (text : string) :
  ¬ Spec.occurs "{" text ∨ ¬ Spec.occurs "}" text →
  ¬ Spec.occurs "[" text ∨ ¬ Spec.occurs "]" text →
  GeminiGenerator._parse_json_from_response json_loads text = Py.Ok None.
Proof.
  intros Hobj Harr. rewrite parse_attempts. unfold GeminiGenerator.attempt.
  destruct (Re.search GeminiGenerator.object_pattern text) as [span|] eqn:E1.
  { apply search_object_span in E1 as (pre & mid & post & -> & _ & _ & _).
    exfalso. destruct Hobj as [H|H]; apply H; rewrite !occurs_app.
    - right. left. by left.
    - right. right. right. left. by left. }
  destruct (Re.search GeminiGenerator.array_pattern text) as [span|] eqn:E2; [|reflexivity].
  apply search_sound in E2 as (pre & post & -> & [H1 H2]%denotes_array_brackets).
  exfalso. destruct Harr as [H|H]; apply H; rewrite !occurs_app; tauto.
Qed.

End NoJson.

Lemma parse_json_needs_braces_or_brackets_witness :
  (¬ Spec.occurs "{" "tips } and ]" ∨ ¬ Spec.occurs "}" "tips } and ]")
  ∧ (¬ Spec.occurs "[" "tips } and ]" ∨ ¬ Spec.occurs "]" "tips } and ]")
  ∧ GeminiGenerator._parse_json_from_response (Json.loads 1000) "tips } and ]"
    = Py.Ok None.
Proof.
  assert (H1 : ¬ Spec.occurs "{" "tips } and ]" ∨ ¬ Spec.occurs "}" "tips } and ]").
  { left. simpl. intros H. repeat (destruct H as [H|H]; [discriminate H|]). exact H. }
  assert (H2 : ¬ Spec.occurs "[" "tips } and ]" ∨ ¬ Spec.occurs "]" "tips } and ]").
  { left. simpl. intros H. repeat (destruct H as [H|H]; [discriminate H|]). exact H. }
  split; [exact H1|]. split; [exact H2|].
  exact (parse_json_needs_braces_or_brackets (Json.loads 1000) "tips } and ]" H1 H2).
Defined.

(** ** What the adapted recipe shares with the original *)

(** [recipe.copy()] copies the dict and not what it holds: the adapted dict
    keeps the very lists of steps and tags and the very [dietary_info] dict
    of the original, so an update of one of them through either recipe is
    seen through the other.  Its list of ingredients, on the other hand, is
    a new object. *)
Theorem adapt_recipe_shares
    (h : Heap.t) (recipe : Heap.loc) (r : Recipe.t) (name : string)
    (available : list string) (substitutions : list (string * string)) :
  Heap.load h recipe = Some r →
  Recipe.name r = Some name →
  ∃ adapted h' d d' c,
    h !! recipe = Some (Heap.ODict d)
    ∧ FallbackAIGenerator.adapt_recipe recipe available substitutions h
      = (Py.Ok adapted, h')
    ∧ h' !! adapted = Some (Heap.ODict d')
    ∧ Heap.steps d' = Heap.steps d
    ∧ Heap.tags d' = Heap.tags d
    ∧ Heap.dietary_info d' = Heap.dietary_info d
    ∧ Heap.ingredients d' = Some c
    ∧ length h ≤ c.
Proof.
  intros Hload Hn.
  pose proof Hload as [d (Hd & Hi & Hs & Hdi & Ht & Hid & Hname & Hrest)]%load_inv.
  set (a := length h). set (h1 := h ++ [Heap.ODict d]).
  set (xs0 := default [] (Recipe.ingredients r)).
  assert (Ha1 : h1 !! a = Some (Heap.ODict d)) by (by apply list_lookup_middle).
  assert (Hp1 : h `prefix_of` h1) by (by apply prefix_app_r).
  (* the list that [adapted.get('ingredients', [])] gives *)
  assert (∃ li h2,
            match Heap.ingredients d with
            | Some l => Heap.ret l
            | None => Heap.alloc (Heap.OList [])
            end h1 = (Py.Ok li, h2)
            ∧ h1 `prefix_of` h2 ∧ h2 !! li = Some (Heap.OList xs0))
    as (li & h2 & Hget & Hp2 & Hli).
  { unfold xs0. destruct (Heap.ingredients d) as [l|]; simpl in Hi.
    - destruct (h !! l) as [[| xs |]|] eqn:El; try done. injection Hi as <-.
      exists l, h1. split; [done|]. split; [done|].
      by apply (prefix_lookup_Some h).
    - injection Hi as <-. exists (length h1), (h1 ++ [Heap.OList []]).
      split; [done|]. split; [by apply prefix_app_r | by apply list_lookup_middle]. }
  set (c0 := length h2). set (h3 := h2 ++ [Heap.OList xs0]).
  destruct (for_fold_substitute substitutions c0 xs0 h3) as (c1 & h4 & Hsub & Hp4 & Hc1 & Hle).
  { by apply list_lookup_middle. }
  set (ys := map (Spec.substitute_one substitutions) xs0) in *.
  set (h5 := <[c1:=Heap.OList (map (Spec.fill available) ys)]> h4).
  assert (Hp3 : h `prefix_of` h4).
  { etransitivity; [exact Hp1|]. etransitivity; [exact Hp2|].
    etransitivity; [|exact Hp4]. by apply prefix_app_r. }
  assert (Hlen1 : length h1 = S a) by (unfold h1; rewrite length_app; simpl; lia).
  assert (Hlen2 : S a ≤ c0) by (rewrite <- Hlen1; by apply prefix_length).
  assert (Hac : a ≠ c1) by lia.
  assert (Hc1lt : c1 < length h4) by (by eapply lookup_lt_Some).
  assert (Ha4 : h4 !! a = Some (Heap.ODict d)).
  { apply (prefix_lookup_Some h1); [done|].
    etransitivity; [exact Hp2|]. etransitivity; [|exact Hp4]. by apply prefix_app_r. }
  assert (Ha5 : h5 !! a = Some (Heap.ODict d)).
  { unfold h5. by rewrite list_lookup_insert_ne. }
  set (d6 := Heap.set_ingredients c1 d).
  set (h6 := <[a:=Heap.ODict d6]> h5).
  assert (Hlen5 : a < length h5).
  { by eapply lookup_lt_Some. }
  assert (Ha6 : h6 !! a = Some (Heap.ODict d6)).
  { unfold h6. by rewrite list_lookup_insert_eq. }
  assert (Hp6 : h `prefix_of` h6).
  { unfold h6, h5. apply prefix_insert_ge; [|done].
    apply prefix_insert_ge; [done|]. unfold a in *. lia. }
  assert (En : Heap.name d = Some name) by congruence.
  set (d7 := Heap.set_name (name +:+ " (Adapted)") d6).
  set (d8 := Heap.set_ai_generated true d7).
  set (h8 := <[a:=Heap.ODict d8]> (<[a:=Heap.ODict d7]> h6)).
  exists a, h8, d, d8, c1. split; [exact Hd|]. split; [|split].
  - unfold FallbackAIGenerator.adapt_recipe.
    run_to_name Hd Ha1 Hget Hli Hsub Hc1 Ha5 Ha6.
    change (Heap.name d6) with (Heap.name d). rewrite En.
    erewrite bind_ok; [|reflexivity].
    erewrite bind_ok; [|by apply update_dict_ok]. fold d7.
    erewrite bind_ok; [|apply update_dict_ok; apply list_lookup_insert_eq;
                        unfold h6; by rewrite length_insert].
    reflexivity.
  - unfold h8. apply list_lookup_insert_eq. unfold h6. by rewrite !length_insert.
  - repeat split. unfold a in *. lia.
Qed.

Lemma adapt_recipe_shares_witness :
  ∃ adapted h' d' c,
    FallbackAIGenerator.adapt_recipe 4 ["leek"; "water"] [] Examples.soup_store
    = (Py.Ok adapted, h')
    ∧ h' !! adapted = Some (Heap.ODict d')
    ∧ Heap.steps d' = Some 1
    ∧ Heap.tags d' = Some 3
    ∧ Heap.dietary_info d' = Some 2
    ∧ Heap.ingredients d' = Some c
    ∧ length Examples.soup_store ≤ c.
Proof.
  destruct (adapt_recipe_shares Examples.soup_store 4 Examples.soup "Leek soup"
              ["leek"; "water"] [] eq_refl eq_refl)
    as (adapted & h' & d & d' & c & Hd & Hrun & Hd' & Hs & Ht & Hi & Hc & Hlen).
  injection Hd as <-.
  by exists adapted, h', d', c.
Defined.

Lemma fill_available (available : list string) (ing : string) :
  available ≠ [] → Str.lower (Spec.fill available ing) ∈ map Str.lower available.
Proof.
  intros Ha. unfold Spec.fill.
  destruct (decide (Str.lower ing ∈ map Str.lower available)) as [H|_]; [exact H|].
  destruct available as [|first rest]; [done|]. simpl. by left.
Qed.

(** The ingredients of the adapted recipe: as many as the original has; when
    some ingredient is owned, each of them is an owned one up to case; when
    nothing is owned and nothing is substituted, they are the original
    ones. *)
Theorem adapt_recipe_ingredients
    (h : Heap.t) (recipe : Heap.loc) (r : Recipe.t) (name : string)
    (available : list string) (substitutions : list (string * string)) :
  Heap.load h recipe = Some r →
  Recipe.name r = Some name →
  ∃ adapted h' r' ings',
    FallbackAIGenerator.adapt_recipe recipe available substitutions h
    = (Py.Ok adapted, h')
    ∧ Heap.load h' adapted = Some r'
    ∧ Recipe.ingredients r' = Some ings'
    ∧ length ings' = length (default [] (Recipe.ingredients r))
    ∧ (available ≠ [] → ∀ x, x ∈ ings' → Str.lower x ∈ map Str.lower available)
    ∧ (available = [] → substitutions = [] →
       ings' = default [] (Recipe.ingredients r)).
Proof.
  intros Hload Hname.
  destruct (adapt_recipe_run h recipe r available substitutions Hload)
    as (res & h' & Hrun & _ & _ & H).
  rewrite Hname in H. destruct H as (adapted & -> & _ & Ha).
  eexists adapted, h', _, _. split; [exact Hrun|]. split; [exact Ha|].
  split; [reflexivity|]. split; [by rewrite length_map|]. split.
  - intros Hav x Hx. apply list_elem_of_In, in_map_iff in Hx as (ing & <- & _).
    by apply fill_available.
  - intros -> ->. rewrite <- (map_id (default [] (Recipe.ingredients r))) at 2.
    apply map_ext. intros ing. unfold Spec.fill, Spec.substitute_one.
    cbn [fold_left]. by destruct (decide (Str.lower ing ∈ map Str.lower [])).
Qed.

Lemma adapt_recipe_ingredients_witness :
  ∃ adapted h' r' ings',
    FallbackAIGenerator.adapt_recipe 1 ["oil"; "SUGAR"] [("butter", "ghee")]
      Examples.cake_store = (Py.Ok adapted, h')
    ∧ Heap.load h' adapted = Some r'
    ∧ Recipe.ingredients r' = Some ings'
    ∧ length ings' = 3.
Proof.
  destruct (adapt_recipe_ingredients Examples.cake_store 1 Examples.cake "Cake"
              ["oil"; "SUGAR"] [("butter", "ghee")] eq_refl eq_refl)
    as (adapted & h' & r' & ings' & Hrun & Hl & Hi & Hlen & _).
  by exists adapted, h', r', ings'.
Defined.

(** ** The routes of [app.py] *)

Lemma ranked_recipes_pass recipes prefs R owned (r : Recipe.t) (n : nat) :
  r ∈ map Binary64.recipe (take n (Binary64.filter_recipes recipes prefs R owned)) →
  r ∈ recipes ∧ App.matches_dietary_restrictions r R = true.
Proof.
  intros (e & <- & He)%list_elem_of_In%in_map_iff.
  apply list_elem_of_In in He. apply (subseteq_take n) in He.
  assert (H : Binary64.recipe e
              ∈ Binary64.recipe <$> Binary64.filter_recipes recipes prefs R owned)
    by by apply list_elem_of_fmap_2.
  rewrite filter_recipes64_passing in H.
  apply list_elem_of_filter in H as [H1 H2]. done.
Qed.

(** [/api/recommend] returns the first ten recipes of the ranking and the
    number of all ranked recipes.  [ai_generated_included] says that a recipe
    was generated (generation was asked for, some ingredient is owned and the
    generator returned), not that it is among the recipes returned: the
    generated recipe is counted and returned only if it passes the dietary
    check, and only among the first ten. *)
Theorem recommend_recipes_spec
    (generate : Preferences.t → list string → list string → Py.result Recipe.t)
    (stored : list Recipe.t) (data : Routes.recommend_request) :
  let resp := Routes.recommend_recipes generate stored data in
  let prefs := default (Preferences.mk None None None) (Routes.req_preferences data) in
  let R := default [] (Routes.req_dietary_restrictions data) in
  let owned := default [] (Routes.req_available_ingredients data) in
  let asked := default false (Routes.req_use_ai_generation data)
               && negb (bool_decide (owned = [])) in
  let passing := length (filter (λ r, App.matches_dietary_restrictions r R = true) stored) in
  length (Routes.recipes resp) = Nat.min 10 (Routes.total_matches resp)
  ∧ (∀ r, r ∈ Routes.recipes resp → App.matches_dietary_restrictions r R = true)
  ∧ (Routes.ai_generated_included resp = true
     ↔ asked = true ∧ ∃ g, generate prefs R owned = Py.Ok g)
  ∧ (∀ g, asked = true → generate prefs R owned = Py.Ok g →
       Routes.total_matches resp
       = passing + (if App.matches_dietary_restrictions g R then 1 else 0))
  ∧ (Routes.ai_generated_included resp = false →
       Routes.total_matches resp = passing
       ∧ Routes.recipes resp
         = map Binary64.recipe (take 10 (Binary64.filter_recipes stored prefs R owned))).
Proof.
  intros resp prefs R owned asked passing.
  unfold resp, Routes.recommend_recipes. fold prefs R owned. fold asked.
  assert (Hyes : ∀ g : Recipe.t, bool_decide (is_Some (Some g)) = true).
  { intros g. by apply bool_decide_eq_true. }
  assert (Hno : bool_decide (is_Some (@None Recipe.t)) = false).
  { apply bool_decide_eq_false. by intros [? [=]]. }
  destruct asked eqn:Ea.
  - destruct (generate prefs R owned) as [g|e] eqn:Eg; cbv beta iota zeta;
      cbn [Routes.recipes Routes.total_matches Routes.ai_generated_included].
    + rewrite Hyes.
      split; [by rewrite length_map, length_take|].
      split; [intros r Hr; by apply ranked_recipes_pass in Hr as [_ ?]|].
      split; [split; [intros _; eauto | done]|].
      split; [|discriminate].
      intros g' _ [= <-].
      rewrite length_filter_recipes64, filter_app, length_app.
      f_equal. rewrite filter_cons, filter_nil.
      destruct (App.matches_dietary_restrictions g R); [by rewrite decide_True|].
      by rewrite decide_False.
    + rewrite Hno.
      split; [by rewrite length_map, length_take|].
      split; [intros r Hr; by apply ranked_recipes_pass in Hr as [_ ?]|].
      split; [split; [discriminate | intros [_ [g [=]]]]|].
      split; [intros g _ [=]|]. intros _.
      split; [apply length_filter_recipes64 | reflexivity].
  - cbv beta iota zeta;
      cbn [Routes.recipes Routes.total_matches Routes.ai_generated_included].
    rewrite Hno.
    split; [by rewrite length_map, length_take|].
    split; [intros r Hr; by apply ranked_recipes_pass in Hr as [_ ?]|].
    split; [split; [discriminate | intros [[=] _]]|].
    split; [intros g [=]|]. intros _.
    split; [apply length_filter_recipes64 | reflexivity].
Qed.

(** A generated recipe that fails the dietary check (the label is not in
    lower case) is announced and not returned. *)
Example recommend_announces_a_recipe_it_drops :
  let resp :=
    Routes.recommend_recipes
      (λ prefs R owned,
         Py.Ok (FallbackAIGenerator.generate_recipe remove_dups prefs R owned))
      [] (Routes.Build_recommend_request None (Some ["Vegan"]) (Some ["rice"]) (Some true)) in
  Routes.ai_generated_included resp = true ∧ Routes.recipes resp = [].
Proof. split; reflexivity. Qed.

Lemma find_recipe_run (h : Heap.t) (recipe_id : Z) (recipes : list Heap.loc) :
  Forall (λ l, ∃ r, Heap.load h l = Some r) recipes →
  ∃ found,
    Routes.find_recipe recipes recipe_id h = (Py.Ok found, h)
    ∧ match found with
      | Some l => l ∈ recipes ∧ ∃ r, Heap.load h l = Some r ∧ Recipe.id r = Some recipe_id
      | None => ∀ l r, l ∈ recipes → Heap.load h l = Some r → Recipe.id r ≠ Some recipe_id
      end.
Proof.
  induction 1 as [|l recipes [r Hr] _ IH].
  - exists None. split; [reflexivity|]. intros l r Hl. by apply elem_of_nil in Hl.
  - pose proof Hr as (d & Hd & _ & _ & _ & _ & Hid & _)%load_inv.
    cbn [Routes.find_recipe]. erewrite bind_ok; [|by apply read_dict_ok].
    destruct (bool_decide (Heap.id d = Some recipe_id)) eqn:E.
    + apply bool_decide_eq_true in E. exists (Some l). split; [reflexivity|].
      split; [by left|]. exists r. split; [done | congruence].
    + apply bool_decide_eq_false in E. destruct IH as (found & Hrun & Hfound).
      exists found. split; [exact Hrun|]. destruct found as [l'|].
      * destruct Hfound as [Hin Hex]. split; [by right | exact Hex].
      * intros l' r' [->|Hin]%elem_of_cons Hl'; [|by eapply Hfound].
        rewrite Hr in Hl'. injection Hl' as <-. congruence.
Qed.




(** With two stored recipes of one id, the first of which has no name, the
    answer is the 500 of the first. *)
Example adapt_route_takes_the_first :
  fst (Routes.adapt_recipe FallbackAIGenerator.adapt_recipe [1; 3] 3
         (Routes.Build_adapt_request (Some ["oil"]) None) Examples.twins_store)
  = Py.Ok (Routes.ServerError (Py.KeyError "name")).
Proof. reflexivity. Qed.

(** ** The commands of [cli.py] *)

(** The [recommend] command prints the message that nothing matches exactly
    when no recipe passes the dietary check.  Otherwise it prints at least
    one recipe, also for [--top 0] or a negative number: as many as [--top]
    says, if so many are ranked. *)
Theorem cli_recommend_spec
    (recipes : list Recipe.t) (cuisine meal_type difficulty : string)
    (diet have : list string) (top : Z) :
  let out := CliMain.recommend recipes cuisine meal_type difficulty diet have top in
  let passing :=
    length (filter (λ r, Cli.matches_dietary_restrictions r diet = true) recipes) in
  (out = CliMain.NoMatch ↔ passing = 0)
  ∧ (∀ printed, out = CliMain.Printed printed →
       length printed = Nat.min (Z.to_nat (Z.max 1 top)) passing
       ∧ 1 ≤ length printed
       ∧ ((top <= 1)%Z → length printed = 1)).
Proof.
  intros out passing. unfold out, CliMain.recommend.
  rewrite cli_filter_recipes64.
  set (prefs := Preferences.mk (Some cuisine) (Some meal_type) (Some difficulty)).
  assert (Hlen : length (Binary64.filter_recipes recipes prefs diet have) = passing).
  { rewrite length_filter_recipes64. unfold passing.
    f_equal. apply list_filter_iff. intros r. by rewrite cli_matches_dietary_restrictions. }
  destruct (Binary64.filter_recipes recipes prefs diet have) as [|e filtered] eqn:E.
  - simpl in Hlen. split; [done|]. intros printed [=].
  - simpl in Hlen. split; [split; [discriminate | lia]|].
    intros printed [= <-]. rewrite length_map, length_take. cbn [length]. lia.
Qed.

(** ** Which generator is used, and what [ai_status] says *)

Lemma lstrip_empty (s : string) :
  Config.lstrip s = "" ↔ ∀ c, Spec.occurs c s → Config.is_space c = true.
Proof.
  induction s as [|x s IH]; simpl.
  - split; [by intros _ c [] | done].
  - destruct (Config.is_space x) eqn:E.
    + rewrite IH. split.
      * intros H c [->|Hc]; [done | by apply H].
      * intros H c Hc. apply H. by right.
    + split; [done|]. intros H. rewrite (H x) in E by (by left). discriminate.
Qed.

Lemma rstrip_empty (s : string) :
  Config.rstrip s = "" ↔ ∀ c, Spec.occurs c s → Config.is_space c = true.
Proof.
  induction s as [|x s IH]; simpl.
  - split; [by intros _ c [] | done].
  - destruct (Config.rstrip s) as [|y r] eqn:Er.
    + destruct (Config.is_space x) eqn:E.
      * split; [|done]. intros _ c [->|Hc]; [done|]. by apply (proj1 IH).
      * split; [done|]. intros H. rewrite (H x) in E by (by left). discriminate.
    + split; [done|]. intros H. exfalso.
      assert (String y r = "") as Hn; [|discriminate Hn].
      apply IH. intros c Hc. apply H. by right.
Qed.

Lemma lstrip_occurs (s : string) (c : ascii) :
  Spec.occurs c (Config.lstrip s) → Spec.occurs c s.
Proof.
  induction s as [|x s IH]; simpl; [done|].
  destruct (Config.is_space x); [intros H; right; by apply IH | done].
Qed.

Lemma strip_empty (s : string) :
  Config.strip s = "" ↔ ∀ c, Spec.occurs c s → Config.is_space c = true.
Proof.
  unfold Config.strip. rewrite rstrip_empty. split.
  - intros H. apply lstrip_empty.
    destruct (Config.lstrip s) as [|x t] eqn:E; [done|].
    assert (Hx : Config.is_space x = true) by (apply H; by left).
    clear H. exfalso. revert E Hx. clear. induction s as [|y s IH]; simpl; [done|].
    destruct (Config.is_space y) eqn:Ey; [exact IH|]. intros [= -> ->]. congruence.
  - intros H c Hc. apply H. by apply lstrip_occurs.
Qed.

Lemma all_space_or_not (s : string) :
  (∀ c, Spec.occurs c s → Config.is_space c = true)
  ∨ (∃ c, Spec.occurs c s ∧ Config.is_space c = false).
Proof.
  induction s as [|x s [IH|(c & Hc & Hs)]].
  - left. by intros c [].
  - destruct (Config.is_space x) eqn:Ex.
    + left. intros c [->|Hc]; [done | by apply IH].
    + right. exists x. split; [by left | done].
  - right. exists c. split; [by right | done].
Qed.

(** The Gemini generator is chosen only if the library is there, a key is
    found that is not the empty string, and the construction succeeds; the
    key of [GEMINI_API_KEY] in the environment comes before the one of
    [GOOGLE_API_KEY].  [ai_status] looks at the same key and at nothing else:
    it reports Gemini exactly when that key has a character that is not
    white space, whether or not the generator in use is the Gemini one. *)
Theorem generator_selection
    (available init_ok : bool) (env_gemini env_google : option string) :
  let key := Config.api_key env_gemini env_google in
  (Config.get_ai_generator available env_gemini env_google init_ok = Config.Gemini
   ↔ available = true ∧ init_ok = true ∧ ∃ k, key = Some k ∧ k ≠ "")
  ∧ (∀ k, env_gemini = Some k → k ≠ "" → key = Some k)
  ∧ (Config.has_gemini (Config.ai_status env_gemini env_google) = true
     ↔ ∃ k c, key = Some k ∧ Spec.occurs c k ∧ Config.is_space c = false)
  ∧ Config.ai_available (Config.ai_status env_gemini env_google) = true.
Proof.
  intros key.
  assert (Htruthy : Config.truthy key = true ↔ ∃ k, key = Some k ∧ k ≠ "").
  { unfold Config.truthy, Str.truthy. destruct key as [k|].
    - rewrite negb_true_iff. case String.eqb_spec; intros Hk.
      + split; [done|]. intros [k' [[= <-] H]]. done.
      + split; [by eauto | done].
    - split; [done | by intros [k [? _]]]. }
  split; [|split; [|split; [|reflexivity]]].
  - unfold Config.get_ai_generator. fold key. rewrite <- Htruthy.
    destruct available, (Config.truthy key), init_ok; simpl; intuition congruence.
  - intros k -> Hk. unfold key, Config.api_key, Config.py_or, Config.GEMINI_API_KEY.
    cbn. unfold Str.truthy. by rewrite (proj2 (String.eqb_neq _ _) Hk).
  - unfold Config.ai_status. cbn [Config.has_gemini]. fold key.
    destruct key as [k|]; [|split; [done | by intros (? & ? & ? & _)]].
    rewrite negb_true_iff. split.
    + intros H. apply String.eqb_neq in H.
      destruct (all_space_or_not k) as [Hall|(c & Hc & Hs)].
      * by apply strip_empty in Hall.
      * by exists k, c.
    + intros (k' & c & [= <-] & Hc & Hs). apply String.eqb_neq. intros H.
      rewrite (proj1 (strip_empty k) H c Hc) in Hs. discriminate.
Qed.

(** With the library missing the template generator is used, whatever
    [ai_status] says of the key. *)
Example status_and_selection_differ :
  Config.get_ai_generator false (Some "key") None true = Config.Fallback
  ∧ Config.has_gemini (Config.ai_status (Some "key") None) = true.
Proof. split; reflexivity. Qed.

(** ** Tips of the template generator *)

(** There are three tips, and a fourth one for the meal types "Breakfast"
    and "Dinner"; a recipe without meal type counts as a dinner. *)
Theorem generate_cooking_tips_length (recipe : Recipe.t) :
  let tips := FallbackAIGenerator.generate_cooking_tips recipe in
  let meal_type := default "Dinner" (Recipe.meal_type recipe) in
  (meal_type = "Breakfast" ∨ meal_type = "Dinner" → length tips = 4)
  ∧ (meal_type ≠ "Breakfast" → meal_type ≠ "Dinner" → length tips = 3)
  ∧ (Recipe.meal_type recipe = None → length tips = 4)
  ∧ take 1 tips
    = ["Always prep your ingredients before you start cooking (mise en place)."].
Proof.
  intros tips meal_type. unfold tips, FallbackAIGenerator.generate_cooking_tips.
  fold meal_type.
  assert (H : Recipe.meal_type recipe = None → meal_type = "Dinner").
  { unfold meal_type. by intros ->. }
  destruct (String.eqb_spec meal_type "Breakfast") as [Hb|Hb];
    [|destruct (String.eqb_spec meal_type "Dinner") as [Hd|Hd]];
    repeat split; try done;
    try (intros [?|?]; congruence);
    try (intros Hn; apply H in Hn; congruence);
    try (intros; congruence).
Qed.

(** ** The [adapt] command of [cli.py] *)

(** The [adapt] command with the template generator says that the recipe is
    not found exactly when no stored recipe has the id.  For a recipe with a
    name it prints the adapted copy, whose ingredients are the original ones
    when [--have] is not given.  For a recipe without a name the [KeyError]
    of the generator ends the command: nothing catches it. *)
Theorem cli_adapt_spec
    (h : Heap.t) (recipes : list Heap.loc) (id : Z) (have : list string) :
  Forall (λ l, ∃ r, Heap.load h l = Some r) recipes →
  ∃ res h',
    CliMain.adapt FallbackAIGenerator.adapt_recipe recipes id have h = (res, h')
    ∧ h `prefix_of` h'
    ∧ match res with
      | Py.Ok None =>
          ∀ l r, l ∈ recipes → Heap.load h l = Some r → Recipe.id r ≠ Some id
      | Py.Ok (Some adapted) =>
          ∃ l r name r',
            l ∈ recipes ∧ Heap.load h l = Some r ∧ Recipe.id r = Some id
            ∧ Recipe.name r = Some name
            ∧ Heap.load h' adapted = Some r'
            ∧ r' = Spec.adapted r name have []
            ∧ (have = [] →
               Recipe.ingredients r' = Some (default [] (Recipe.ingredients r)))
      | Py.Raise e =>
          e = Py.KeyError "name"
          ∧ ∃ l r, l ∈ recipes ∧ Heap.load h l = Some r
                   ∧ Recipe.id r = Some id ∧ Recipe.name r = None
      end.
Proof.
  intros Hwf.
  destruct (find_recipe_run h id recipes Hwf) as (found & Hfind & Hfound).
  unfold CliMain.adapt. erewrite bind_ok; [|exact Hfind].
  destruct found as [l|].
  - destruct Hfound as (Hin & r & Hr & Hid).
    destruct (adapt_recipe_run h l r have [] Hr) as (res & h' & Hrun & Hp & _ & H).
    destruct (Recipe.name r) as [name|] eqn:En.
    + destruct H as (adapted & -> & _ & Ha).
      erewrite bind_ok; [|exact Hrun].
      exists (Py.Ok (Some adapted)), h'. split; [reflexivity|]. split; [exact Hp|].
      exists l, r, name, (Spec.adapted r name have []).
      repeat (split; [done|]). intros ->. cbn [Spec.adapted Recipe.ingredients]. f_equal.
      rewrite <- (map_id (default [] (Recipe.ingredients r))) at 2.
      apply map_ext. intros ing. unfold Spec.fill, Spec.substitute_one.
      cbn [fold_left]. by destruct (decide (Str.lower ing ∈ map Str.lower [])).
    + subst res. erewrite bind_raise; [|exact Hrun].
      exists (Py.Raise (Py.KeyError "name")), h'.
      split; [reflexivity|]. split; [exact Hp|]. split; [reflexivity|]. by exists l, r.
  - exists (Py.Ok None), h. split; [reflexivity|]. split; [done | exact Hfound].
Qed.

Lemma cli_adapt_spec_witness :
  Forall (λ l, ∃ r, Heap.load Examples.cake_store l = Some r) [1]
  ∧ ∃ res h',
      CliMain.adapt FallbackAIGenerator.adapt_recipe [1] 7 [] Examples.cake_store
      = (res, h')
      ∧ Examples.cake_store `prefix_of` h'.
Proof.
  assert (H : Forall (λ l, ∃ r, Heap.load Examples.cake_store l = Some r) [1]).
  { constructor; [by exists Examples.cake | constructor]. }
  split; [exact H|].
  destruct (cli_adapt_spec Examples.cake_store [1] 7 [] H)
    as (res & h' & Hrun & Hp & _).
  by exists res, h'.
Defined.
